(** * bpvo: the [vo_perf] driver and the odometry core it drives

    [apps/vo_perf.cc] reads a configuration, builds a dataset and a
    visual-odometry engine, feeds up to [numframes] frames to
    [addFrame], prints one progress line per frame and finally writes
    the trajectory, the iteration counts and the processing times to
    text files.

    The driver is embedded from its source.  What it takes from the
    headers it includes (dataset, display, timer, stream formatting,
    the engine behind [Vo::addFrame]) is an interface here: a class of
    operations, so that every statement about the driver holds for any
    implementation of them.  Floating-point values stay abstract: the
    driver only moves them around. *)

From stdpp Require Import base list strings numbers.
From Stdlib Require Import ZArith Lia DecimalString.
From Stdlib Require DecimalZ.

Open Scope Z_scope.

(** ** Text *)

(** The line feed: the escape written backslash-n in the C++ source. *)
Definition LF : Ascii.ascii := Ascii.ascii_of_nat 10.
Definition endl : string := String LF EmptyString.

(** [ofs << int]: a signed decimal numeral. *)
Definition show_int (n : Z) : string := NilZero.string_of_int (Z.to_int n).

(** [for (i = 0; i < v.size(); ++i) ofs << v[i] << "\n";] *)
Fixpoint put_lines {A : Type} (show : A -> string) (v : list A) : string :=
  match v with
  | [] => EmptyString
  | x :: v' => show x +:+ endl +:+ put_lines show v'
  end.

(** Whether a text contains a line feed, and how many. *)
Fixpoint has_LF (s : string) : bool :=
  match s with
  | EmptyString => false
  | String c s' => if Ascii.eqb c LF then true else has_LF s'
  end.

Fixpoint count_LF (s : string) : nat :=
  match s with
  | EmptyString => 0%nat
  | String c s' => ((if Ascii.eqb c LF then 1 else 0) + count_LF s')%nat
  end.

(** The lines of a text, each one ended by a line feed; [acc] holds the
    characters of the current line, latest first.  Characters after the
    last line feed are not a line. *)
Fixpoint rev_string (acc : list Ascii.ascii) (s : string) : string :=
  match acc with
  | [] => s
  | c :: acc' => rev_string acc' (String c s)
  end.

Fixpoint lines_from (acc : list Ascii.ascii) (s : string) : list string :=
  match s with
  | EmptyString => []
  | String c s' =>
      if Ascii.eqb c LF then rev_string acc EmptyString :: lines_from [] s'
      else lines_from (c :: acc) s'
  end.

Definition lines (s : string) : list string := lines_from [] s.

(** ** Data of the odometry interface ([bpvo/types.h]) *)

(** Modelled from the spec: the enumeration [KeyFramingReason] is declared
    in a header that is not part of the sources at hand.  Section 4.3 of
    the design names five members and leaves the list open; the member
    reported by the call that seeds the first keyframe (section 4.5) is
    the one added here, [ForceKeyframe_FirstFrame]. *)
Inductive KeyFramingReason :=
| KeepOldKeyframe
| ForceKeyframe_MaxTranslation
| ForceKeyframe_MaxRotation
| ForceKeyframe_LowTrackingQuality
| ForceKeyframe_MaxIterationsAtFinestLevel
| ForceKeyframe_FirstFrame.

Global Instance KeyFramingReason_eq_dec : EqDecision KeyFramingReason.
Proof. solve_decision. Defined.

(** Modelled from the spec: [AlgorithmParameters] (bpvo/types.h, absent).
    The driver reads [maxTestLevel] and [maxIterations]; the level count
    and the remaining thresholds are the options section 3 lists, the
    thresholds kept together as one value of a type the numerics choose. *)
Record AlgorithmParameters {Tuning : Type} := {
  numPyramidLevels : Z;
  maxIterations : Z;
  maxTestLevel : Z;
  thresholds : Tuning
}.
Arguments AlgorithmParameters : clear implicits.

(** Modelled from the spec: [OptimizerStatistics] (absent header): per
    level the iterations performed, the final cost and the converged
    flag.  The driver reads [numIterations] only. *)
Record OptimizerStatistics {Cost : Type} := {
  numIterations : Z;
  finalError : Cost;
  converged : bool
}.
Arguments OptimizerStatistics : clear implicits.

(** Modelled from the spec: [Result] (absent header).  The driver reads
    all three fields. *)
Record Result {Pose Cost : Type} := {
  pose : Pose;
  optimizerStatistics : list (OptimizerStatistics Cost);
  keyFramingReason : KeyFramingReason
}.
Arguments Result : clear implicits.

(** ** What the driver takes from its surroundings *)

Class Platform := {
  (** [DatasetFrame], and what its [image()] and [disparity()] give *)
  Frame : Type;
  Image : Type;
  Disparity : Type;
  image : Frame -> Image;
  disparity : Frame -> Disparity;
  (** the pose type held by [Result] and [Trajectory] *)
  Pose : Type;
  (** C++ [double] and [float], and the arithmetic the driver does *)
  double : Type;
  float : Type;
  (** the thresholds of the configuration that only the numerics read *)
  Tuning : Type;
  double_zero : double;                       (* 0.0 *)
  double_add : double -> double -> double;    (* a + b *)
  double_div : double -> double -> double;    (* a / b *)
  double_1000 : double;                       (* 1000.0 *)
  double_of_int : Z -> double;                (* int converted for int / double *)
  float_of_double : double -> float;          (* the narrowing of push_back(tt) *)
  (** [Dataset::Create] and [Dataset::getFrame]; no frame is a null pointer *)
  Dataset : Type;
  Dataset_Create : string -> Dataset;
  getFrame : Dataset -> Z -> option Frame;
  (** the value [cv::waitKey(5)] returns while frame [f_i] is shown *)
  waitKey : Z -> Z;
  (** what [Timer::stop().count()] measures around the call for frame [f_i] *)
  timer_count : Z -> double;
  (** [ToString(KeyFramingReason)] *)
  ToString : KeyFramingReason -> string;
  (** stream insertion of a pose and of a float *)
  show_pose : Pose -> string;
  show_float : float -> string;
  (** whether [std::ofstream ofs(name)] opens *)
  is_open : string -> bool
}.

(** The engine behind [Vo]: [VisualOdometryWithKeyFraming], built by the
    constructor of [Vo] from the calibration and image size of the dataset
    and the parameters, its [addFrame(I, D)], and the constructor of
    [AlgorithmParameters].  A failed load is a configuration error; a
    failed [addFrame] is an exception thrown out of the call. *)
Class Odometry `{Platform} := {
  Engine : Type;
  AlgorithmParameters_load : string -> option (AlgorithmParameters Tuning);
  Vo_new : Dataset -> AlgorithmParameters Tuning -> Engine;
  impl_addFrame :
    Engine -> Image -> Disparity -> option (Result Pose double * Engine)
}.

(** ** [Trajectory] *)

(** Modelled from the spec: class [Trajectory] (bpvo/trajectory.h, absent):
    an append-only ordered sequence of poses.  [push_back] appends at the
    end, [size] is the number of poses, [operator[]] reads by position. *)
Module Trajectory.
Definition t (P : Type) : Type := list P.
Definition empty {P : Type} : t P := [].
Definition push_back {P : Type} (tr : t P) (p : P) : t P := tr ++ [p].
Definition size {P : Type} (tr : t P) : nat := length tr.
Definition at_ {P : Type} (tr : t P) (i : nat) : option P := tr !! i.
End Trajectory.

(** ** The driver: [main] of apps/vo_perf.cc *)

(** The command line after [ProgramOptions::parse]; the defaults are the
    ones the source gives. *)
Record Options := {
  opt_config : string;
  opt_output : string;
  opt_numframes : Z;
  opt_dontshow : bool
}.

Definition default_options : Options :=
  {| opt_config := "/home/halismai/code/bpvo/conf/tsukuba_stereo.cfg";
     opt_output := "";
     opt_numframes := 1000;
     opt_dontshow := false |}.

Section Driver.
Context `{OD : Odometry}.

(** [Vo::addFrame] on a dataset frame, lines 31-40: the image and the
    disparity of the frame go to [_impl->addFrame]. *)
Definition Vo_addFrame (v : Engine) (frame : Frame)
  : option (Result Pose double * Engine) :=
  impl_addFrame v (image frame) (disparity frame).

(** The arguments of the [fprintf] of lines 103-105, in the order of its
    format: frame number, milliseconds, rate, iterations, keyframing
    reason, number of points. *)
Record ProgressLine := {
  shown_frame : Z;
  shown_ms : double;
  shown_hz : double;
  shown_iters : Z;
  shown_reason : string;
  shown_points : Z
}.

(** What the run shows on the console, in order. *)
Inductive event :=
| Log_info (msg : string)
| Warn_max_iterations (f_i : Z)
| Stdout_newline
| Progress (line : ProgressLine)
| ImShow (shown : Image)
| Printf_writing_results (prefix : string).

(** What the run leaves on disk, in order. *)
Inductive file_effect :=
| CameraPath (name : string) (tr : Trajectory.t Pose)
| TextFile (name : string) (content : string).

(** Ways the run leaves the path to [return 0]: an exception nobody
    catches (a failed load of the parameters, the [length_error] of
    [reserve], a throwing [addFrame]), or a read outside the statistics
    vector at line 97, where the source checks nothing and the behaviour
    of the program is not defined. *)
Inductive failure :=
| ConfigurationError
| LengthError
| AddFrameError (f_i : Z)
| StatisticsOutOfRange (f_i : Z).

(** The variables of [main] that the loop updates, and what the console
    has shown so far. *)
Record Locals := {
  vo : Engine;
  trajectory : Trajectory.t Pose;
  iterations : list Z;
  time_ms : list float;
  total_time : double;
  console : list event
}.

Definition say (st : Locals) (es : list event) : Locals :=
  {| vo := vo st; trajectory := trajectory st; iterations := iterations st;
     time_ms := time_ms st; total_time := total_time st;
     console := console st ++ es |}.

Inductive control :=
| Continue (st : Locals)
| Break (st : Locals)
| Throw (e : failure).

Variable dataset : Dataset.
Variable params : AlgorithmParameters Tuning.
Variable do_show : bool.

(** [result.optimizerStatistics[maxTestLevel]]: [std::vector::operator[]]
    does not check its index; an index outside the vector (a negative
    [int] becomes a huge [size_t]) has no defined behaviour and is
    reported as [None]. *)
Definition stats_at (r : Result Pose double) (level : Z)
  : option (OptimizerStatistics double) :=
  if level <? 0 then None else optimizerStatistics r !! Z.to_nat level.

(** Lines 85-90: with the display on, [k = 0xff & cv::waitKey(5)] is
    compared with the character [q], code 113. *)
Definition quit_pressed (f_i : Z) : bool :=
  do_show && (Z.land 255 (waitKey f_i) =? 113).

(** Lines 98-101. *)
Definition warn_if_capped (f_i num_iters : Z) : list event :=
  if num_iters =? maxIterations params
  then [Stdout_newline; Warn_max_iterations f_i]
  else [].

(** The body of the [for] loop, lines 79-110. *)
Definition body (f_i : Z) (st : Locals) : control :=
  match getFrame dataset f_i with
  | None => Break (say st [Log_info ("no more data" +:+ endl)])
  | Some frame =>
      let st := if do_show then say st [ImShow (image frame)] else st in
      if quit_pressed f_i then Break st
      else
        match Vo_addFrame (vo st) frame with
        | None => Throw (AddFrameError f_i)
        | Some (result, vo') =>
            let tt := timer_count f_i in
            let total := double_add (total_time st) (double_div tt double_1000) in
            match stats_at result (maxTestLevel params) with
            | None => Throw (StatisticsOutOfRange f_i)
            | Some s =>
                let num_iters := numIterations s in
                Continue
                  {| vo := vo';
                     trajectory := Trajectory.push_back (trajectory st) (pose result);
                     iterations := iterations st ++ [num_iters];
                     time_ms := time_ms st ++ [float_of_double tt];
                     total_time := total;
                     console :=
                       console st ++ warn_if_capped f_i num_iters ++
                       [Progress
                          {| shown_frame := f_i - 1;
                             shown_ms := tt;
                             shown_hz := double_div (double_of_int (f_i - 1)) total;
                             shown_iters := num_iters;
                             shown_reason := ToString (keyFramingReason result);
                             shown_points := 0 |}] |}
            end
        end
  end.

(** How the loop ends. *)
Inductive loop_end :=
| Exited (f_i : Z) (st : Locals)
| Thrown (e : failure)
| Unfinished.

(** [for (f_i = 0; f_i < max_frames; ++f_i) body].  [fuel] bounds the
    number of bodies run; [Unfinished] is a loop cut off by it.  The
    increment cannot overflow: it is reached with [f_i < max_frames]. *)
Fixpoint loop (fuel : nat) (max_frames f_i : Z) (st : Locals) : loop_end :=
  if f_i <? max_frames then
    match fuel with
    | O => Unfinished
    | S fuel' =>
        match body f_i st with
        | Continue st' => loop fuel' max_frames (f_i + 1) st'
        | Break st' => Exited f_i st'
        | Throw e => Thrown e
        end
    end
  else Exited f_i st.

(** Lines 116-148, the files; an [ofstream] that does not open writes
    nothing. *)
Definition write_listing {A : Type} (show : A -> string) (name : string)
    (v : list A) : list file_effect :=
  if is_open name then [TextFile name (put_lines show v)] else [].

Definition write_results (output_fn : string) (st : Locals) : list file_effect :=
  CameraPath (output_fn +:+ "_path.txt") (trajectory st)
  :: write_listing show_pose (output_fn +:+ "_poses.txt") (trajectory st)
  ++ write_listing show_int (output_fn +:+ "_iterations.txt") (iterations st)
  ++ write_listing show_float (output_fn +:+ "_time.txt") (time_ms st).

End Driver.

Section Main.
Context `{OD : Odometry}.

(** How the process ends: [return 0] with what it has shown, recorded and
    written, a [failure], or a loop that did not end. *)
Inductive outcome :=
| Returned (code : Z) (f_i : Z) (st : Locals) (files : list file_effect)
| Aborted (e : failure)
| Hung.

(** The state at line 76: an empty trajectory, empty vectors, no time. *)
Definition start (engine : Engine) : Locals :=
  {| vo := engine; trajectory := Trajectory.empty; iterations := [];
     time_ms := []; total_time := double_zero; console := [] |}.

(** Lines 113-148. *)
Definition finish (output_fn : string) (f_i : Z) (st : Locals) : outcome :=
  let st := say st [Stdout_newline; Log_info ("done" +:+ endl)] in
  if String.eqb output_fn EmptyString then Returned 0 f_i st []
  else Returned 0 f_i (say st [Printf_writing_results output_fn])
         (write_results output_fn st).

(** [main].  [std::vector::reserve] takes a [size_t]: a negative
    [max_frames] converts to a size above [max_size()] and the call
    throws [std::length_error] before the loop is reached.  Option
    parsing and [Dataset::Create] are taken to succeed, and memory not to
    run out: a process that ends there has processed no frame. *)
Definition main (options : Options) : outcome :=
  let conf_fn := opt_config options in
  let max_frames := opt_numframes options in
  let do_show := negb (opt_dontshow options) in
  let output_fn := opt_output options in
  let dataset := Dataset_Create conf_fn in
  match AlgorithmParameters_load conf_fn with
  | None => Aborted ConfigurationError
  | Some params =>
      let engine := Vo_new dataset params in
      if max_frames <? 0 then Aborted LengthError
      else
        match loop dataset params do_show (Z.to_nat max_frames) max_frames 0
                (start engine) with
        | Exited f_i st => finish output_fn f_i st
        | Thrown e => Aborted e
        | Unfinished => Hung
        end
  end.

(** ** The frames of a run, for the statements *)

(** The frames [getFrame] gives for the indices [from, from + n). *)
Definition frames_from (dataset : Dataset) (from : Z) (n : nat)
  : list (option Frame) :=
  (fun i => getFrame dataset i) <$> seqZ from (Z.of_nat n).

(** The results of calling [addFrame] on the frames in order, and the
    engine after the last call; [None] when a call fails. *)
Fixpoint feed (e : Engine) (frames : list Frame)
  : option (list (Result Pose double) * Engine) :=
  match frames with
  | [] => Some ([], e)
  | f :: frames' =>
      match Vo_addFrame e f with
      | None => None
      | Some (r, e') =>
          match feed e' frames' with
          | None => None
          | Some (rs, e'') => Some (r :: rs, e'')
          end
      end
  end.

(** The time accumulated over the frames [0 .. n-1], as line 95 adds it. *)
Fixpoint accumulated (n : nat) : double :=
  match n with
  | O => double_zero
  | S n' => double_add (accumulated n')
              (double_div (timer_count (Z.of_nat n')) double_1000)
  end.

(** The frames the console warns about and its progress lines, in order. *)
Definition warned (c : list event) : list Z :=
  omap (fun e => match e with Warn_max_iterations i => Some i | _ => None end) c.

Definition progress_lines (c : list event) : list ProgressLine :=
  omap (fun e => match e with Progress l => Some l | _ => None end) c.

(** What is on the console when a body has run from [st]. *)
Definition console_after (st : Locals) (c : control) : list event :=
  match c with
  | Continue st' => console st'
  | Break st' => console st'
  | Throw _ => console st
  end.

(** The locals after [k] whole bodies, for the frames [0 .. k-1]; [None]
    when one of them left the loop or threw. *)
Fixpoint after (dataset : Dataset) (params : AlgorithmParameters Tuning)
    (do_show : bool) (st0 : Locals) (k : nat) : option Locals :=
  match k with
  | O => Some st0
  | S k' =>
      match after dataset params do_show st0 k' with
      | Some st =>
          match body dataset params do_show (Z.of_nat k') st with
          | Continue st' => Some st'
          | _ => None
          end
      | None => None
      end
  end.

(** The iteration count the driver reads from a result (line 97). *)
Definition iters_of (params : AlgorithmParameters Tuning)
    (r : Result Pose double) : Z :=
  match stats_at r (maxTestLevel params) with
  | Some s => numIterations s
  | None => 0
  end.

(** [n] frames were processed: the dataset gave the frames [0 .. n-1],
    and the calls of [addFrame] on them, in order from the engine
    [engine], all returned and gave [results], leaving the engine as
    [final]; each result had statistics at the inspected level. *)
Definition processed (dataset : Dataset) (params : AlgorithmParameters Tuning)
    (engine : Engine) (n : nat) (results : list (Result Pose double))
    (final : Engine) : Prop :=
  exists frames : list Frame,
    frames_from dataset 0 n = Some <$> frames /\
    feed engine frames = Some (results, final) /\
    Forall (fun r => is_Some (stats_at r (maxTestLevel params))) results.

(** The progress line of frame [i] with result [r], as lines 103-105
    compute it: the label and the numerator of the rate are [i - 1], the
    denominator is the time accumulated up to and including frame [i]. *)
Definition progress_of (params : AlgorithmParameters Tuning) (i : nat)
    (r : Result Pose double) : ProgressLine :=
  {| shown_frame := Z.of_nat i - 1;
     shown_ms := timer_count (Z.of_nat i);
     shown_hz := double_div (double_of_int (Z.of_nat i - 1)) (accumulated (S i));
     shown_iters := iters_of params r;
     shown_reason := ToString (keyFramingReason r);
     shown_points := 0 |}.

(** The frames, by position in [results], whose inspected iteration count
    is the cap. *)
Definition capped_frames (params : AlgorithmParameters Tuning)
    (results : list (Result Pose double)) : list Z :=
  mjoin (imap (fun i r =>
                  if iters_of params r =? maxIterations params
                  then [Z.of_nat i] else []) results).

(** What the locals hold when [n] frames with [results] are processed. *)
Record recorded (params : AlgorithmParameters Tuning) (n : nat)
    (results : list (Result Pose double)) (st : Locals) : Prop := {
  rec_count : length results = n;
  rec_trajectory : trajectory st = pose <$> results;
  rec_iterations : iterations st = iters_of params <$> results;
  rec_time_ms :
    time_ms st = (fun i => float_of_double (timer_count i)) <$> seqZ 0 (Z.of_nat n);
  rec_total_time : total_time st = accumulated n;
  rec_warned : warned (console st) = capped_frames params results;
  rec_progress : progress_lines (console st) = imap (progress_of params) results
}.

(** The same run apart from the output prefix. *)
Definition with_output (prefix : string) (o : Options) : Options :=
  {| opt_config := opt_config o; opt_output := prefix;
     opt_numframes := opt_numframes o; opt_dontshow := opt_dontshow o |}.

(** The console without the line that announces the writing. *)
Definition before_writing (c : list event) : list event :=
  omap (fun e => match e with Printf_writing_results _ => None | _ => Some e end) c.

(** Two runs did the same per-frame processing: same frames consumed,
    same recorded sequences, same engine, same console up to the line
    that announces the writing. *)
Definition same_processing (a b : outcome) : Prop :=
  match a, b with
  | Returned ca na sa _, Returned cb nb sb _ =>
      ca = cb /\ na = nb /\ vo sa = vo sb /\ trajectory sa = trajectory sb /\
      iterations sa = iterations sb /\ time_ms sa = time_ms sb /\
      total_time sa = total_time sb /\
      before_writing (console sa) = before_writing (console sb)
  | Aborted ea, Aborted eb => ea = eb
  | Hung, Hung => True
  | _, _ => False
  end.

End Main.

(** ** The odometry core, from the design *)

Module Core.

(** Modelled from the spec: what one iteration of the Pose Optimizer
    (section 4.2, steps 1 to 4) hands to the convergence check of step 5.
    A singular or ill-conditioned system gives no update. *)
Inductive Iteration {P C : Type} :=
| Singular
| Update (p : P) (cost : C) (small_increment small_decrease : bool).
Arguments Iteration : clear implicits.

(** Modelled from the spec: the numerical parts the design leaves to the
    implementer: downsampling, the linearised solve, the pose group, the
    tests behind the keyframing thresholds and the reading of the
    configuration file. *)
Class Numerics `{Platform} := {
  Pyramid : Type;
  downsample : Image -> Disparity -> nat -> option Pyramid;
  pose_identity : Pose;
  pose_compose : Pose -> Pose -> Pose;
  cost_zero : double;
  solve_iteration :
    AlgorithmParameters Tuning -> Image * Disparity * Pyramid -> Pyramid ->
    nat -> Pose ->
    Iteration Pose double;
  exceeds_max_translation : AlgorithmParameters Tuning -> Pose -> bool;
  exceeds_max_rotation : AlgorithmParameters Tuning -> Pose -> bool;
  low_tracking_quality :
    AlgorithmParameters Tuning -> list (OptimizerStatistics double) -> bool;
  read_config : string -> AlgorithmParameters Tuning
}.

Section Engine.
Context `{NU : Numerics}.

(** Modelled from the spec: section 7, [ConfigurationError]: a
    non-positive level count or a zero iteration cap fails the load. *)
Definition load (conf_fn : string) : option (AlgorithmParameters Tuning) :=
  let p := read_config conf_fn in
  if (numPyramidLevels p <=? 0) || (maxIterations p =? 0) then None
  else Some p.

(** Modelled from the spec: section 4.1, [build]: fails on a non-positive
    level count or on mismatched dimensions (reported by [downsample]). *)
Definition Pyramid_build (I : Image) (D : Disparity) (levels : Z)
  : option Pyramid :=
  if levels <=? 0 then None else downsample I D (Z.to_nat levels).

(** Modelled from the spec: section 3, a keyframe is a frame (an image
    and its disparity) with its pyramid; the cached template data is
    derived from them. *)
Definition Keyframe : Type := Image * Disparity * Pyramid.

(** Modelled from the spec: section 4.2, the iteration of one level.
    After each iteration step 5 stops on a small increment, a small cost
    decrease or the iteration cap, whichever comes first, and records the
    count, the cost and whether convergence rather than the cap ended the
    level (section 7: a level that hit the cap has [converged = false]).
    A singular system ends the level as not converged with the best pose
    so far.  [budget] is the number of iterations the cap still allows. *)
Fixpoint iterate (p : AlgorithmParameters Tuning) (kf : Keyframe) (cur : Pyramid)
    (level : nat) (budget : nat) (done : Z) (x : Pose) (cost : double)
  : Pose * OptimizerStatistics double :=
  match budget with
  | O => (x, {| numIterations := done; finalError := cost; converged := false |})
  | S budget' =>
      match solve_iteration p kf cur level x with
      | Singular =>
          (x, {| numIterations := done; finalError := cost; converged := false |})
      | Update x' cost' small_increment small_decrease =>
          let capped := maxIterations p <=? done + 1 in
          if small_increment || small_decrease || capped then
            (x', {| numIterations := done + 1; finalError := cost';
                    converged := negb capped |})
          else iterate p kf cur level budget' (done + 1) x' cost'
      end
  end.

(** Modelled from the spec: section 4.2, [estimate]: the iteration of a
    level from its prior pose, with the whole budget of [maxIterations]. *)
Definition estimate (p : AlgorithmParameters Tuning) (kf : Keyframe)
    (cur : Pyramid) (level : nat) (prior : Pose)
  : Pose * OptimizerStatistics double :=
  iterate p kf cur level (Z.to_nat (maxIterations p)) 0 prior cost_zero.

(** Modelled from the spec: sections 4.2 and 4.5, the optimizer runs once
    per level, coarse to fine, each level seeded with the pose of the one
    before.  Level 0 is the finest; the statistics come back indexed by
    level.  [coarse_to_fine n] runs the levels [n-1] down to [0]. *)
Fixpoint coarse_to_fine (p : AlgorithmParameters Tuning) (kf : Keyframe)
    (cur : Pyramid) (n : nat) (prior : Pose)
  : Pose * list (OptimizerStatistics double) :=
  match n with
  | O => (prior, [])
  | S level =>
      let '(x, s) := estimate p kf cur level prior in
      let '(x', finer) := coarse_to_fine p kf cur level x in
      (x', finer ++ [s])
  end.

(** Modelled from the spec: section 4.3, the test behind
    [ForceKeyframe_MaxIterationsAtFinestLevel]: the finest level, level 0,
    stopped at the cap. *)
Definition capped_at_finest (p : AlgorithmParameters Tuning)
    (stats : list (OptimizerStatistics double)) : bool :=
  match stats !! 0%nat with
  | Some s => numIterations s =? maxIterations p
  | None => false
  end.

(** Modelled from the spec: section 4.3, [decide]: the reasons in their
    priority order; the first whose test holds is the decision. *)
Definition Selector_decide (p : AlgorithmParameters Tuning) (finalPose : Pose)
    (stats : list (OptimizerStatistics double)) : KeyFramingReason :=
  if exceeds_max_translation p finalPose then ForceKeyframe_MaxTranslation
  else if exceeds_max_rotation p finalPose then ForceKeyframe_MaxRotation
  else if low_tracking_quality p stats then ForceKeyframe_LowTrackingQuality
  else if capped_at_finest p stats then ForceKeyframe_MaxIterationsAtFinestLevel
  else KeepOldKeyframe.

(** Modelled from the spec: section 4.4, [append]: the world pose of the
    frame is the baseline composed with the relative pose; on keyframing
    that pose becomes the new baseline. *)
Definition Accumulator_append (baseline relative : Pose)
    (reason : KeyFramingReason) : Pose * Pose :=
  let world := pose_compose baseline relative in
  (world, if decide (reason = KeepOldKeyframe) then baseline else world).

(** Modelled from the spec: section 4.5, the controller.  [Tracking] holds
    the active keyframe, the baseline of the accumulator and the prior for
    the next optimisation. *)
Inductive phase :=
| Uninitialized
| Tracking (kf : Keyframe) (baseline : Pose) (prior : Pose).

(** Modelled from the spec: section 4.5, an engine instance: its
    configuration, read-only after the load, and its phase. *)
Record engine := {
  config : AlgorithmParameters Tuning;
  state : phase
}.

(** Modelled from the spec: section 3, the active keyframe: none before
    the first frame, exactly one afterwards. *)
Definition active_keyframe (e : engine) : option Keyframe :=
  match state e with
  | Uninitialized => None
  | Tracking kf _ _ => Some kf
  end.

(** Modelled from the spec: section 4.5, the statistics of the seeding
    call: no optimisation ran, so no iteration and no failure to
    converge. *)
Definition seed_statistics : OptimizerStatistics double :=
  {| numIterations := 0; finalError := cost_zero; converged := true |}.

(** Modelled from the spec: section 4.5, [addFrame].  A malformed frame
    fails the call and leaves the engine as it was.  The first call seeds
    the keyframe from the frame with the identity pose and no
    optimisation; later calls build the pyramid, optimise across the
    levels, select, accumulate and assemble the result. *)
Definition addFrame (e : engine) (I : Image) (D : Disparity)
  : option (Result Pose double * engine) :=
  let p := config e in
  match Pyramid_build I D (numPyramidLevels p) with
  | None => None
  | Some pyramid =>
      match state e with
      | Uninitialized =>
          Some ({| pose := pose_identity;
                   optimizerStatistics :=
                     replicate (Z.to_nat (numPyramidLevels p)) seed_statistics;
                   keyFramingReason := ForceKeyframe_FirstFrame |},
                {| config := p;
                   state := Tracking (I, D, pyramid) pose_identity pose_identity |})
      | Tracking kf baseline prior =>
          let '(relative, stats) :=
            coarse_to_fine p kf pyramid (Z.to_nat (numPyramidLevels p)) prior in
          let reason := Selector_decide p relative stats in
          let '(world, baseline') := Accumulator_append baseline relative reason in
          Some ({| pose := world; optimizerStatistics := stats;
                   keyFramingReason := reason |},
                {| config := p;
                   state :=
                     if decide (reason = KeepOldKeyframe)
                     then Tracking kf baseline' relative
                     else Tracking (I, D, pyramid) baseline' pose_identity |})
      end
  end.

(** A level whose count is the cap is not converged. *)
Definition cap_means_not_converged (p : AlgorithmParameters Tuning)
    (s : OptimizerStatistics double) : Prop :=
  numIterations s = maxIterations p -> converged s = false.

(** Modelled from the spec: section 4.3, the members of the closed
    enumeration. *)
Definition KeyFramingReasons : list KeyFramingReason :=
  [KeepOldKeyframe; ForceKeyframe_MaxTranslation; ForceKeyframe_MaxRotation;
   ForceKeyframe_LowTrackingQuality; ForceKeyframe_MaxIterationsAtFinestLevel;
   ForceKeyframe_FirstFrame].

(** Modelled from the spec: the engine as the driver sees it: the
    constructor of [Vo] starts it uninitialised with the parameters. *)
Definition odometry : Odometry :=
  {| Engine := engine;
     AlgorithmParameters_load := load;
     Vo_new := fun _ p => {| config := p; state := Uninitialized |};
     impl_addFrame := addFrame |}.

End Engine.
End Core.

(** ** A small concrete world

    Integers stand for the images, poses and times; it makes the
    definitions above runnable from end to end. *)

Module Sample.

(** Frame [i] shows the camera at position [i * i * i], its disparity
    standing one above its image; ten frames unless the configuration is
    [short.cfg]; the key [q] is pressed while frame 2 is shown; processing
    frame [i] takes [i + 1] seconds; the file [locked_time.txt] cannot be
    opened. *)
Definition platform : Platform :=
  {| Frame := Z; Image := Z; Disparity := Z;
     image := fun f => f; disparity := fun f => 1 + f;
     Pose := Z; double := Z; float := Z; Tuning := unit;
     double_zero := 0; double_add := Z.add; double_div := Z.div;
     double_1000 := 1000; double_of_int := fun n => n;
     float_of_double := fun d => d;
     Dataset := Z;
     Dataset_Create := fun conf => if String.eqb conf "short.cfg" then 3 else 10;
     getFrame := fun d i =>
       if (0 <=? i) && (i <? d) then Some (i * i * i) else None;
     waitKey := fun i => if i =? 2 then 113 + 256 else -1;
     timer_count := fun i => 1000 * (i + 1);
     ToString := fun k =>
       match k with
       | KeepOldKeyframe => "KeepOldKeyframe"
       | ForceKeyframe_MaxTranslation => "MaxTranslation"
       | ForceKeyframe_FirstFrame => "FirstFrame"
       | _ => "ForceKeyframe"
       end;
     show_pose := show_int; show_float := show_int;
     is_open := fun name => negb (String.eqb name "locked_time.txt") |}.

(** Three levels, at most four iterations, level 1 inspected; the file
    [bad.cfg] has a zero iteration cap and [deep.cfg] inspects a level
    that does not exist.  A frame whose disparity is not above its image
    is malformed.  Each iteration moves the relative pose one step towards
    the camera position; the increment is small once the position is
    reached.  A keyframe lasts until the pose has moved by more than 20. *)
Definition numerics : @Core.Numerics platform :=
  {| Core.Pyramid := Z;
     Core.downsample := fun (I : @Image platform) (D : @Disparity platform) _ =>
       if D <=? I then None else Some I;
     Core.pose_identity := (0 : @Pose platform);
     Core.pose_compose := Z.add;
     Core.cost_zero := (0 : @double platform);
     Core.solve_iteration := fun _ kf cur _ (x : @Pose platform) =>
       let target := cur - fst (fst kf) in
       if x <? target then Core.Update (x + 1) (target - x - 1) (x + 1 =? target) false
       else Core.Update x 0 true false;
     Core.exceeds_max_translation := fun _ (x : @Pose platform) => 20 <? x;
     Core.exceeds_max_rotation := fun _ _ => false;
     Core.low_tracking_quality := fun _ _ => false;
     Core.read_config := fun conf =>
       {| numPyramidLevels := 3;
          maxIterations := if String.eqb conf "bad.cfg" then 0 else 4;
          maxTestLevel := if String.eqb conf "deep.cfg" then 3 else 1;
          thresholds := tt |} |}.

Definition odometry : @Odometry platform := @Core.odometry platform numerics.

Definition run (o : Options) : @outcome platform odometry :=
  @main platform odometry o.

Definition quiet (n : Z) (prefix : string) : Options :=
  {| opt_config := "tsukuba_stereo.cfg"; opt_output := prefix;
     opt_numframes := n; opt_dontshow := true |}.

(** The locals and the files a run returns with. *)
Definition locals_of (o : Options) : @Locals platform odometry :=
  match run o with
  | Returned _ _ st _ => st
  | _ => @start platform odometry
           (@Vo_new platform odometry 0 (@Core.read_config platform numerics ""))
  end.

Definition files_of (o : Options) : list (@file_effect platform) :=
  match run o with
  | Returned _ _ _ files => files
  | _ => []
  end.

(** The configuration every file but [bad.cfg] and [deep.cfg] holds, the
    engine once the first frame has seeded the keyframe, and what the call
    for the second frame (camera at 1) gives from there. *)
Definition config : AlgorithmParameters (@Tuning platform) :=
  {| numPyramidLevels := 3; maxIterations := 4; maxTestLevel := 1;
     thresholds := tt |}.

Definition dataset : @Dataset platform := 10.

Definition second_frame : @Frame platform := 1.

Definition seeded : @Core.engine platform numerics :=
  {| Core.config := config;
     Core.state := @Core.Tracking platform numerics (0, 1, 0) 0 0 |}.

Definition second_result : Result (@Pose platform) (@double platform) :=
  {| pose := (1 : @Pose platform);
     optimizerStatistics :=
       replicate 3
         {| numIterations := 1; finalError := (0 : @double platform);
            converged := true |};
     keyFramingReason := KeepOldKeyframe |}.

Definition second_engine : @Core.engine platform numerics :=
  {| Core.config := config;
     Core.state := @Core.Tracking platform numerics (0, 1, 0) 0 1 |}.

End Sample.

(** ** More vocabulary, for the statements about the rest of the driver *)

Section Observing.
Context `{OD : Odometry}.

(** The images the console has shown, in order. *)
Definition shown_images (c : list event) : list Image :=
  omap (fun e => match e with ImShow img => Some img | _ => None end) c.

(** The name a file effect writes under. *)
Definition file_name (f : file_effect) : string :=
  match f with
  | CameraPath name _ => name
  | TextFile name _ => name
  end.

(** The message of line 81. *)
Definition no_more_data : event := Log_info ("no more data" +:+ endl).

(** What the console shows between the last whole body and the end of
    [main]: what the body that left the loop showed, the lines of lines
    113-114, and the announcement of line 117 when there is a prefix. *)
Definition closing (stop : list event) (output_fn : string) : list event :=
  stop ++ [Stdout_newline; Log_info ("done" +:+ endl)] ++
  (if String.eqb output_fn EmptyString then []
   else [Printf_writing_results output_fn]).

(** What the body of frame [i] shows when it runs to its end on [frame]
    with result [r]: the image (lines 85-86), the warning (lines 98-101)
    and the progress line (lines 103-105). *)
Definition frame_events (params : AlgorithmParameters Tuning) (do_show : bool)
    (i : nat) (frame : Frame) (r : Result Pose double) : list event :=
  (if do_show then [ImShow (image frame)] else []) ++
  warn_if_capped params (Z.of_nat i) (iters_of params r) ++
  [Progress (progress_of params i r)].

(** The same for the frames [i, i + 1, ...] with their results. *)
Fixpoint run_events (params : AlgorithmParameters Tuning) (do_show : bool)
    (i : nat) (frames : list Frame) (results : list (Result Pose double))
  : list event :=
  match frames, results with
  | frame :: frames', r :: results' =>
      frame_events params do_show i frame r ++
      run_events params do_show (S i) frames' results'
  | _, _ => []
  end.

(** The three ways the loop of a returned run is left after [n] whole
    bodies, with what the body that left it showed: the bound (line 77),
    no frame (lines 80-83), the key [q] (lines 85-90). *)
Definition stopped (dataset : Dataset) (do_show : bool) (max_frames : Z)
    (n : nat) (stop : list event) : Prop :=
  (Z.of_nat n = max_frames /\ stop = []) \/
  (Z.of_nat n < max_frames /\ getFrame dataset (Z.of_nat n) = None /\
   stop = [no_more_data]) \/
  (Z.of_nat n < max_frames /\ do_show = true /\
   quit_pressed do_show (Z.of_nat n) = true /\
   exists frame, getFrame dataset (Z.of_nat n) = Some frame /\
                 stop = [ImShow (image frame)]).

(** Three parallel listings, for a run with the prefix [output_fn] that
    processed [n] frames: the pose, the iteration and the time listing are
    all there and each has [n] lines. *)
Definition parallel_listings (output_fn : string) (n : nat)
    (files : list file_effect) : Prop :=
  exists poses iters times : string,
    TextFile (output_fn +:+ "_poses.txt") poses ∈ files /\
    TextFile (output_fn +:+ "_iterations.txt") iters ∈ files /\
    TextFile (output_fn +:+ "_time.txt") times ∈ files /\
    length (lines poses) = n /\
    length (lines iters) = n /\
    length (lines times) = n.

(** What ends the loop at frame [k] (lines 80-90), in terms of what the
    dataset and the keyboard give: no frame, or, with the display on, a
    key whose low eight bits are the code of [q]. *)
Definition stops_at (dataset : Dataset) (dontshow : bool) (k : Z) : Prop :=
  getFrame dataset k = None \/
  (dontshow = false /\ Z.land 255 (waitKey k) = 113).

End Observing.

(** Reading back a line of the iteration listing: a signed decimal
    numeral. *)
Definition read_int (s : string) : option Z :=
  Z.of_int <$> NilZero.int_of_string s.

(** ** More of the sample world *)

Module SampleMore.

(** Five frames asked of the dataset of [short.cfg], which has three. *)
Definition short : Options :=
  {| opt_config := "short.cfg"; opt_output := "";
     opt_numframes := 5; opt_dontshow := true |}.

(** The first four frames, and what the calls of [addFrame] on them give
    from a new engine. *)
Definition frames4 : list (@Frame Sample.platform) := [0; 1; 8; 27].

Definition results4 : list (Result (@Pose Sample.platform) (@double Sample.platform)) :=
  match @feed Sample.platform Sample.odometry
          (@Vo_new Sample.platform Sample.odometry Sample.dataset Sample.config)
          frames4 with
  | Some (results, _) => results
  | None => []
  end.

Definition engine4 : @Engine Sample.platform Sample.odometry :=
  match @feed Sample.platform Sample.odometry
          (@Vo_new Sample.platform Sample.odometry Sample.dataset Sample.config)
          frames4 with
  | Some (_, engine) => engine
  | None => @Vo_new Sample.platform Sample.odometry Sample.dataset Sample.config
  end.

(** The sample world with a pose printed the way a matrix is, row under
    row: here the text of a pose takes two lines.  Everything else is as
    in the sample world. *)
Definition rows_platform : Platform :=
  {| Frame := @Frame Sample.platform;
     Image := @Image Sample.platform;
     Disparity := @Disparity Sample.platform;
     image := @image Sample.platform;
     disparity := @disparity Sample.platform;
     Pose := @Pose Sample.platform;
     double := @double Sample.platform;
     float := @float Sample.platform;
     Tuning := @Tuning Sample.platform;
     double_zero := @double_zero Sample.platform;
     double_add := @double_add Sample.platform;
     double_div := @double_div Sample.platform;
     double_1000 := @double_1000 Sample.platform;
     double_of_int := @double_of_int Sample.platform;
     float_of_double := @float_of_double Sample.platform;
     Dataset := @Dataset Sample.platform;
     Dataset_Create := @Dataset_Create Sample.platform;
     getFrame := @getFrame Sample.platform;
     waitKey := @waitKey Sample.platform;
     timer_count := @timer_count Sample.platform;
     ToString := @ToString Sample.platform;
     show_pose := fun p : Z => show_int p +:+ endl +:+ show_int p;
     show_float := @show_float Sample.platform;
     is_open := @is_open Sample.platform |}.

Definition rows_numerics : @Core.Numerics rows_platform :=
  @Core.Build_Numerics rows_platform
    (@Core.Pyramid _ Sample.numerics)
    (@Core.downsample _ Sample.numerics)
    (@Core.pose_identity _ Sample.numerics)
    (@Core.pose_compose _ Sample.numerics)
    (@Core.cost_zero _ Sample.numerics)
    (@Core.solve_iteration _ Sample.numerics)
    (@Core.exceeds_max_translation _ Sample.numerics)
    (@Core.exceeds_max_rotation _ Sample.numerics)
    (@Core.low_tracking_quality _ Sample.numerics)
    (@Core.read_config _ Sample.numerics).

Definition rows_odometry : @Odometry rows_platform :=
  @Core.odometry rows_platform rows_numerics.

Definition rows_run (o : Options) : @outcome rows_platform rows_odometry :=
  @main rows_platform rows_odometry o.

Definition rows_files_of (o : Options) : list (@file_effect rows_platform) :=
  match rows_run o with
  | Returned _ _ _ files => files
  | _ => []
  end.

End SampleMore.

(** * Facts *)

(** ** Text *)

Lemma append_String (c : Ascii.ascii) (s t : string) :
  String c s +:+ t = String c (s +:+ t).
Proof. reflexivity. Qed.

Lemma append_empty_l (t : string) : EmptyString +:+ t = t.
Proof. reflexivity. Qed.

Lemma has_LF_append (s t : string) :
  has_LF (s +:+ t) = has_LF s || has_LF t.
Proof.
  induction s as [|c s IH]; [reflexivity|].
  rewrite append_String. simpl. destruct (Ascii.eqb c LF); [reflexivity | exact IH].
Qed.

Lemma count_LF_append (s t : string) :
  count_LF (s +:+ t) = (count_LF s + count_LF t)%nat.
Proof.
  induction s as [|c s IH]; [reflexivity|].
  rewrite append_String. simpl. rewrite IH. lia.
Qed.

Lemma count_LF_none (s : string) : has_LF s = false -> count_LF s = 0%nat.
Proof.
  induction s as [|c s IH]; [reflexivity|]. simpl.
  destruct (Ascii.eqb c LF); [discriminate | exact IH].
Qed.

Lemma count_LF_put_lines {A : Type} (show : A -> string) (v : list A) :
  (forall x, has_LF (show x) = false) ->
  count_LF (put_lines show v) = length v.
Proof.
  intros Hshow. induction v as [|x v IH]; [reflexivity|].
  simpl. rewrite !count_LF_append, IH, (count_LF_none _ (Hshow x)).
  reflexivity.
Qed.

Lemma lines_from_line (s t : string) :
  has_LF s = false ->
  forall acc, lines_from acc (s +:+ endl +:+ t) = rev_string acc s :: lines_from [] t.
Proof.
  induction s as [|c s IH]; intros Hs acc.
  - rewrite append_empty_l. unfold endl. rewrite append_String, append_empty_l.
    reflexivity.
  - simpl in Hs. rewrite append_String. simpl.
    destruct (Ascii.eqb c LF); [discriminate|].
    rewrite (IH Hs). reflexivity.
Qed.

Lemma lines_put_lines {A : Type} (show : A -> string) (v : list A) :
  (forall x, has_LF (show x) = false) ->
  lines (put_lines show v) = show <$> v.
Proof.
  intros Hshow. unfold lines. induction v as [|x v IH]; [reflexivity|].
  simpl. rewrite (lines_from_line _ _ (Hshow x)), IH. reflexivity.
Qed.

Lemma string_of_uint_no_LF (d : Decimal.uint) :
  has_LF (NilEmpty.string_of_uint d) = false.
Proof. induction d; simpl; auto. Qed.

Lemma show_int_no_LF (n : Z) : has_LF (show_int n) = false.
Proof.
  unfold show_int, NilZero.string_of_int, NilZero.string_of_uint.
  destruct (Z.to_int n) as [d|d]; destruct d; simpl; auto using string_of_uint_no_LF.
Qed.

(** A decimal numeral reads back as the number it shows. *)
Lemma read_show_int (n : Z) : read_int (show_int n) = Some n.
Proof.
  unfold read_int, show_int.
  pose proof (DecimalZ.of_to n) as Hn.
  destruct (Z.to_int n) as [d|d] eqn:Hd; destruct d eqn:Hu;
    first [ rewrite NilZero.isi_posnil | rewrite NilZero.isi_negnil
          | rewrite NilZero.isi by discriminate ];
    simpl; f_equal; rewrite <- Hn; reflexivity.
Qed.

(** Two names built from one prefix differ when their endings do. *)
Lemma suffix_differs (prefix a b : string) : a <> b -> prefix +:+ a <> prefix +:+ b.
Proof. intros Hab Heq. apply Hab. exact (String.app_inj prefix _ _ Heq). Qed.

(** ** The loop body *)

Section BodyFacts.
Context `{OD : Odometry}.
Variable dataset : Dataset.
Variable params : AlgorithmParameters Tuning.
Variable do_show : bool.

Local Abbreviation body := (body dataset params do_show).
Local Abbreviation quit_pressed := (quit_pressed do_show).

Lemma warned_app (c1 c2 : list event) : warned (c1 ++ c2) = warned c1 ++ warned c2.
Proof. apply omap_app. Qed.

Lemma progress_lines_app (c1 c2 : list event) :
  progress_lines (c1 ++ c2) = progress_lines c1 ++ progress_lines c2.
Proof. apply omap_app. Qed.

Lemma before_writing_app (c1 c2 : list event) :
  before_writing (c1 ++ c2) = before_writing c1 ++ before_writing c2.
Proof. apply omap_app. Qed.

Lemma warned_warn_if_capped (f_i num_iters : Z) :
  warned (warn_if_capped params f_i num_iters)
  = if num_iters =? maxIterations params then [f_i] else [].
Proof. unfold warn_if_capped. destruct (_ =? _); reflexivity. Qed.

Lemma progress_lines_warn_if_capped (f_i num_iters : Z) :
  progress_lines (warn_if_capped params f_i num_iters) = [].
Proof. unfold warn_if_capped. destruct (_ =? _); reflexivity. Qed.

(** A body that runs to its end: the frame was there, the key was not
    [q], [addFrame] returned, the statistics were in range, and every
    local is updated as lines 93-110 say. *)
Lemma body_Continue (f_i : Z) (st st' : Locals) :
  body f_i st = Continue st' ->
  exists frame result s,
    getFrame dataset f_i = Some frame /\
    quit_pressed f_i = false /\
    Vo_addFrame (vo st) frame = Some (result, vo st') /\
    stats_at result (maxTestLevel params) = Some s /\
    trajectory st' = Trajectory.push_back (trajectory st) (pose result) /\
    iterations st' = iterations st ++ [numIterations s] /\
    time_ms st' = time_ms st ++ [float_of_double (timer_count f_i)] /\
    total_time st'
    = double_add (total_time st) (double_div (timer_count f_i) double_1000) /\
    console st'
    = console st ++ (if do_show then [ImShow (image frame)] else []) ++
      warn_if_capped params f_i (numIterations s) ++
      [Progress
         {| shown_frame := f_i - 1; shown_ms := timer_count f_i;
            shown_hz := double_div (double_of_int (f_i - 1)) (total_time st');
            shown_iters := numIterations s;
            shown_reason := ToString (keyFramingReason result);
            shown_points := 0 |}].
Proof.
  unfold body. intros Hb.
  destruct (getFrame dataset f_i) as [frame|]; [|discriminate].
  destruct (quit_pressed f_i) eqn:Hq; [discriminate|].
  destruct do_show; simpl in Hb.
  - destruct (Vo_addFrame (vo st) frame) as [[result vo']|] eqn:Ha; [|discriminate].
    destruct (stats_at result (maxTestLevel params)) as [s|] eqn:Hs; [|discriminate].
    injection Hb as <-. exists frame, result, s. simpl.
    rewrite <- !app_assoc. repeat split; auto.
  - destruct (Vo_addFrame (vo st) frame) as [[result vo']|] eqn:Ha; [|discriminate].
    destruct (stats_at result (maxTestLevel params)) as [s|] eqn:Hs; [|discriminate].
    injection Hb as <-. exists frame, result, s. simpl. repeat split; auto.
Qed.

(** A body that leaves the loop changes nothing but the console, and adds
    neither a warning nor a progress line. *)
Lemma body_Break (f_i : Z) (st st' : Locals) :
  body f_i st = Break st' ->
  (getFrame dataset f_i = None \/ quit_pressed f_i = true) /\
  vo st' = vo st /\ trajectory st' = trajectory st /\
  iterations st' = iterations st /\ time_ms st' = time_ms st /\
  total_time st' = total_time st /\
  warned (console st') = warned (console st) /\
  progress_lines (console st') = progress_lines (console st).
Proof.
  unfold body. intros Hb.
  destruct (getFrame dataset f_i) as [frame|].
  - destruct (quit_pressed f_i) eqn:Hq.
    + injection Hb as <-. destruct do_show; simpl;
        rewrite ?warned_app, ?progress_lines_app; simpl;
        rewrite ?app_nil_r; repeat split; auto.
    + destruct (Vo_addFrame _ frame) as [[result vo']|]; [|discriminate].
      destruct (stats_at result _); discriminate.
  - injection Hb as <-. simpl. rewrite warned_app, progress_lines_app. simpl.
    rewrite !app_nil_r. repeat split; auto.
Qed.

(** A body throws only where [addFrame] fails or the statistics are out
    of range, and then before anything is shown for the frame but the
    image. *)
Lemma body_Throw (f_i : Z) (st : Locals) (e : failure) :
  body f_i st = Throw e ->
  exists frame,
    getFrame dataset f_i = Some frame /\
    ((Vo_addFrame (vo st) frame = None /\ e = AddFrameError f_i) \/
     (exists result vo', Vo_addFrame (vo st) frame = Some (result, vo') /\
        stats_at result (maxTestLevel params) = None /\
        e = StatisticsOutOfRange f_i)).
Proof.
  unfold body. intros Hb.
  destruct (getFrame dataset f_i) as [frame|]; [|discriminate].
  exists frame. split; [reflexivity|].
  destruct (quit_pressed f_i); [discriminate|].
  assert (Hvo : vo (if do_show then say st [ImShow (image frame)] else st) = vo st)
    by (destruct do_show; reflexivity).
  rewrite Hvo in Hb.
  destruct (Vo_addFrame (vo st) frame) as [[result vo']|] eqn:Ha.
  - destruct (stats_at result _) eqn:Hs; [discriminate|].
    injection Hb as <-. right. exists result, vo'. auto.
  - injection Hb as <-. left. auto.
Qed.

End BodyFacts.

(** ** The loop *)

Section LoopFacts.
Context `{OD : Odometry}.
Variable dataset : Dataset.
Variable params : AlgorithmParameters Tuning.
Variable do_show : bool.

Local Abbreviation body := (body dataset params do_show).
Local Abbreviation loop := (loop dataset params do_show).
Local Abbreviation after := (after dataset params do_show).
Local Abbreviation quit_pressed := (quit_pressed do_show).

Lemma loop_unfold (fuel : nat) (max_frames f_i : Z) (st : Locals) :
  loop fuel max_frames f_i st
  = if f_i <? max_frames then
      match fuel with
      | O => Unfinished
      | S fuel' =>
          match body f_i st with
          | Continue st' => loop fuel' max_frames (f_i + 1) st'
          | Break st' => Exited f_i st'
          | Throw e => Thrown e
          end
      end
    else Exited f_i st.
Proof. destruct fuel; reflexivity. Qed.

(** The loop ends within [max_frames - f_i] bodies. *)
Lemma loop_fuel_enough (fuel : nat) :
  forall (max_frames f_i : Z) (st : Locals),
    max_frames - f_i <= Z.of_nat fuel ->
    loop fuel max_frames f_i st <> Unfinished.
Proof.
  induction fuel as [|fuel IH]; intros max_frames f_i st Hfuel;
    rewrite loop_unfold; destruct (Z.ltb_spec f_i max_frames); try discriminate.
  - lia.
  - destruct (body f_i st); try discriminate. apply IH. lia.
Qed.

Lemma feed_snoc (e : Engine) (frames : list Frame) (f : Frame) :
  feed e (frames ++ [f])
  = match feed e frames with
    | Some (rs, e') =>
        match Vo_addFrame e' f with
        | Some (r, e'') => Some (rs ++ [r], e'')
        | None => None
        end
    | None => None
    end.
Proof.
  revert e. induction frames as [|g frames IH]; intros e; simpl.
  - destruct (Vo_addFrame e f) as [[r e']|]; reflexivity.
  - destruct (Vo_addFrame e g) as [[r e']|]; [|reflexivity].
    rewrite IH. destruct (feed e' frames) as [[rs e'']|]; [|reflexivity].
    destruct (Vo_addFrame e'' f) as [[r' e3]|]; reflexivity.
Qed.

Lemma feed_length (frames : list Frame) :
  forall (e e' : Engine) (rs : list (Result Pose double)),
    feed e frames = Some (rs, e') -> length rs = length frames.
Proof.
  induction frames as [|f frames IH]; intros e e' rs; simpl.
  - intros [= <- _]. reflexivity.
  - destruct (Vo_addFrame e f) as [[r e1]|]; [|discriminate].
    destruct (feed e1 frames) as [[rs' e2]|] eqn:Hf; [|discriminate].
    intros [= <- _]. simpl. f_equal. eapply IH, Hf.
Qed.

Lemma frames_from_S (n : nat) :
  frames_from dataset 0 (S n)
  = frames_from dataset 0 n ++ [getFrame dataset (Z.of_nat n)].
Proof. unfold frames_from. rewrite seqZ_S, fmap_app. reflexivity. Qed.

Lemma iters_of_stats (r : Result Pose double) (s : OptimizerStatistics double) :
  stats_at r (maxTestLevel params) = Some s -> iters_of params r = numIterations s.
Proof. unfold iters_of. intros ->. reflexivity. Qed.

Lemma capped_frames_snoc (results : list (Result Pose double)) (r : Result Pose double) :
  capped_frames params (results ++ [r])
  = capped_frames params results ++
    (if iters_of params r =? maxIterations params
     then [Z.of_nat (length results)] else []).
Proof.
  unfold capped_frames. rewrite imap_app, join_app. simpl.
  rewrite Nat.add_0_r, app_nil_r. reflexivity.
Qed.

Lemma imap_snoc {A B : Type} (f : nat -> A -> B) (l : list A) (x : A) :
  imap f (l ++ [x]) = imap f l ++ [f (length l) x].
Proof. rewrite imap_app. simpl. rewrite Nat.add_0_r. reflexivity. Qed.

Lemma processed_O (e : Engine) : processed dataset params e 0 [] e.
Proof. exists []. repeat split; constructor. Qed.

Lemma processed_length (e e' : Engine) (n : nat) (results : list (Result Pose double)) :
  processed dataset params e n results e' -> length results = n.
Proof.
  intros (frames & Hfr & Hfeed & _).
  rewrite (feed_length _ _ _ _ Hfeed).
  apply (f_equal length) in Hfr. unfold frames_from in Hfr.
  rewrite !length_fmap, length_seqZ in Hfr. lia.
Qed.

Lemma processed_S (e e1 e2 : Engine) (n : nat)
    (results : list (Result Pose double)) (frame : Frame)
    (r : Result Pose double) (s : OptimizerStatistics double) :
  processed dataset params e n results e1 ->
  getFrame dataset (Z.of_nat n) = Some frame ->
  Vo_addFrame e1 frame = Some (r, e2) ->
  stats_at r (maxTestLevel params) = Some s ->
  processed dataset params e (S n) (results ++ [r]) e2.
Proof.
  intros (frames & Hfr & Hfeed & Hst) Hget Hadd Hs.
  exists (frames ++ [frame]). split; [|split].
  - rewrite frames_from_S, Hfr, Hget, fmap_app. reflexivity.
  - rewrite feed_snoc, Hfeed, Hadd. reflexivity.
  - apply Forall_app. split; [exact Hst|]. constructor; [|constructor].
    rewrite Hs. eexists; reflexivity.
Qed.

Lemma recorded_start (e : Engine) : recorded params 0 [] (start e).
Proof. constructor; reflexivity. Qed.

Lemma recorded_Continue (n : nat) (results : list (Result Pose double))
    (st st' : Locals) :
  recorded params n results st ->
  body (Z.of_nat n) st = Continue st' ->
  exists frame r s,
    getFrame dataset (Z.of_nat n) = Some frame /\
    Vo_addFrame (vo st) frame = Some (r, vo st') /\
    stats_at r (maxTestLevel params) = Some s /\
    recorded params (S n) (results ++ [r]) st'.
Proof.
  intros [Hn Htr Hit Htm Htot Hw Hp] Hb.
  destruct (body_Continue _ _ _ _ _ _ Hb)
    as (frame & r & s & Hget & _ & Hadd & Hs & Htr' & Hit' & Htm' & Htot' & Hc').
  exists frame, r, s. repeat split; auto.
  - rewrite length_app, Hn. simpl. lia.
  - rewrite Htr', Htr, fmap_app. reflexivity.
  - rewrite Hit', Hit, fmap_app. simpl. rewrite (iters_of_stats _ _ Hs). reflexivity.
  - rewrite Htm', Htm, seqZ_S, fmap_app. reflexivity.
  - rewrite Htot', Htot. reflexivity.
  - rewrite Hc', !warned_app, Hw, capped_frames_snoc, warned_warn_if_capped.
    rewrite (iters_of_stats _ _ Hs), Hn.
    destruct do_show; simpl; rewrite app_nil_r; reflexivity.
  - rewrite Hc', !progress_lines_app, Hp, imap_snoc, progress_lines_warn_if_capped.
    rewrite Htot', Htot, Hn. unfold progress_of.
    rewrite (iters_of_stats _ _ Hs).
    destruct do_show; reflexivity.
Qed.

Lemma recorded_Break (n : nat) (results : list (Result Pose double))
    (f_i : Z) (st st' : Locals) :
  recorded params n results st ->
  body f_i st = Break st' ->
  recorded params n results st'.
Proof.
  intros [Hn Htr Hit Htm Htot Hw Hp] Hb.
  destruct (body_Break _ _ _ _ _ _ Hb)
    as (_ & _ & Htr' & Hit' & Htm' & Htot' & Hw' & Hp').
  constructor; congruence.
Qed.

(** How the loop is left: [n'] frames are processed and recorded, at most
    [max_frames] of them; the locals are those after [n'] whole bodies,
    but for what a breaking body showed; and a loop left early was left
    by one of its two [break]s. *)
Lemma loop_Exited (engine : Engine) (st0 : Locals) (max_frames : Z) (fuel : nat) :
  forall (n : nat) (results : list (Result Pose double)) (st : Locals)
         (f_i : Z) (st' : Locals),
    processed dataset params engine n results (vo st) ->
    recorded params n results st ->
    after st0 n = Some st ->
    loop fuel max_frames (Z.of_nat n) st = Exited f_i st' ->
    exists (n' : nat) (results' : list (Result Pose double)) (st'' : Locals),
      f_i = Z.of_nat n' /\ (n <= n')%nat /\
      (Z.of_nat n' <= max_frames \/ n' = n) /\
      processed dataset params engine n' results' (vo st') /\
      recorded params n' results' st' /\
      after st0 n' = Some st'' /\
      (st' = st'' \/ body (Z.of_nat n') st'' = Break st') /\
      (Z.of_nat n' < max_frames ->
       getFrame dataset (Z.of_nat n') = None \/ quit_pressed (Z.of_nat n') = true).
Proof.
  induction fuel as [|fuel IH]; intros n results st f_i st' Hpr Hrec Haft;
    rewrite loop_unfold; destruct (Z.ltb_spec (Z.of_nat n) max_frames) as [Hlt|Hge];
    try discriminate.
  - intros [= <- <-]. exists n, results, st.
    split_and!; auto; intros; exfalso; lia.
  - destruct (body (Z.of_nat n) st) as [st1|st1|e] eqn:Hb; [| |discriminate].
    + destruct (recorded_Continue _ _ _ _ Hrec Hb) as (frame & r & s & Hget & Hadd & Hs & Hrec1).
      replace (Z.of_nat n + 1) with (Z.of_nat (S n)) by lia.
      intros Hloop.
      destruct (IH (S n) (results ++ [r]) st1 f_i st') as
        (n' & results' & st'' & -> & Hle & Hmax & Hpr' & Hrec' & Haft' & Hst' & Hearly); auto.
      * eapply processed_S; eauto.
      * simpl. rewrite Haft, Hb. reflexivity.
      * exists n', results', st''. split_and!; auto; lia.
    + intros [= <- <-]. exists n, results, st. split_and!; auto.
      * destruct (body_Break _ _ _ _ _ _ Hb) as (_ & -> & _). exact Hpr.
      * eapply recorded_Break; eauto.
      * intros _. destruct (body_Break _ _ _ _ _ _ Hb) as (Hwhy & _). exact Hwhy.
  - intros [= <- <-]. exists n, results, st.
    split_and!; auto; intros; exfalso; lia.
Qed.

(** What threw, threw out of a body reached after whole bodies. *)
Lemma loop_Thrown (st0 : Locals) (max_frames : Z) (fuel : nat) :
  forall (n : nat) (st : Locals) (e : failure),
    after st0 n = Some st ->
    loop fuel max_frames (Z.of_nat n) st = Thrown e ->
    exists (n' : nat) (st' : Locals),
      after st0 n' = Some st' /\ body (Z.of_nat n') st' = Throw e.
Proof.
  induction fuel as [|fuel IH]; intros n st e Haft;
    rewrite loop_unfold; destruct (Z.ltb_spec (Z.of_nat n) max_frames) as [Hlt|Hge];
    try discriminate.
  destruct (body (Z.of_nat n) st) as [st1|st1|e1] eqn:Hb; try discriminate.
  - replace (Z.of_nat n + 1) with (Z.of_nat (S n)) by lia. intros Hloop.
    apply (IH (S n) st1 e); [|exact Hloop]. simpl. rewrite Haft, Hb. reflexivity.
  - intros [= <-]. exists n, st. auto.
Qed.

End LoopFacts.

(** ** The states the loop passes through *)

Section AfterFacts.
Context `{OD : Odometry}.
Variable dataset : Dataset.
Variable params : AlgorithmParameters Tuning.
Variable do_show : bool.

Local Abbreviation body := (body dataset params do_show).
Local Abbreviation after := (after dataset params do_show).

Lemma after_S (st0 : Locals) (k : nat) (st' : Locals) :
  after st0 (S k) = Some st' ->
  exists st, after st0 k = Some st /\ body (Z.of_nat k) st = Continue st'.
Proof.
  simpl. destruct (after st0 k) as [st|]; [|discriminate].
  destruct (body (Z.of_nat k) st) as [st1| |] eqn:Hb; try discriminate.
  intros [= <-]. exists st. auto.
Qed.

Lemma after_below (st0 : Locals) (n : nat) :
  forall st, after st0 n = Some st ->
  forall k, (k <= n)%nat -> exists st_k, after st0 k = Some st_k.
Proof.
  induction n as [|n IH]; intros st Hn k Hk.
  - replace k with 0%nat by lia. eauto.
  - destruct (decide (k = S n)) as [->|Hne]; [eauto|].
    destruct (after_S _ _ _ Hn) as (st1 & Hn1 & _).
    apply (IH st1 Hn1). lia.
Qed.

(** The trajectory after [k] bodies is the first part of the trajectory
    after [k + j] bodies, and [k] poses longer than at the start. *)
Lemma after_trajectory (st0 : Locals) (k : nat) (st_k : Locals) :
  after st0 k = Some st_k ->
  Trajectory.size (trajectory st_k) = (Trajectory.size (trajectory st0) + k)%nat /\
  forall (j : nat) (st' : Locals),
    after st0 (k + j) = Some st' ->
    trajectory st' = trajectory st_k ++ drop (Trajectory.size (trajectory st_k)) (trajectory st').
Proof.
  intros Hk. split.
  - revert st_k Hk. induction k as [|k IH]; intros st_k Hk.
    + injection Hk as <-. unfold Trajectory.size. lia.
    + destruct (after_S _ _ _ Hk) as (st & Hst & Hb).
      destruct (body_Continue _ _ _ _ _ _ Hb) as (_ & r & _ & _ & _ & _ & _ & -> & _).
      unfold Trajectory.size, Trajectory.push_back in *.
      rewrite length_app, (IH _ Hst). simpl. lia.
  - induction j as [|j IH]; intros st' Hj.
    + rewrite Nat.add_0_r, Hk in Hj. injection Hj as <-.
      unfold Trajectory.size. rewrite drop_all, app_nil_r. reflexivity.
    + replace (k + S j)%nat with (S (k + j)) in Hj by lia.
      destruct (after_S _ _ _ Hj) as (st & Hst & Hb).
      destruct (body_Continue _ _ _ _ _ _ Hb) as (_ & r & _ & _ & _ & _ & _ & -> & _).
      unfold Trajectory.push_back. rewrite (IH _ Hst) at 1.
      rewrite <- app_assoc. f_equal.
      rewrite (IH _ Hst) at 2.
      unfold Trajectory.size.
      rewrite <- app_assoc, drop_app_length. reflexivity.
Qed.

End AfterFacts.

(** ** The whole run *)

Section MainFacts.
Context `{OD : Odometry}.

Lemma recorded_say (params : AlgorithmParameters Tuning) (n : nat)
    (results : list (Result Pose double)) (st : Locals) (es : list event) :
  warned es = [] -> progress_lines es = [] ->
  recorded params n results st -> recorded params n results (say st es).
Proof.
  intros Hw Hp [Hn Htr Hit Htm Htot Hw' Hp'].
  constructor; simpl; auto.
  - rewrite warned_app, Hw, app_nil_r. exact Hw'.
  - rewrite progress_lines_app, Hp, app_nil_r. exact Hp'.
Qed.

Lemma finish_Returned (output_fn : string) (n : Z) (st0 : Locals)
    (code f_i : Z) (st : Locals) (files : list file_effect) :
  finish output_fn n st0 = Returned code f_i st files ->
  code = 0 /\ f_i = n /\
  (exists es, st = say st0 es /\ warned es = [] /\ progress_lines es = []) /\
  files = if String.eqb output_fn EmptyString then [] else write_results output_fn st.
Proof.
  unfold finish. destruct (String.eqb output_fn EmptyString).
  - intros [= <- <- <- <-]. split_and!; auto. eexists. split; [reflexivity|]. auto.
  - intros [= <- <- <- <-]. split_and!; auto.
    exists [Stdout_newline; Log_info ("done" +:+ endl);
            Printf_writing_results output_fn].
    unfold say. simpl. rewrite <- app_assoc. auto.
Qed.

(** What a run that returns has done. *)
Lemma main_Returned (options : Options) (code f_i : Z) (st : Locals)
    (files : list file_effect) :
  main options = Returned code f_i st files ->
  let dataset := Dataset_Create (opt_config options) in
  let do_show := negb (opt_dontshow options) in
  exists (params : AlgorithmParameters Tuning) (n : nat)
         (results : list (Result Pose double)) (st_n : Locals),
    AlgorithmParameters_load (opt_config options) = Some params /\
    code = 0 /\ f_i = Z.of_nat n /\ Z.of_nat n <= opt_numframes options /\
    processed dataset params (Vo_new dataset params) n results (vo st) /\
    recorded params n results st /\
    after dataset params do_show (start (Vo_new dataset params)) n = Some st_n /\
    trajectory st = trajectory st_n /\
    (Z.of_nat n < opt_numframes options ->
     getFrame dataset (Z.of_nat n) = None \/
     quit_pressed do_show (Z.of_nat n) = true) /\
    files = if String.eqb (opt_output options) EmptyString then []
            else write_results (opt_output options) st.
Proof.
  intros Hmain dataset do_show. unfold main in Hmain.
  destruct (AlgorithmParameters_load (opt_config options)) as [params|]; [|discriminate].
  destruct (Z.ltb_spec (opt_numframes options) 0) as [|Hpos]; [discriminate|].
  fold dataset do_show in Hmain.
  destruct (loop dataset params do_show _ _ 0 _) as [n1 st1|e|] eqn:Hloop;
    [|discriminate..].
  destruct (loop_Exited dataset params do_show (Vo_new dataset params)
              (start (Vo_new dataset params)) _ _ 0%nat []
              (start (Vo_new dataset params)) n1 st1
              (processed_O dataset params _) (recorded_start _ _) eq_refl Hloop)
    as (n & results & st_n & -> & _ & Hmax & Hpr & Hrec & Haft & Hst & Hearly).
  destruct (finish_Returned _ _ _ _ _ _ _ Hmain) as (-> & -> & (es & -> & Hw & Hp) & ->).
  exists params, n, results, st_n. split_and!; auto.
  - destruct Hmax as [ | -> ]; lia.
  - apply recorded_say; auto.
  - simpl. destruct Hst as [->|Hb]; [reflexivity|].
    destruct (body_Break _ _ _ _ _ _ Hb) as (_ & _ & -> & _). reflexivity.
Qed.

(** The loop of [main] is never cut off. *)
Lemma main_not_Hung (options : Options) : main options <> Hung.
Proof.
  unfold main.
  destruct (AlgorithmParameters_load _) as [params|]; [|discriminate].
  destruct (Z.ltb_spec (opt_numframes options) 0) as [|Hpos]; [discriminate|].
  destruct (loop _ _ _ _ _ 0 _) as [n1 st1|e|] eqn:Hloop.
  - unfold finish. destruct (String.eqb _ _); discriminate.
  - discriminate.
  - exfalso. revert Hloop. apply loop_fuel_enough. lia.
Qed.

End MainFacts.

(** ** Reading the console and the files *)

Section Reading.
Context `{OD : Odometry}.

Lemma elem_of_warned (c : list event) (i : Z) :
  i ∈ warned c <-> Warn_max_iterations i ∈ c.
Proof.
  unfold warned. rewrite list_elem_of_omap. split.
  - intros (e & He & Hi). destruct e; try discriminate. injection Hi as ->. exact He.
  - intros Hi. exists (Warn_max_iterations i). auto.
Qed.

Lemma elem_of_capped_frames (params : AlgorithmParameters Tuning)
    (results : list (Result Pose double)) (i : Z) :
  i ∈ capped_frames params results <->
  exists (k : nat) (r : Result Pose double),
    i = Z.of_nat k /\ results !! k = Some r /\
    iters_of params r = maxIterations params.
Proof.
  unfold capped_frames. rewrite list_elem_of_join. split.
  - intros (l & Hi & Hl). apply elem_of_lookup_imap in Hl as (k & r & -> & Hk).
    destruct (Z.eqb_spec (iters_of params r) (maxIterations params)) as [Heq|];
      [|inversion Hi].
    apply list_elem_of_singleton in Hi. eauto.
  - intros (k & r & -> & Hk & Heq). exists [Z.of_nat k]. split; [constructor|].
    apply elem_of_lookup_imap. exists k, r. split; [|exact Hk].
    rewrite Heq, Z.eqb_refl. reflexivity.
Qed.

(** With [n] frames recorded, frame [i] is warned about exactly when
    its count at the inspected level is the cap. *)
Lemma warned_iff_capped (params : AlgorithmParameters Tuning) (n : nat)
    (results : list (Result Pose double)) (st : Locals) (i : nat)
    (r : Result Pose double) (s : OptimizerStatistics double) :
  recorded params n results st ->
  results !! i = Some r ->
  stats_at r (maxTestLevel params) = Some s ->
  Warn_max_iterations (Z.of_nat i) ∈ console st <->
  numIterations s = maxIterations params.
Proof.
  intros [_ _ _ _ _ Hw _] Hi Hs.
  rewrite <- elem_of_warned, Hw, elem_of_capped_frames. split.
  - intros (k & r' & Hk & Hr' & Hcap).
    apply Nat2Z.inj in Hk as <-. rewrite Hi in Hr'. injection Hr' as <-.
    rewrite <- Hcap. symmetry. apply iters_of_stats, Hs.
  - intros Hcap. exists i, r. split_and!; auto.
    rewrite (iters_of_stats _ _ _ Hs). exact Hcap.
Qed.

Lemma elem_of_write_listing {A : Type} (show : A -> string) (name : string)
    (v : list A) (f : file_effect) :
  f ∈ write_listing show name v ->
  is_open name = true /\ f = TextFile name (put_lines show v).
Proof.
  unfold write_listing. destruct (is_open name); [|inversion 1].
  intros Hf. apply list_elem_of_singleton in Hf. auto.
Qed.

(** The text files of [write_results] are the three listings, each under
    its own name. *)
Lemma elem_of_write_results (output_fn : string) (st : Locals)
    (name text : string) :
  TextFile name text ∈ write_results output_fn st ->
  is_open name = true /\
  ((name = output_fn +:+ "_poses.txt" /\
    text = put_lines show_pose (trajectory st)) \/
   (name = output_fn +:+ "_iterations.txt" /\
    text = put_lines show_int (iterations st)) \/
   (name = output_fn +:+ "_time.txt" /\
    text = put_lines show_float (time_ms st))).
Proof.
  unfold write_results. rewrite elem_of_cons, !elem_of_app.
  intros [Hf|[Hf|[Hf|Hf]]]; [discriminate| | |];
    apply elem_of_write_listing in Hf as [Hopen [= -> ->]]; auto.
Qed.

Lemma write_results_listed (output_fn : string) (st : Locals) :
  (is_open (output_fn +:+ "_poses.txt") = true ->
   TextFile (output_fn +:+ "_poses.txt") (put_lines show_pose (trajectory st))
   ∈ write_results output_fn st) /\
  (is_open (output_fn +:+ "_iterations.txt") = true ->
   TextFile (output_fn +:+ "_iterations.txt") (put_lines show_int (iterations st))
   ∈ write_results output_fn st) /\
  (is_open (output_fn +:+ "_time.txt") = true ->
   TextFile (output_fn +:+ "_time.txt") (put_lines show_float (time_ms st))
   ∈ write_results output_fn st).
Proof.
  unfold write_results, write_listing. split_and!; intros ->;
    rewrite elem_of_cons, !elem_of_app; right.
  - left. constructor.
  - right. left. constructor.
  - right. right. constructor.
Qed.

End Reading.

(** * The claims about the driver *)

Section DriverClaims.
Context `{OD : Odometry}.

(** C8: with an empty output prefix (the default) a run that returns has
    written no file; with any other prefix it has written the camera path
    and the listings that opened; and whatever the prefix, the per-frame
    processing is the same. *)
Theorem output_prefix_gates_files (options : Options) (code f_i : Z)
    (st : Locals) (files : list file_effect) :
  main options = Returned code f_i st files ->
  opt_output default_options = EmptyString /\
  (opt_output options = EmptyString -> files = []) /\
  (opt_output options <> EmptyString ->
   files = write_results (opt_output options) st /\ files <> []) /\
  (forall prefix, same_processing (main options) (main (with_output prefix options))).
Proof.
  intros Hmain. split; [reflexivity|].
  destruct (main_Returned _ _ _ _ _ Hmain)
    as (_ & _ & _ & _ & _ & _ & _ & _ & _ & _ & _ & _ & _ & Hfiles).
  split_and!.
  - intros Hout. rewrite Hout in Hfiles. exact Hfiles.
  - intros Hout. apply String.eqb_neq in Hout. rewrite Hout in Hfiles.
    split; [exact Hfiles|]. rewrite Hfiles. discriminate.
  - intros prefix. clear. unfold main, with_output. simpl.
    destruct (AlgorithmParameters_load _); [|reflexivity].
    destruct (_ <? 0); [reflexivity|].
    destruct (loop _ _ _ _ _ _ _) as [n st|e|]; [|reflexivity|exact I].
    unfold finish.
    destruct (String.eqb (opt_output options) _), (String.eqb prefix _); simpl;
      rewrite ?before_writing_app; cbn [before_writing omap];
      rewrite ?app_nil_r; split_and!; reflexivity.
Qed.

(** C3: when [main] returns after [n] successful calls of [addFrame], the
    trajectory has exactly [n] poses, the pose of each call in order; and
    after each number [k <= n] of calls it had exactly [k] poses, the
    first [k] of the final ones: it grew by one pose per frame, at the
    end, and no pose was removed, moved or changed afterwards. *)
Theorem trajectory_append_only (options : Options) (code f_i : Z)
    (st : Locals) (files : list file_effect) :
  main options = Returned code f_i st files ->
  let dataset := Dataset_Create (opt_config options) in
  let do_show := negb (opt_dontshow options) in
  exists (params : AlgorithmParameters Tuning) (n : nat)
         (results : list (Result Pose double)),
    AlgorithmParameters_load (opt_config options) = Some params /\
    f_i = Z.of_nat n /\
    processed dataset params (Vo_new dataset params) n results (vo st) /\
    Trajectory.size (trajectory st) = n /\
    (forall i r, results !! i = Some r ->
                 Trajectory.at_ (trajectory st) i = Some (pose r)) /\
    forall k : nat, (k <= n)%nat ->
      exists st_k : Locals,
        after dataset params do_show (start (Vo_new dataset params)) k = Some st_k /\
        Trajectory.size (trajectory st_k) = k /\
        trajectory st_k = take k (trajectory st) /\
        forall i, (i < k)%nat ->
          Trajectory.at_ (trajectory st_k) i = Trajectory.at_ (trajectory st) i.
Proof.
  intros Hmain dataset do_show.
  destruct (main_Returned _ _ _ _ _ Hmain)
    as (params & n & results & st_n & Hload & _ & -> & _ & Hpr & Hrec & Haft & Htraj & _).
  exists params, n, results. fold dataset do_show in Hpr, Haft.
  destruct Hrec as [Hn Htr _ _ _ _ _].
  split_and!; auto.
  - unfold Trajectory.size. rewrite Htr, length_fmap. exact Hn.
  - intros i r Hi. unfold Trajectory.at_. rewrite Htr, list_lookup_fmap, Hi.
    reflexivity.
  - intros k Hk.
    destruct (after_below _ _ _ _ _ _ Haft k Hk) as (st_k & Hst_k).
    destruct (after_trajectory _ _ _ _ _ _ Hst_k) as (Hsize & Hgrow).
    simpl in Hsize.
    assert (Hpre : trajectory st_k = take k (trajectory st)).
    { rewrite Htraj, (Hgrow (n - k)%nat st_n).
      - rewrite take_app_length'; [reflexivity|]. exact (eq_sym Hsize).
      - replace (k + (n - k))%nat with n by lia. exact Haft. }
    exists st_k. split_and!; auto.
    intros i Hi. unfold Trajectory.at_. rewrite Hpre, lookup_take_lt; auto.
Qed.

(** C10: in a run that returns after [n] frames there are [n] progress
    lines; the one of frame [i] is labelled [i - 1] and its rate is
    [i - 1] divided by the time accumulated up to and including frame
    [i], so that the first frame is shown as frame -1; the recorded
    sequences are not shifted: entry [i] of the trajectory, of
    [iterations] and of [time_ms] belongs to frame [i]. *)
Theorem progress_label_offset (options : Options) (code f_i : Z)
    (st : Locals) (files : list file_effect) :
  main options = Returned code f_i st files ->
  let dataset := Dataset_Create (opt_config options) in
  exists (params : AlgorithmParameters Tuning) (n : nat)
         (results : list (Result Pose double)),
    AlgorithmParameters_load (opt_config options) = Some params /\
    f_i = Z.of_nat n /\
    processed dataset params (Vo_new dataset params) n results (vo st) /\
    length (progress_lines (console st)) = n /\
    (forall i r, results !! i = Some r ->
       exists line,
         progress_lines (console st) !! i = Some line /\
         shown_frame line = Z.of_nat i - 1 /\
         shown_hz line
         = double_div (double_of_int (Z.of_nat i - 1)) (accumulated (S i)) /\
         trajectory st !! i = Some (pose r) /\
         iterations st !! i = Some (iters_of params r) /\
         time_ms st !! i = Some (float_of_double (timer_count (Z.of_nat i)))) /\
    (forall line, progress_lines (console st) !! 0%nat = Some line ->
                  shown_frame line = -1).
Proof.
  intros Hmain dataset.
  destruct (main_Returned _ _ _ _ _ Hmain)
    as (params & n & results & st_n & Hload & _ & -> & _ & Hpr & Hrec & _).
  fold dataset in Hpr.
  destruct Hrec as [Hn Htr Hit Htm _ _ Hp].
  exists params, n, results. split_and!; auto.
  - rewrite Hp, length_imap. exact Hn.
  - intros i r Hi. exists (progress_of params i r).
    rewrite Hp, Htr, Hit, Htm, list_lookup_imap, !list_lookup_fmap, Hi. simpl.
    split_and!; auto.
    apply lookup_lt_Some in Hi. rewrite lookup_seqZ_lt by lia. reflexivity.
  - intros line. rewrite Hp, list_lookup_imap.
    destruct (results !! 0%nat) as [r|]; [|discriminate].
    intros [= <-]. reflexivity.
Qed.

(** C4: a body that shows the max-iterations warning for its frame runs
    to its end: the pose, the time and the iteration count (the cap) of
    the frame are appended, nothing is thrown and the loop is not left:
    it goes on with the test for frame [f_i + 1]. *)
Theorem warning_does_not_stop (dataset : Dataset)
    (params : AlgorithmParameters Tuning) (do_show : bool)
    (fuel : nat) (max_frames f_i : Z) (st : Locals) :
  f_i < max_frames ->
  Warn_max_iterations f_i ∉ console st ->
  Warn_max_iterations f_i
  ∈ console_after st (body dataset params do_show f_i st) ->
  exists (st' : Locals) (frame : Frame) (result : Result Pose double),
    body dataset params do_show f_i st = Continue st' /\
    getFrame dataset f_i = Some frame /\
    Vo_addFrame (vo st) frame = Some (result, vo st') /\
    trajectory st' = Trajectory.push_back (trajectory st) (pose result) /\
    iterations st' = iterations st ++ [maxIterations params] /\
    time_ms st' = time_ms st ++ [float_of_double (timer_count f_i)] /\
    loop dataset params do_show (S fuel) max_frames f_i st
    = loop dataset params do_show fuel max_frames (f_i + 1) st'.
Proof.
  intros Hlt Hfresh Hwarn.
  destruct (body dataset params do_show f_i st) as [st'|st'|e] eqn:Hb; simpl in Hwarn.
  - destruct (body_Continue _ _ _ _ _ _ Hb)
      as (frame & r & s & Hget & _ & Hadd & Hs & Htr & Hit & Htm & _ & Hc).
    assert (Hcap : numIterations s = maxIterations params).
    { rewrite Hc, !elem_of_app in Hwarn.
      destruct Hwarn as [Hin|[Hin|[Hin|Hin]]].
      - contradiction.
      - destruct do_show; [|inversion Hin].
        apply list_elem_of_singleton in Hin. discriminate.
      - unfold warn_if_capped in Hin.
        destruct (Z.eqb_spec (numIterations s) (maxIterations params)); [auto|].
        inversion Hin.
      - apply list_elem_of_singleton in Hin. discriminate. }
    exists st', frame, r. split_and!; auto.
    + rewrite Hit, Hcap. reflexivity.
    + simpl. apply Z.ltb_lt in Hlt. rewrite Hlt, Hb. reflexivity.
  - exfalso. apply Hfresh.
    destruct (body_Break _ _ _ _ _ _ Hb) as (_ & _ & _ & _ & _ & _ & Hw & _).
    apply elem_of_warned. rewrite <- Hw. apply elem_of_warned, Hwarn.
  - contradiction.
Qed.

End DriverClaims.

(** * The core *)

Section CoreFacts.
Context `{NU : Core.Numerics}.

Lemma iterate_cap (p : AlgorithmParameters Tuning) (kf : Core.Keyframe)
    (cur : Core.Pyramid) (level : nat) (budget : nat) :
  forall (done : Z) (x : Pose) (cost : double) (x' : Pose)
         (s : OptimizerStatistics double),
    Core.iterate p kf cur level budget done x cost = (x', s) ->
    Core.cap_means_not_converged p s.
Proof.
  unfold Core.cap_means_not_converged.
  induction budget as [|budget IH]; intros done x cost x' s; simpl.
  - intros [= _ <-]. reflexivity.
  - destruct (Core.solve_iteration p kf cur level x) as [|y c small_i small_d].
    + intros [= _ <-]. reflexivity.
    + destruct (small_i || small_d || (maxIterations p <=? done + 1)) eqn:Hstop.
      * intros [= _ <-]. simpl. intros Hcap.
        rewrite Hcap, Z.leb_refl. reflexivity.
      * apply IH.
Qed.

(** A level runs no more iterations than the budget allows. *)
Lemma iterate_count (p : AlgorithmParameters Tuning) (kf : Core.Keyframe)
    (cur : Core.Pyramid) (level : nat) (budget : nat) :
  forall (done : Z) (x : Pose) (cost : double) (x' : Pose)
         (s : OptimizerStatistics double),
    Core.iterate p kf cur level budget done x cost = (x', s) ->
    done <= numIterations s <= done + Z.of_nat budget.
Proof.
  induction budget as [|budget IH]; intros done x cost x' s; simpl Core.iterate.
  - intros [= _ <-]. simpl. lia.
  - destruct (Core.solve_iteration p kf cur level x) as [|y c small_i small_d].
    + intros [= _ <-]. simpl. lia.
    + destruct (small_i || small_d || (maxIterations p <=? done + 1)).
      * intros [= _ <-]. simpl. lia.
      * intros Hrec. apply IH in Hrec. lia.
Qed.

(** The count of a level is between zero and the cap. *)
Lemma estimate_count (p : AlgorithmParameters Tuning) (kf : Core.Keyframe)
    (cur : Core.Pyramid) (level : nat) (prior x : Pose)
    (s : OptimizerStatistics double) :
  Core.estimate p kf cur level prior = (x, s) ->
  0 <= numIterations s <= Z.max 0 (maxIterations p).
Proof. unfold Core.estimate. intros Hest. apply iterate_count in Hest. lia. Qed.

Lemma coarse_to_fine_stats (p : AlgorithmParameters Tuning) (kf : Core.Keyframe)
    (cur : Core.Pyramid) (n : nat) :
  forall (prior x : Pose) (stats : list (OptimizerStatistics double)),
    Core.coarse_to_fine p kf cur n prior = (x, stats) ->
    length stats = n /\ Forall (Core.cap_means_not_converged p) stats.
Proof.
  induction n as [|n IH]; intros prior x stats; simpl.
  - intros [= _ <-]. split; [reflexivity | constructor].
  - destruct (Core.estimate p kf cur n prior) as [x1 s] eqn:Hest.
    destruct (Core.coarse_to_fine p kf cur n x1) as [x2 finer] eqn:Hfiner.
    intros [= _ <-]. destruct (IH _ _ _ Hfiner) as [Hlen Hall]. split.
    + rewrite length_app, Hlen. simpl. lia.
    + apply Forall_app. split; [exact Hall|]. constructor; [|constructor].
      eapply iterate_cap. exact Hest.
Qed.

Lemma load_valid (conf_fn : string) (p : AlgorithmParameters Tuning) :
  Core.load conf_fn = Some p ->
  0 < numPyramidLevels p /\ maxIterations p <> 0.
Proof.
  unfold Core.load.
  destruct (Z.leb_spec (numPyramidLevels (Core.read_config conf_fn)) 0);
    [discriminate|].
  destruct (Z.eqb_spec (maxIterations (Core.read_config conf_fn)) 0);
    [discriminate|].
  intros [= <-]. auto.
Qed.

(** What every successful [addFrame] gives: the configuration stays, the
    statistics have one entry per level, and (the cap not being zero) no
    entry at the cap is converged. *)
Lemma addFrame_result (e e' : Core.engine) (I : Image) (D : Disparity)
    (r : Result Pose double) :
  Core.addFrame e I D = Some (r, e') ->
  Core.config e' = Core.config e /\
  length (optimizerStatistics r) = Z.to_nat (numPyramidLevels (Core.config e)) /\
  (maxIterations (Core.config e) <> 0 ->
   Forall (Core.cap_means_not_converged (Core.config e)) (optimizerStatistics r)).
Proof.
  unfold Core.addFrame.
  destruct (Core.Pyramid_build I D _) as [pyramid|]; [|discriminate].
  destruct (Core.state e) as [|kf baseline prior].
  - intros [= <- <-]. simpl. split_and!; auto.
    + apply length_replicate.
    + intros Hcap. apply Forall_replicate. intros Hzero. simpl in Hzero. congruence.
  - destruct (Core.coarse_to_fine _ kf pyramid _ prior) as [relative stats] eqn:Hopt.
    destruct (Core.Accumulator_append _ _ _) as [world baseline'].
    intros [= <- <-]. simpl. apply coarse_to_fine_stats in Hopt as [Hlen Hall].
    split_and!; auto.
Qed.

Local Existing Instance Core.odometry.

Lemma feed_results (frames : list Frame) :
  forall (e e' : Core.engine) (results : list (Result Pose double)),
    feed e frames = Some (results, e') ->
    Core.config e' = Core.config e /\
    Forall (fun r => length (optimizerStatistics r)
                     = Z.to_nat (numPyramidLevels (Core.config e))) results /\
    (maxIterations (Core.config e) <> 0 ->
     Forall (fun r => Forall (Core.cap_means_not_converged (Core.config e))
                        (optimizerStatistics r)) results).
Proof.
  induction frames as [|f frames IH]; intros e e' results; simpl.
  - intros [= <- <-]. split_and!; auto.
  - unfold Vo_addFrame. simpl.
    destruct (Core.addFrame e (image f) (disparity f)) as [[r e1]|] eqn:Hadd;
      [|discriminate].
    destruct (@feed _ Core.odometry e1 frames) as [[rs e2]|] eqn:Hfeed; [|discriminate].
    intros [= <- <-].
    destruct (addFrame_result _ _ _ _ _ Hadd) as (Hc1 & Hlen & Hcap).
    destruct (IH _ _ _ Hfeed) as (Hc2 & Hlens & Hcaps).
    rewrite Hc1 in Hc2, Hlens, Hcaps. split_and!; auto.
Qed.

Lemma after_config (dataset : Dataset) (params : AlgorithmParameters Tuning)
    (do_show : bool) (st0 : Locals) (k : nat) :
  forall st, after dataset params do_show st0 k = Some st ->
             Core.config (vo st) = Core.config (vo st0).
Proof.
  induction k as [|k IH]; intros st Hk.
  - injection Hk as <-. reflexivity.
  - destruct (after_S _ _ _ _ _ _ Hk) as (st1 & Hk1 & Hb).
    destruct (body_Continue _ _ _ _ _ _ Hb) as (frame & r & _ & _ & _ & Hadd & _).
    apply addFrame_result in Hadd as (-> & _). exact (IH _ Hk1).
Qed.

End CoreFacts.

(** * The claims about the core and the driver on top of it *)

Section CoreClaims.
Context `{NU : Core.Numerics}.
Local Existing Instance Core.odometry.

(** C5: every result of the core's [addFrame] has one statistics entry
    per configured pyramid level; hence, when the loaded [maxTestLevel] is
    a level index ([0 <= maxTestLevel < numPyramidLevels]), the driver's
    unchecked [optimizerStatistics[maxTestLevel]] is in range in every
    body, and the run never ends by reading outside the vector. *)
Theorem statistics_one_per_level (options : Options)
    (params : AlgorithmParameters Tuning) :
  Core.load (opt_config options) = Some params ->
  0 <= maxTestLevel params < numPyramidLevels params ->
  (forall (e e' : Core.engine) (I : Image) (D : Disparity)
          (r : Result Pose double),
     Core.addFrame e I D = Some (r, e') ->
     Z.of_nat (length (optimizerStatistics r)) = numPyramidLevels (Core.config e) /\
     (Core.config e = params -> is_Some (stats_at r (maxTestLevel params)))) /\
  (forall i, main options <> Aborted (StatisticsOutOfRange i)).
Proof.
  intros Hload Hlevel.
  assert (Hin : forall (e e' : Core.engine) I D r,
             Core.addFrame e I D = Some (r, e') ->
             Core.config e = params ->
             is_Some (stats_at r (maxTestLevel params))).
  { intros e e' I D r Hadd Hcfg.
    destruct (addFrame_result _ _ _ _ _ Hadd) as (_ & Hlen & _).
    unfold stats_at. destruct (Z.ltb_spec (maxTestLevel params) 0); [lia|].
    apply lookup_lt_is_Some. rewrite Hlen, Hcfg. lia. }
  split.
  - intros e e' I D r Hadd. split; [|eauto].
    destruct (addFrame_result _ _ _ _ _ Hadd) as (_ & Hlen & _).
    rewrite Hlen. unfold Core.addFrame, Core.Pyramid_build in Hadd.
    destruct (Z.leb_spec (numPyramidLevels (Core.config e)) 0); [discriminate|lia].
  - intros i Hmain. unfold main in Hmain.
    change (AlgorithmParameters_load (opt_config options))
      with (Core.load (opt_config options)) in Hmain.
    rewrite Hload in Hmain.
    destruct (opt_numframes options <? 0); [discriminate|].
    destruct (loop _ _ _ _ _ _ _) as [n1 st1|e|] eqn:Hloop.
    + unfold finish in Hmain. destruct (String.eqb _ _); discriminate.
    + injection Hmain as ->.
      destruct (loop_Thrown _ _ _ _ _ _ 0%nat _ _ eq_refl Hloop) as (n' & st' & Haft & Hb).
      apply after_config in Haft. simpl in Haft.
      apply body_Throw in Hb as (frame & _ & [[_ Hb]|(r & vo' & Hadd & Hnone & _)]);
        [discriminate|].
      destruct (Hin _ _ _ _ _ Hadd Haft) as [s Hs]. congruence.
    + discriminate.
Qed.

(** C7: every result of the core's [addFrame] carries exactly one member
    of the enumeration [KeyFramingReason], and when that member is
    [KeepOldKeyframe] the active keyframe after the call is the one before
    it. *)
Theorem keep_old_keyframe_keeps (e e' : Core.engine) (I : Image)
    (D : Disparity) (r : Result Pose double) :
  Core.addFrame e I D = Some (r, e') ->
  (exists k, unique (fun k => k ∈ Core.KeyFramingReasons /\ keyFramingReason r = k) k) /\
  (keyFramingReason r = KeepOldKeyframe ->
   Core.active_keyframe e' = Core.active_keyframe e).
Proof.
  intros Hadd. split.
  - exists (keyFramingReason r). split; [split; [|reflexivity]|].
    + unfold Core.KeyFramingReasons.
      destruct (keyFramingReason r); rewrite !elem_of_cons; tauto.
    + intros k [_ Hk]. exact Hk.
  - revert Hadd. unfold Core.addFrame, Core.active_keyframe.
    destruct (Core.Pyramid_build I D _) as [pyramid|]; [|discriminate].
    destruct (Core.state e) as [|kf baseline prior].
    + intros [= <- <-]. discriminate.
    + destruct (Core.coarse_to_fine _ kf pyramid _ prior) as [relative stats].
      destruct (Core.Accumulator_append _ _ _) as [world baseline'].
      intros [= <- <-]. simpl. intros Hkeep.
      destruct (decide (Core.Selector_decide _ relative stats = KeepOldKeyframe));
        [reflexivity | contradiction].
Qed.

End CoreClaims.

(** * The sample world, run *)

Section SampleRuns.
Local Existing Instance Sample.platform.
Local Existing Instance Sample.odometry.
Local Existing Instance Sample.numerics.

(** Four frames without display: the poses, the iteration counts at level
    1, the times, and one warning, for frame 3. *)
Example sample_trajectory :
  trajectory (Sample.locals_of (Sample.quiet 4 "out")) = [0; 1; 8; 20].
Proof. reflexivity. Qed.

Example sample_iterations :
  iterations (Sample.locals_of (Sample.quiet 4 "out")) = [0; 1; 3; 4].
Proof. reflexivity. Qed.

Example sample_time_ms :
  time_ms (Sample.locals_of (Sample.quiet 4 "out")) = [1000; 2000; 3000; 4000].
Proof. reflexivity. Qed.

Example sample_warned :
  warned (console (Sample.locals_of (Sample.quiet 4 "out"))) = [3].
Proof. reflexivity. Qed.

Example sample_labels :
  shown_frame <$> progress_lines (console (Sample.locals_of (Sample.quiet 4 "out")))
  = [-1; 0; 1; 2].
Proof. reflexivity. Qed.

(** Frame 2 stops at the cap on level 2 and after three iterations on
    the inspected level 1. *)
Example sample_frame_2_statistics :
  match feed (Vo_new Sample.dataset Sample.config) [0; 1; 8] with
  | Some (results, _) =>
      map (fun r => map numIterations (optimizerStatistics r)) results
      = [[0; 0; 0]; [1; 1; 1]; [1; 3; 4]]
  | None => False
  end.
Proof. reflexivity. Qed.

Example sample_files :
  Sample.files_of (Sample.quiet 4 "out")
  = [CameraPath "out_path.txt" [0; 1; 8; 20];
     TextFile "out_poses.txt" (put_lines show_int [0; 1; 8; 20]);
     TextFile "out_iterations.txt" (put_lines show_int [0; 1; 3; 4]);
     TextFile "out_time.txt" (put_lines show_int [1000; 2000; 3000; 4000])].
Proof. reflexivity. Qed.

Example sample_lines :
  lines (put_lines show_int [0; 1; 3; 4]) = ["0"; "1"; "3"; "4"].
Proof. reflexivity. Qed.

(** A listing whose file does not open is left out. *)
Example sample_locked :
  Sample.files_of (Sample.quiet 2 "locked")
  = [CameraPath "locked_path.txt" [0; 1];
     TextFile "locked_poses.txt" (put_lines show_int [0; 1]);
     TextFile "locked_iterations.txt" (put_lines show_int [0; 1])].
Proof. reflexivity. Qed.

(** With the display on, the key pressed while frame 2 is shown ends the
    loop after two frames; its code 369 is [q] under the mask. *)
Example sample_quit :
  trajectory (Sample.locals_of default_options) = [0; 1] /\
  Sample.files_of default_options = [].
Proof. split; reflexivity. Qed.

Example sample_key_mask : Z.land 255 (113 + 256) = 113 /\ Z.land 255 (-1) = 255.
Proof. split; reflexivity. Qed.

(** The dataset of [short.cfg] runs out after three frames. *)
Example sample_no_more_data :
  trajectory
    (Sample.locals_of {| opt_config := "short.cfg"; opt_output := "";
                         opt_numframes := 1000; opt_dontshow := true |})
  = [0; 1; 8].
Proof. reflexivity. Qed.

(** A negative number of frames ends in [reserve]; a zero iteration cap
    in the load; with a level to inspect that does not exist the first
    body reads outside the statistics. *)
Example sample_negative_numframes :
  Sample.run (Sample.quiet (-1) "out") = Aborted LengthError.
Proof. reflexivity. Qed.

Example sample_bad_config :
  Sample.run {| opt_config := "bad.cfg"; opt_output := "";
                opt_numframes := 4; opt_dontshow := true |}
  = Aborted ConfigurationError.
Proof. reflexivity. Qed.

Example sample_level_out_of_range :
  Sample.run {| opt_config := "deep.cfg"; opt_output := "";
                opt_numframes := 4; opt_dontshow := true |}
  = Aborted (StatisticsOutOfRange 0).
Proof. reflexivity. Qed.

End SampleRuns.

(** * The statements at work on the sample world *)

Section Witnesses.
Local Existing Instance Sample.platform.
Local Existing Instance Sample.odometry.
Local Existing Instance Sample.numerics.

(** The run of most of what follows: four frames without display,
    results under the prefix [out]. *)

(** The same run: the trajectory held [k] poses after [k] calls. *)
Lemma trajectory_append_only_witness :
  Sample.run (Sample.quiet 4 "out")
  = Returned 0 4 (Sample.locals_of (Sample.quiet 4 "out"))
      (Sample.files_of (Sample.quiet 4 "out")) /\
  exists (params : AlgorithmParameters Tuning) (n : nat)
         (results : list (Result Pose double)),
    AlgorithmParameters_load "tsukuba_stereo.cfg" = Some params /\
    4 = Z.of_nat n /\
    processed Sample.dataset params (Vo_new Sample.dataset params) n results
      (vo (Sample.locals_of (Sample.quiet 4 "out"))) /\
    Trajectory.size (trajectory (Sample.locals_of (Sample.quiet 4 "out"))) = n /\
    (forall i r, results !! i = Some r ->
       Trajectory.at_ (trajectory (Sample.locals_of (Sample.quiet 4 "out"))) i
       = Some (pose r)) /\
    forall k : nat, (k <= n)%nat ->
      exists st_k : Locals,
        after Sample.dataset params false (start (Vo_new Sample.dataset params)) k
        = Some st_k /\
        Trajectory.size (trajectory st_k) = k /\
        trajectory st_k
        = take k (trajectory (Sample.locals_of (Sample.quiet 4 "out"))) /\
        forall i, (i < k)%nat ->
          Trajectory.at_ (trajectory st_k) i
          = Trajectory.at_ (trajectory (Sample.locals_of (Sample.quiet 4 "out"))) i.
Proof.
  split; [reflexivity|].
  apply (trajectory_append_only (Sample.quiet 4 "out") 0 4
           (Sample.locals_of (Sample.quiet 4 "out"))
           (Sample.files_of (Sample.quiet 4 "out"))).
  reflexivity.
Defined.

(** After three frames, the body for frame 3 warns and goes on. *)
Lemma warning_does_not_stop_witness :
  3 < 9 /\
  (Warn_max_iterations 3 ∉ console (Sample.locals_of (Sample.quiet 3 ""))) /\
  (Warn_max_iterations 3
   ∈ console_after (Sample.locals_of (Sample.quiet 3 ""))
       (body Sample.dataset Sample.config false 3
          (Sample.locals_of (Sample.quiet 3 "")))) /\
  exists (st' : Locals) (frame : Frame) (result : Result Pose double),
    body Sample.dataset Sample.config false 3
      (Sample.locals_of (Sample.quiet 3 "")) = Continue st' /\
    getFrame Sample.dataset 3 = Some frame /\
    Vo_addFrame (vo (Sample.locals_of (Sample.quiet 3 ""))) frame
    = Some (result, vo st') /\
    trajectory st'
    = Trajectory.push_back (trajectory (Sample.locals_of (Sample.quiet 3 "")))
        (pose result) /\
    iterations st'
    = iterations (Sample.locals_of (Sample.quiet 3 "")) ++
      [maxIterations Sample.config] /\
    time_ms st'
    = time_ms (Sample.locals_of (Sample.quiet 3 "")) ++
      [float_of_double (timer_count 3)] /\
    loop Sample.dataset Sample.config false 4 9 3
      (Sample.locals_of (Sample.quiet 3 ""))
    = loop Sample.dataset Sample.config false 3 9 (3 + 1) st'.
Proof.
  assert (Hfresh : Warn_max_iterations 3
                   ∉ console (Sample.locals_of (Sample.quiet 3 ""))).
  { intros Hin. apply elem_of_warned in Hin. vm_compute in Hin. inversion Hin. }
  assert (Hwarn : Warn_max_iterations 3
                  ∈ console_after (Sample.locals_of (Sample.quiet 3 ""))
                      (body Sample.dataset Sample.config false 3
                         (Sample.locals_of (Sample.quiet 3 "")))).
  { apply elem_of_warned. vm_compute. constructor. }
  split; [lia|]. split; [exact Hfresh|]. split; [exact Hwarn|].
  apply (warning_does_not_stop Sample.dataset Sample.config false 3 9 3
           (Sample.locals_of (Sample.quiet 3 ""))); [lia | exact Hfresh | exact Hwarn].
Defined.

(** The usual configuration inspects level 1 of 3. *)
Lemma statistics_one_per_level_witness :
  Core.load "tsukuba_stereo.cfg" = Some Sample.config /\
  0 <= maxTestLevel Sample.config < numPyramidLevels Sample.config /\
  (forall (e e' : Core.engine) (I : Image) (D : Disparity)
          (r : Result Pose double),
     Core.addFrame e I D = Some (r, e') ->
     Z.of_nat (length (optimizerStatistics r)) = numPyramidLevels (Core.config e) /\
     (Core.config e = Sample.config ->
      is_Some (stats_at r (maxTestLevel Sample.config)))) /\
  (forall i, Sample.run (Sample.quiet 4 "out") <> Aborted (StatisticsOutOfRange i)).
Proof.
  split; [reflexivity|]. split; [simpl; lia|].
  apply (statistics_one_per_level (Sample.quiet 4 "out") Sample.config).
  - reflexivity.
  - simpl. lia.
Defined.

(** The call for the second frame keeps the keyframe of the first. *)
Lemma keep_old_keyframe_keeps_witness :
  Core.addFrame Sample.seeded (image Sample.second_frame)
    (disparity Sample.second_frame)
  = Some (Sample.second_result, Sample.second_engine) /\
  (exists k, unique (fun k => k ∈ Core.KeyFramingReasons /\
                              keyFramingReason Sample.second_result = k) k) /\
  (keyFramingReason Sample.second_result = KeepOldKeyframe ->
   Core.active_keyframe Sample.second_engine = Core.active_keyframe Sample.seeded).
Proof.
  split; [reflexivity|].
  apply (keep_old_keyframe_keeps Sample.seeded Sample.second_engine
           (image Sample.second_frame) (disparity Sample.second_frame)
           Sample.second_result).
  reflexivity.
Defined.

(** Three frames and no prefix: nothing is written. *)
Lemma output_prefix_gates_files_witness :
  Sample.run (Sample.quiet 3 "")
  = Returned 0 3 (Sample.locals_of (Sample.quiet 3 ""))
      (Sample.files_of (Sample.quiet 3 "")) /\
  opt_output default_options = EmptyString /\
  (opt_output (Sample.quiet 3 "") = EmptyString ->
   Sample.files_of (Sample.quiet 3 "") = []) /\
  (opt_output (Sample.quiet 3 "") <> EmptyString ->
   Sample.files_of (Sample.quiet 3 "")
   = write_results (opt_output (Sample.quiet 3 ""))
       (Sample.locals_of (Sample.quiet 3 "")) /\
   Sample.files_of (Sample.quiet 3 "") <> []) /\
  (forall prefix,
     same_processing (Sample.run (Sample.quiet 3 ""))
       (Sample.run (with_output prefix (Sample.quiet 3 "")))).
Proof.
  split; [reflexivity|].
  apply (output_prefix_gates_files (Sample.quiet 3 "") 0 3
           (Sample.locals_of (Sample.quiet 3 ""))
           (Sample.files_of (Sample.quiet 3 ""))).
  reflexivity.
Defined.

(** Four frames: the progress lines are labelled -1 to 2. *)
Lemma progress_label_offset_witness :
  Sample.run (Sample.quiet 4 "out")
  = Returned 0 4 (Sample.locals_of (Sample.quiet 4 "out"))
      (Sample.files_of (Sample.quiet 4 "out")) /\
  exists (params : AlgorithmParameters Tuning) (n : nat)
         (results : list (Result Pose double)),
    AlgorithmParameters_load "tsukuba_stereo.cfg" = Some params /\
    4 = Z.of_nat n /\
    processed Sample.dataset params (Vo_new Sample.dataset params) n results
      (vo (Sample.locals_of (Sample.quiet 4 "out"))) /\
    length (progress_lines (console (Sample.locals_of (Sample.quiet 4 "out")))) = n /\
    (forall i r, results !! i = Some r ->
       exists line,
         progress_lines (console (Sample.locals_of (Sample.quiet 4 "out"))) !! i
         = Some line /\
         shown_frame line = Z.of_nat i - 1 /\
         shown_hz line
         = double_div (double_of_int (Z.of_nat i - 1)) (accumulated (S i)) /\
         trajectory (Sample.locals_of (Sample.quiet 4 "out")) !! i = Some (pose r) /\
         iterations (Sample.locals_of (Sample.quiet 4 "out")) !! i
         = Some (iters_of params r) /\
         time_ms (Sample.locals_of (Sample.quiet 4 "out")) !! i
         = Some (float_of_double (timer_count (Z.of_nat i)))) /\
    (forall line,
       progress_lines (console (Sample.locals_of (Sample.quiet 4 "out"))) !! 0%nat
       = Some line ->
       shown_frame line = -1).
Proof.
  split; [reflexivity|].
  apply (progress_label_offset (Sample.quiet 4 "out") 0 4
           (Sample.locals_of (Sample.quiet 4 "out"))
           (Sample.files_of (Sample.quiet 4 "out"))).
  reflexivity.
Defined.

End Witnesses.

(** * More about the driver *)

(** ** How a body and the loop end *)

Section EndingFacts.
Context `{OD : Odometry}.
Variable dataset : Dataset.
Variable params : AlgorithmParameters Tuning.
Variable do_show : bool.

Local Abbreviation body := (body dataset params do_show).
Local Abbreviation loop := (loop dataset params do_show).
Local Abbreviation after := (after dataset params do_show).
Local Abbreviation quit_pressed := (quit_pressed do_show).

Lemma say_say (st : Locals) (es1 es2 : list event) :
  say (say st es1) es2 = say st (es1 ++ es2).
Proof. unfold say. simpl. rewrite <- app_assoc. reflexivity. Qed.

(** The two ways a body leaves the loop, with what it shows. *)
Lemma body_Break_how (f_i : Z) (st st' : Locals) :
  body f_i st = Break st' ->
  (getFrame dataset f_i = None /\ st' = say st [no_more_data]) \/
  (exists frame, getFrame dataset f_i = Some frame /\ do_show = true /\
                 quit_pressed f_i = true /\ st' = say st [ImShow (image frame)]).
Proof.
  unfold body. intros Hb.
  destruct (getFrame dataset f_i) as [frame|].
  - right. exists frame. destruct (quit_pressed f_i) eqn:Hq.
    + assert (Hshow : do_show = true).
      { unfold quit_pressed in Hq. destruct do_show; [reflexivity|discriminate Hq]. }
      rewrite Hshow in Hb |- *. injection Hb as <-. auto.
    + destruct (Vo_addFrame _ frame) as [[result vo']|]; [|discriminate].
      destruct (stats_at result _); discriminate.
  - left. injection Hb as <-. auto.
Qed.

End EndingFacts.

(** ** The console of a run, event by event *)

Section ConsoleFacts.
Context `{OD : Odometry}.
Variable dataset : Dataset.
Variable params : AlgorithmParameters Tuning.
Variable do_show : bool.

Local Abbreviation body := (body dataset params do_show).
Local Abbreviation loop := (loop dataset params do_show).
Local Abbreviation after := (after dataset params do_show).
Local Abbreviation quit_pressed := (quit_pressed do_show).
Local Abbreviation run_events := (run_events params do_show).
Local Abbreviation frame_events := (frame_events params do_show).

Lemma run_events_snoc (frames : list Frame) :
  forall (i : nat) (results : list (Result Pose double)) (frame : Frame)
         (r : Result Pose double),
    length frames = length results ->
    run_events i (frames ++ [frame]) (results ++ [r])
    = run_events i frames results ++ frame_events (i + length frames) frame r.
Proof.
  induction frames as [|f frames IH]; intros i [|r0 results] frame r Hlen;
    try discriminate Hlen; simpl.
  - rewrite Nat.add_0_r, app_nil_r. reflexivity.
  - rewrite (IH (S i)) by (simpl in Hlen; lia).
    rewrite <- app_assoc. do 3 f_equal. lia.
Qed.

(** A body that throws had its frame and no [q]. *)
Lemma body_Throw_how (f_i : Z) (st : Locals) (e : failure) :
  body f_i st = Throw e ->
  exists frame,
    getFrame dataset f_i = Some frame /\ quit_pressed f_i = false /\
    ((Vo_addFrame (vo st) frame = None /\ e = AddFrameError f_i) \/
     (exists result vo', Vo_addFrame (vo st) frame = Some (result, vo') /\
        stats_at result (maxTestLevel params) = None /\
        e = StatisticsOutOfRange f_i)).
Proof.
  intros Hb. destruct (body_Throw _ _ _ _ _ _ Hb) as (frame & Hget & Hwhy).
  exists frame. split_and!; auto.
  unfold body in Hb. rewrite Hget in Hb.
  destruct (quit_pressed f_i); [discriminate|reflexivity].
Qed.

(** Everything the locals hold after [n] whole bodies from the start:
    the frames were there, no [q] was pressed, the calls of [addFrame]
    returned, the sequences are recorded and the console holds the events
    of the frames and nothing else. *)
Lemma after_run (engine : Engine) (n : nat) :
  forall st : Locals,
    after (start engine) n = Some st ->
    exists (frames : list Frame) (results : list (Result Pose double)),
      frames_from dataset 0 n = Some <$> frames /\
      (forall k : nat, (k < n)%nat -> quit_pressed (Z.of_nat k) = false) /\
      feed engine frames = Some (results, vo st) /\
      Forall (fun r => is_Some (stats_at r (maxTestLevel params))) results /\
      recorded params n results st /\
      console st = run_events 0 frames results.
Proof.
  induction n as [|n IH]; intros st Hn.
  - injection Hn as <-. exists [], []. split_and!; auto.
    + intros k Hk. lia.
    + apply recorded_start.
  - destruct (after_S _ _ _ _ _ _ Hn) as (st1 & Hn1 & Hb).
    destruct (IH _ Hn1) as (frames & results & Hfr & Hq & Hfeed & Hst & Hrec & Hc).
    destruct (body_Continue _ _ _ _ _ _ Hb)
      as (frame & r & s & Hget & Hquit & Hadd & Hs & _ & _ & _ & Htot & Hc').
    destruct (recorded_Continue _ _ _ _ _ _ _ Hrec Hb)
      as (frame' & r' & s' & Hget' & Hadd' & Hs' & Hrec').
    rewrite Hget in Hget'. injection Hget' as <-.
    rewrite Hadd in Hadd'. injection Hadd' as <-.
    exists (frames ++ [frame]), (results ++ [r]). split_and!; auto.
    + rewrite frames_from_S, Hfr, Hget, fmap_app. reflexivity.
    + intros k Hk. destruct (decide (k = n)) as [->|Hne]; [exact Hquit|].
      apply Hq. lia.
    + rewrite feed_snoc, Hfeed, Hadd. reflexivity.
    + apply Forall_app. split; [exact Hst|]. constructor; [|constructor].
      rewrite Hs. eexists; reflexivity.
    + assert (Hlen : length frames = length results).
      { symmetry. eapply feed_length, Hfeed. }
      assert (Hn' : length frames = n).
      { rewrite Hlen. apply (rec_count _ _ _ _ Hrec). }
      rewrite run_events_snoc by exact Hlen. simpl. rewrite Hn'.
      rewrite Hc', Hc. unfold frame_events, progress_of.
      rewrite (iters_of_stats _ _ _ Hs), Htot, (rec_total_time _ _ _ _ Hrec).
      reflexivity.
Qed.

(** How the loop is left, with the reason. *)
Lemma loop_Exited_how (st0 : Locals) (max_frames : Z) (fuel : nat) :
  forall (n : nat) (st : Locals) (f_i : Z) (st' : Locals),
    after st0 n = Some st ->
    loop fuel max_frames (Z.of_nat n) st = Exited f_i st' ->
    exists (n' : nat) (st'' : Locals),
      f_i = Z.of_nat n' /\ (n <= n')%nat /\
      (Z.of_nat n' <= max_frames \/ n' = n) /\
      after st0 n' = Some st'' /\
      ((max_frames <= Z.of_nat n' /\ st' = st'') \/
       (Z.of_nat n' < max_frames /\ body (Z.of_nat n') st'' = Break st')).
Proof.
  induction fuel as [|fuel IH]; intros n st f_i st' Haft;
    rewrite loop_unfold; destruct (Z.ltb_spec (Z.of_nat n) max_frames) as [Hlt|Hge];
    try discriminate.
  - intros [= <- <-]. exists n, st. split_and!; auto.
  - destruct (body (Z.of_nat n) st) as [st1|st1|e] eqn:Hb; [| |discriminate].
    + replace (Z.of_nat n + 1) with (Z.of_nat (S n)) by lia. intros Hloop.
      destruct (IH (S n) st1 f_i st') as (n' & st'' & -> & Hle & Hmax & Haft' & Hhow);
        auto.
      * simpl. rewrite Haft, Hb. reflexivity.
      * exists n', st''. split_and!; auto; lia.
    + intros [= <- <-]. exists n, st. split_and!; auto.
  - intros [= <- <-]. exists n, st. split_and!; auto.
Qed.

(** What threw, threw out of a body within the bound. *)
Lemma loop_Thrown_how (st0 : Locals) (max_frames : Z) (fuel : nat) :
  forall (n : nat) (st : Locals) (e : failure),
    after st0 n = Some st ->
    loop fuel max_frames (Z.of_nat n) st = Thrown e ->
    exists (n' : nat) (st' : Locals),
      Z.of_nat n' < max_frames /\
      after st0 n' = Some st' /\ body (Z.of_nat n') st' = Throw e.
Proof.
  induction fuel as [|fuel IH]; intros n st e Haft;
    rewrite loop_unfold; destruct (Z.ltb_spec (Z.of_nat n) max_frames) as [Hlt|Hge];
    try discriminate.
  destruct (body (Z.of_nat n) st) as [st1|st1|e1] eqn:Hb; try discriminate.
  - replace (Z.of_nat n + 1) with (Z.of_nat (S n)) by lia. intros Hloop.
    apply (IH (S n) st1 e); [|exact Hloop]. simpl. rewrite Haft, Hb. reflexivity.
  - intros [= <-]. exists n, st. auto.
Qed.

(** The loop follows the bodies: with [j] whole bodies ahead it uses up
    [j] units of fuel and stands at the locals after them. *)
Lemma loop_after (st0 : Locals) (max_frames : Z) (j : nat) :
  forall (m : nat) (st_m st' : Locals) (fuel : nat),
    after st0 m = Some st_m ->
    after st0 (m + j) = Some st' ->
    Z.of_nat (m + j) <= max_frames ->
    loop (j + fuel) max_frames (Z.of_nat m) st_m
    = loop fuel max_frames (Z.of_nat (m + j)) st'.
Proof.
  induction j as [|j IH]; intros m st_m st' fuel Hm Hmj Hmax.
  - rewrite Nat.add_0_r in *. rewrite Hm in Hmj. injection Hmj as <-. reflexivity.
  - destruct (after_below _ _ _ _ _ _ Hmj (S m)) as (st1 & H1); [lia|].
    destruct (after_S _ _ _ _ _ _ H1) as (st_m' & Hm' & Hb).
    rewrite Hm in Hm'. injection Hm' as <-.
    simpl Nat.add. rewrite loop_unfold.
    destruct (Z.ltb_spec (Z.of_nat m) max_frames) as [_|Hge]; [|lia].
    rewrite Hb. replace (Z.of_nat m + 1) with (Z.of_nat (S m)) by lia.
    replace (m + S j)%nat with (S m + j)%nat in * by lia.
    apply IH; auto.
Qed.

End ConsoleFacts.

(** ** A returned run, traced *)

Section RunFacts.
Context `{OD : Odometry}.

Lemma shown_images_app (c1 c2 : list event) :
  shown_images (c1 ++ c2) = shown_images c1 ++ shown_images c2.
Proof. apply omap_app. Qed.

Lemma closing_quiet (dataset : Dataset) (do_show : bool) (max_frames : Z)
    (n : nat) (stop : list event) (output_fn : string) :
  stopped dataset do_show max_frames n stop ->
  warned (closing stop output_fn) = [] /\
  progress_lines (closing stop output_fn) = [].
Proof.
  unfold closing.
  intros [[_ ->]|[(_ & _ & ->)|(_ & _ & _ & frame & _ & ->)]];
    destruct (String.eqb output_fn EmptyString); split; reflexivity.
Qed.

Lemma finish_say (output_fn : string) (n : Z) (st0 : Locals)
    (code f_i : Z) (st : Locals) (files : list file_effect) :
  finish output_fn n st0 = Returned code f_i st files ->
  st = say st0 (closing [] output_fn).
Proof.
  unfold finish, closing.
  destruct (String.eqb output_fn EmptyString); intros [= _ _ <- _]; simpl.
  - reflexivity.
  - rewrite say_say. reflexivity.
Qed.

(** A run that returns, in full: the frames it had, the results of the
    calls, how it stopped, what it recorded and every event of its
    console. *)
Lemma main_Returned_trace (options : Options) (code f_i : Z) (st : Locals)
    (files : list file_effect) :
  main options = Returned code f_i st files ->
  let dataset := Dataset_Create (opt_config options) in
  let do_show := negb (opt_dontshow options) in
  exists (params : AlgorithmParameters Tuning) (n : nat) (frames : list Frame)
         (results : list (Result Pose double)) (stop : list event),
    AlgorithmParameters_load (opt_config options) = Some params /\
    f_i = Z.of_nat n /\
    frames_from dataset 0 n = Some <$> frames /\
    (forall k : nat, (k < n)%nat -> quit_pressed do_show (Z.of_nat k) = false) /\
    feed (Vo_new dataset params) frames = Some (results, vo st) /\
    recorded params n results st /\
    stopped dataset do_show (opt_numframes options) n stop /\
    console st
    = run_events params do_show 0 frames results ++
      closing stop (opt_output options).
Proof.
  intros Hmain dataset do_show. unfold main in Hmain.
  destruct (AlgorithmParameters_load (opt_config options)) as [params|]; [|discriminate].
  destruct (Z.ltb_spec (opt_numframes options) 0) as [|Hpos]; [discriminate|].
  fold dataset do_show in Hmain.
  destruct (loop dataset params do_show _ _ 0 _) as [n1 st1|e|] eqn:Hloop;
    [|discriminate..].
  destruct (loop_Exited_how dataset params do_show (start (Vo_new dataset params))
              _ _ 0%nat (start (Vo_new dataset params)) n1 st1 eq_refl Hloop)
    as (n & st_n & -> & _ & Hmax & Haft & Hhow).
  destruct (after_run _ _ _ _ _ _ Haft)
    as (frames & results & Hfr & Hq & Hfeed & _ & Hrec & Hc).
  assert (Hstop : exists stop,
             stopped dataset do_show (opt_numframes options) n stop /\
             st1 = (if decide (stop = []) then st_n else say st_n stop)).
  { destruct Hhow as [[Hge ->]|[Hlt Hb]].
    - exists []. split; [|reflexivity]. left. split; [|reflexivity].
      destruct Hmax as [ | -> ]; lia.
    - destruct (body_Break_how _ _ _ _ _ _ Hb)
        as [[Hnone ->]|(frame & Hsome & Hshow & Hquit & ->)].
      + exists [no_more_data]. split; [|reflexivity]. right. left. auto.
      + exists [ImShow (image frame)]. split; [|reflexivity].
        right. right. split_and!; eauto. }
  destruct Hstop as (stop & Hstopped & Hst1).
  pose proof (finish_say _ _ _ _ _ _ _ Hmain) as Hst.
  assert (Hfinal : st = say st_n (closing stop (opt_output options))).
  { rewrite Hst, Hst1. destruct (decide (stop = [])) as [->|_].
    - reflexivity.
    - rewrite say_say. reflexivity. }
  exists params, n, frames, results, stop.
  destruct (closing_quiet _ _ _ _ _ (opt_output options) Hstopped) as [Hw Hp].
  split_and!; auto.
  - unfold finish in Hmain. destruct (String.eqb _ _); injection Hmain; auto.
  - rewrite Hfinal. exact Hfeed.
  - rewrite Hfinal. apply recorded_say; auto.
  - rewrite Hfinal. simpl. rewrite Hc. reflexivity.
Qed.

(** A body with its frame, no [q], a call that returns and statistics in
    range runs to its end. *)
Lemma body_runs (dataset : Dataset) (params : AlgorithmParameters Tuning)
    (do_show : bool) (f_i : Z) (st : Locals) (frame : Frame)
    (r : Result Pose double) (e : Engine) :
  getFrame dataset f_i = Some frame ->
  quit_pressed do_show f_i = false ->
  Vo_addFrame (vo st) frame = Some (r, e) ->
  is_Some (stats_at r (maxTestLevel params)) ->
  exists st', body dataset params do_show f_i st = Continue st' /\ vo st' = e.
Proof.
  intros Hget Hquit Hadd [s Hs]. unfold body. rewrite Hget, Hquit.
  assert (Hvo : vo (if do_show then say st [ImShow (image frame)] else st) = vo st)
    by (destruct do_show; reflexivity).
  rewrite Hvo, Hadd, Hs. eexists. split; reflexivity.
Qed.

(** Frames that are there, no [q] and calls that return give whole
    bodies. *)
Lemma after_built (dataset : Dataset) (params : AlgorithmParameters Tuning)
    (do_show : bool) (engine : Engine) (n : nat) :
  forall (frames : list Frame) (results : list (Result Pose double)) (e : Engine),
    frames_from dataset 0 n = Some <$> frames ->
    (forall k : nat, (k < n)%nat -> quit_pressed do_show (Z.of_nat k) = false) ->
    feed engine frames = Some (results, e) ->
    Forall (fun r => is_Some (stats_at r (maxTestLevel params))) results ->
    exists st, after dataset params do_show (start engine) n = Some st /\ vo st = e.
Proof.
  induction n as [|n IH]; intros frames results e Hfr Hq Hfeed Hst.
  - destruct frames; [|discriminate]. injection Hfeed as <- <-. eauto.
  - rewrite frames_from_S in Hfr. symmetry in Hfr.
    apply fmap_app_inv in Hfr as (fs & last & Hfs & Hlast & ->).
    destruct last as [|frame [|? ?]]; try discriminate. injection Hlast as Hget.
    rewrite feed_snoc in Hfeed.
    destruct (feed engine fs) as [[rs e1]|] eqn:Hfeed1; [|discriminate].
    destruct (Vo_addFrame e1 frame) as [[r e2]|] eqn:Hadd; [|discriminate].
    injection Hfeed as <- <-.
    apply Forall_app in Hst as [Hrs Hr]. rewrite Forall_singleton in Hr.
    destruct (IH fs rs e1) as (st1 & Haft1 & Hvo1); auto.
    rewrite <- Hvo1 in Hadd.
    destruct (body_runs dataset params do_show (Z.of_nat n) st1 frame r e2
                Hget (Hq n (Nat.lt_succ_diag_r n)) Hadd Hr)
      as (st' & Hb & Hvo').
    exists st'. split; [|exact Hvo']. simpl. rewrite Haft1, Hb. reflexivity.
Qed.

End RunFacts.

(** ** Reading the events of the frames *)

Section EventFacts.
Context `{OD : Odometry}.
Variable params : AlgorithmParameters Tuning.
Variable do_show : bool.

Local Abbreviation run_events := (run_events params do_show).
Local Abbreviation frame_events := (frame_events params do_show).

(** The events of the frames are images, newlines, warnings and progress
    lines; no log message and no announcement. *)
Lemma elem_of_run_events (frames : list Frame) :
  forall (i : nat) (results : list (Result Pose double)) (e : event),
    e ∈ run_events i frames results ->
    match e with
    | Log_info _ | Printf_writing_results _ => False
    | _ => True
    end.
Proof.
  induction frames as [|frame frames IH]; intros i [|r results] e; simpl;
    try (intros He; inversion He; fail).
  rewrite elem_of_app. intros [He|He]; [|exact (IH _ _ _ He)].
  unfold frame_events, warn_if_capped in He. rewrite !elem_of_app in He.
  destruct He as [He|[He|He]].
  - destruct do_show; [|inversion He].
    apply list_elem_of_singleton in He as ->. exact I.
  - destruct (_ =? _); [|inversion He].
    rewrite !elem_of_cons in He. destruct He as [->|[->|He]]; [exact I..|inversion He].
  - apply list_elem_of_singleton in He as ->. exact I.
Qed.

Lemma shown_images_run_events (frames : list Frame) :
  forall (i : nat) (results : list (Result Pose double)),
    length frames = length results ->
    shown_images (run_events i frames results)
    = if do_show then image <$> frames else [].
Proof.
  induction frames as [|frame frames IH]; intros i [|r results] Hlen;
    try discriminate Hlen; simpl.
  - destruct do_show; reflexivity.
  - rewrite shown_images_app, (IH (S i)) by (simpl in Hlen; lia).
    unfold frame_events, warn_if_capped.
    destruct do_show, (_ =? _); reflexivity.
Qed.

Lemma warning_in_frame_events (i : nat) (frame : Frame)
    (r : Result Pose double) (w : Z) :
  Warn_max_iterations w ∈ frame_events i frame r ->
  w = Z.of_nat i /\
  iters_of params r = maxIterations params /\
  frame_events i frame r
  = (if do_show then [ImShow (image frame)] else []) ++
    [Stdout_newline; Warn_max_iterations w; Progress (progress_of params i r)].
Proof.
  unfold frame_events, warn_if_capped.
  destruct (Z.eqb_spec (iters_of params r) (maxIterations params)) as [Hcap|Hncap];
    destruct do_show; simpl; intros He;
    repeat (apply elem_of_cons in He as [He|He]; try discriminate He);
    try (inversion He; fail);
    injection He as ->; auto.
Qed.

Lemma warning_index (frames : list Frame) :
  forall (i : nat) (results : list (Result Pose double)) (w : Z),
    Warn_max_iterations w ∈ run_events i frames results -> Z.of_nat i <= w.
Proof.
  induction frames as [|frame frames IH]; intros i [|r results] w; simpl;
    try (intros He; inversion He; fail).
  rewrite elem_of_app. intros [He|He].
  - apply warning_in_frame_events in He as (-> & _). lia.
  - apply IH in He. lia.
Qed.

(** A warning among the events of the frames stands between a newline and
    the progress line of its frame, whose count is the cap, and nowhere
    else. *)
Lemma warning_in_run_events (frames : list Frame) :
  forall (i : nat) (results : list (Result Pose double)) (w : Z),
    Warn_max_iterations w ∈ run_events i frames results ->
    exists (pre post : list event) (line : ProgressLine),
      run_events i frames results
      = pre ++ [Stdout_newline; Warn_max_iterations w; Progress line] ++ post /\
      shown_frame line = w - 1 /\
      shown_iters line = maxIterations params /\
      (Warn_max_iterations w ∉ pre) /\ (Warn_max_iterations w ∉ post).
Proof.
  induction frames as [|frame frames IH]; intros i [|r results] w; simpl;
    try (intros He; inversion He; fail).
  rewrite elem_of_app. intros [He|He].
  - destruct (warning_in_frame_events _ _ _ _ He) as (-> & Hcap & Heq).
    exists (if do_show then [ImShow (image frame)] else []),
           (run_events (S i) frames results), (progress_of params i r).
    split_and!; auto.
    + rewrite Heq, <- app_assoc. reflexivity.
    + destruct do_show; intros Hin;
        repeat (apply elem_of_cons in Hin as [Hin|Hin]; try discriminate Hin);
        inversion Hin.
    + intros Hin. apply warning_index in Hin. lia.
  - destruct (IH _ _ _ He) as (pre & post & line & Heq & Hf & Hi & Hpre & Hpost).
    exists (frame_events i frame r ++ pre), post, line.
    split_and!; auto.
    + rewrite Heq, <- app_assoc. reflexivity.
    + rewrite elem_of_app. intros [Hin|Hin]; [|contradiction].
      apply warning_in_frame_events in Hin as (-> & _).
      apply warning_index in He. lia.
Qed.

End EventFacts.

(** ** What ends the loop, and the entry the driver reads *)

Section StopFacts.
Context `{OD : Odometry}.

(** The driver's read of the statistics is the entry of the vector at
    the level, whenever the level is an index. *)
Lemma stats_at_lookup (r : Result Pose double) (level : Z)
    (s : OptimizerStatistics double) :
  stats_at r level = Some s <->
  0 <= level /\ optimizerStatistics r !! Z.to_nat level = Some s.
Proof.
  unfold stats_at. destruct (Z.ltb_spec level 0); split.
  - discriminate.
  - intros [? _]. lia.
  - auto.
  - intros [_ ?]. assumption.
Qed.

(** The key test in terms of what [waitKey] returns. *)
Lemma quit_pressed_true (do_show : bool) (k : Z) :
  quit_pressed do_show k = true <->
  do_show = true /\ Z.land 255 (waitKey k) = 113.
Proof.
  unfold quit_pressed. rewrite andb_true_iff, Z.eqb_eq. reflexivity.
Qed.

Lemma frames_from_is_Some (dataset : Dataset) (n : nat) (frames : list Frame)
    (k : Z) :
  frames_from dataset 0 n = Some <$> frames ->
  0 <= k < Z.of_nat n -> is_Some (getFrame dataset k).
Proof.
  intros Hfr Hk.
  assert (Hlook : frames_from dataset 0 n !! Z.to_nat k = Some (getFrame dataset k)).
  { unfold frames_from. rewrite list_lookup_fmap, lookup_seqZ_lt by lia.
    simpl. do 2 f_equal. lia. }
  rewrite Hfr, list_lookup_fmap in Hlook.
  destruct (frames !! Z.to_nat k) as [frame|]; [|discriminate].
  injection Hlook as <-. eexists; reflexivity.
Qed.

(** Frames that were there and shown without [q] did not end the loop. *)
Lemma no_stop_before (dataset : Dataset) (dontshow : bool) (n : nat)
    (frames : list Frame) :
  frames_from dataset 0 n = Some <$> frames ->
  (forall k : nat, (k < n)%nat -> quit_pressed (negb dontshow) (Z.of_nat k) = false) ->
  forall k, 0 <= k -> stops_at dataset dontshow k -> Z.of_nat n <= k.
Proof.
  intros Hfr Hq k Hk Hstop.
  destruct (Z.le_gt_cases (Z.of_nat n) k) as [|Hlt]; [assumption|exfalso].
  destruct Hstop as [Hnone|[Hshow Hkey]].
  - destruct (frames_from_is_Some _ _ _ k Hfr) as [frame Hsome]; [lia|]. congruence.
  - specialize (Hq (Z.to_nat k)). rewrite Z2Nat.id in Hq by lia.
    assert (Htrue : quit_pressed (negb dontshow) k = true).
    { apply quit_pressed_true. rewrite Hshow. auto. }
    rewrite Hq in Htrue by lia. discriminate.
Qed.

(** The stop of a returned run, in the same terms. *)
Lemma stopped_stops_at (dataset : Dataset) (dontshow : bool) (max_frames : Z)
    (n : nat) (stop : list event) :
  stopped dataset (negb dontshow) max_frames n stop ->
  Z.of_nat n <= max_frames /\
  (Z.of_nat n = max_frames \/ stops_at dataset dontshow (Z.of_nat n)).
Proof.
  intros [[Heq _]|[(Hlt & Hnone & _)|(Hlt & Hshow & Hquit & _)]].
  - split; [lia | auto].
  - split; [lia|]. right. left. exact Hnone.
  - split; [lia|]. right. right. apply quit_pressed_true in Hquit as [_ Hkey].
    destruct dontshow; [discriminate Hshow | auto].
Qed.

(** The entry the driver reads for a processed frame: the one at index
    [maxTestLevel] of the statistics of its result; its count is what is
    recorded and what decides the warning. *)
Lemma inspected_entry (dataset : Dataset) (params : AlgorithmParameters Tuning)
    (engine final : Engine) (n : nat) (results : list (Result Pose double))
    (st : Locals) (i : nat) (r : Result Pose double) :
  processed dataset params engine n results final ->
  recorded params n results st ->
  results !! i = Some r ->
  exists s : OptimizerStatistics double,
    0 <= maxTestLevel params /\
    optimizerStatistics r !! Z.to_nat (maxTestLevel params) = Some s /\
    iterations st !! i = Some (numIterations s) /\
    (Warn_max_iterations (Z.of_nat i) ∈ console st <->
     numIterations s = maxIterations params).
Proof.
  intros (frames & _ & _ & Hst) Hrec Hi.
  rewrite list.Forall_forall in Hst.
  destruct (Hst r) as [s Hs]; [eapply list_elem_of_lookup_2, Hi|].
  exists s. destruct (proj1 (stats_at_lookup _ _ _) Hs) as [Hlevel Hlook].
  split_and!; auto.
  - rewrite (rec_iterations _ _ _ _ Hrec), list_lookup_fmap, Hi. simpl.
    f_equal. apply iters_of_stats, Hs.
  - exact (warned_iff_capped _ _ _ _ _ _ _ Hrec Hi Hs).
Qed.

End StopFacts.

(** * The claims about the loop, the warning and the listings *)

Section RunClaims.
Context `{OD : Odometry}.

(** C9: the loop of [main] runs at most [numframes] bodies (1000 by
    default) and ends: the run never hangs.  It stops at the first frame
    the dataset does not have or at which, with the display on, the key
    read is [q], if there is one below [numframes]: a run that returns
    after [f_i] frames has [0 <= f_i <= numframes], no such frame below
    [f_i] and, when [f_i] is below [numframes], such a frame at [f_i];
    each of the trajectory, [iterations] and [time_ms] then holds exactly
    [f_i] entries.  When the body of frame [i] throws, or reads outside
    the statistics (from where on nothing is said), [i] is below
    [numframes] and there was no such frame up to [i]; a negative
    [numframes] ends before the loop. *)
Theorem main_loop_bounded (options : Options) :
  opt_numframes default_options = 1000 /\
  let dataset := Dataset_Create (opt_config options) in
  let max_frames := opt_numframes options in
  let stops_at := stops_at dataset (opt_dontshow options) in
  match main options with
  | Returned _ f_i st _ =>
      0 <= f_i <= max_frames /\
      Z.of_nat (Trajectory.size (trajectory st)) = f_i /\
      Z.of_nat (length (iterations st)) = f_i /\
      Z.of_nat (length (time_ms st)) = f_i /\
      (forall k, 0 <= k -> stops_at k -> f_i <= k) /\
      (f_i = max_frames \/ stops_at f_i)
  | Aborted e =>
      match e with
      | ConfigurationError => True
      | LengthError => max_frames < 0
      | AddFrameError i | StatisticsOutOfRange i =>
          0 <= i < max_frames /\ forall k, 0 <= k -> stops_at k -> i < k
      end
  | Hung => False
  end.
Proof.
  split; [reflexivity|]. intros dataset max_frames stops.
  destruct (main options) as [code f_i st files|e|] eqn:Hmain.
  - destruct (main_Returned_trace _ _ _ _ _ Hmain)
      as (params & n & frames & results & stop & _ & -> & Hfr & Hq & _ & Hrec & Hstop & _).
    fold dataset in Hfr, Hstop.
    destruct Hrec as [Hn Htr Hit Htm _ _ _].
    destruct (stopped_stops_at _ _ _ _ _ Hstop) as [Hmax Hwhy].
    unfold Trajectory.size. rewrite Htr, Hit, Htm, !length_fmap, length_seqZ, Hn.
    split_and!; try lia; auto.
    exact (no_stop_before _ _ _ _ Hfr Hq).
  - unfold main in Hmain. fold dataset max_frames in Hmain.
    destruct (AlgorithmParameters_load (opt_config options)) as [params|];
      [|injection Hmain as <-; exact I].
    destruct (Z.ltb_spec max_frames 0) as [Hneg|Hpos];
      [injection Hmain as <-; exact Hneg|].
    destruct (loop dataset params _ _ _ 0 _) as [n1 st1|e1|] eqn:Hloop.
    + unfold finish in Hmain. destruct (String.eqb _ _); discriminate.
    + injection Hmain as ->.
      destruct (loop_Thrown_how dataset params _ _ _ _ 0%nat _ _ eq_refl Hloop)
        as (n & st_n & Hlt & Haft & Hb).
      destruct (after_run _ _ _ _ _ _ Haft) as (frames & results & Hfr & Hq & _).
      destruct (body_Throw_how _ _ _ _ _ _ Hb) as (frame & Hget & Hquit & Hwhy).
      assert (Hnone : forall k, 0 <= k -> stops k -> Z.of_nat n < k).
      { intros k Hk Hstop.
        pose proof (no_stop_before _ _ _ _ Hfr Hq k Hk Hstop) as Hle.
        destruct (decide (k = Z.of_nat n)) as [->|]; [exfalso|lia].
        destruct Hstop as [Hno|[Hshow Hkey]]; [congruence|].
        assert (Htrue : quit_pressed (negb (opt_dontshow options)) (Z.of_nat n) = true).
        { apply quit_pressed_true. rewrite Hshow. auto. }
        congruence. }
      destruct Hwhy as [[_ ->]|(r & vo' & _ & _ & ->)]; (split; [lia | exact Hnone]).
    + discriminate.
  - exact (main_not_Hung _ Hmain).
Qed.

(** C6: the warning looks at one entry of the statistics only, the one at
    index [maxTestLevel]: in a run that returns, the warning for a
    processed frame is on the console exactly when the count of that entry
    is the cap; so a frame whose count reaches the cap at some other level
    and not at [maxTestLevel] is not warned about, and two frames whose
    results have the same entry at [maxTestLevel] are both warned about or
    neither, whatever their other entries. *)
Theorem warning_inspects_one_level (options : Options) (code f_i : Z)
    (st : Locals) (files : list file_effect) :
  main options = Returned code f_i st files ->
  let dataset := Dataset_Create (opt_config options) in
  exists (params : AlgorithmParameters Tuning) (n : nat)
         (results : list (Result Pose double)),
    AlgorithmParameters_load (opt_config options) = Some params /\
    f_i = Z.of_nat n /\
    processed dataset params (Vo_new dataset params) n results (vo st) /\
    (forall (i : nat) (r : Result Pose double),
       results !! i = Some r ->
       exists s : OptimizerStatistics double,
         0 <= maxTestLevel params /\
         optimizerStatistics r !! Z.to_nat (maxTestLevel params) = Some s /\
         (Warn_max_iterations (Z.of_nat i) ∈ console st <->
          numIterations s = maxIterations params) /\
         forall (l : nat) (s' : OptimizerStatistics double),
           l <> Z.to_nat (maxTestLevel params) ->
           optimizerStatistics r !! l = Some s' ->
           numIterations s' = maxIterations params ->
           numIterations s <> maxIterations params ->
           Warn_max_iterations (Z.of_nat i) ∉ console st) /\
    (forall (i j : nat) (r_i r_j : Result Pose double),
       results !! i = Some r_i -> results !! j = Some r_j ->
       optimizerStatistics r_i !! Z.to_nat (maxTestLevel params)
       = optimizerStatistics r_j !! Z.to_nat (maxTestLevel params) ->
       Warn_max_iterations (Z.of_nat i) ∈ console st <->
       Warn_max_iterations (Z.of_nat j) ∈ console st).
Proof.
  intros Hmain dataset.
  destruct (main_Returned _ _ _ _ _ Hmain)
    as (params & n & results & st_n & Hload & _ & -> & _ & Hpr & Hrec & _).
  fold dataset in Hpr.
  exists params, n, results. split_and!; auto.
  - intros i r Hi.
    destruct (inspected_entry _ _ _ _ _ _ _ _ _ Hpr Hrec Hi)
      as (s & Hlevel & Hlook & _ & Hiff).
    exists s. split_and!; auto.
    intros l s' _ _ _ Hne Hin. apply Hne, Hiff, Hin.
  - intros i j r_i r_j Hi Hj Hsame.
    destruct (inspected_entry _ _ _ _ _ _ _ _ _ Hpr Hrec Hi)
      as (s_i & _ & Hlook_i & _ & Hiff_i).
    destruct (inspected_entry _ _ _ _ _ _ _ _ _ Hpr Hrec Hj)
      as (s_j & _ & Hlook_j & _ & Hiff_j).
    rewrite Hlook_i, Hlook_j in Hsame. injection Hsame as <-.
    rewrite Hiff_i, Hiff_j. reflexivity.
Qed.

(** C2: in a run that returns with a non-empty output prefix, each of
    the three listings is written exactly when its file opens.  A listing
    that is written holds, for the processed frames in processing order,
    one entry each, followed by a line feed: the pose [addFrame] returned
    for the frame, the iteration count read at [maxTestLevel], the
    processing time narrowed to [float].  The iteration listing has one
    line per processed frame, line [i] a numeral that reads back as the
    count of frame [i]; the pose and the time listing have one line per
    frame, line [i] the text of the entry of frame [i], when the text of a
    pose, or of a time, holds no line feed.  With such texts and the three
    files open the three listings are parallel. *)
Theorem listings_parallel (options : Options) (code f_i : Z)
    (st : Locals) (files : list file_effect) :
  main options = Returned code f_i st files ->
  opt_output options <> EmptyString ->
  let dataset := Dataset_Create (opt_config options) in
  let output_fn := opt_output options in
  let poses_txt := output_fn +:+ "_poses.txt" in
  let iterations_txt := output_fn +:+ "_iterations.txt" in
  let time_txt := output_fn +:+ "_time.txt" in
  exists (params : AlgorithmParameters Tuning) (n : nat)
         (results : list (Result Pose double)),
    AlgorithmParameters_load (opt_config options) = Some params /\
    f_i = Z.of_nat n /\
    processed dataset params (Vo_new dataset params) n results (vo st) /\
    length results = n /\
    (forall name, name ∈ [poses_txt; iterations_txt; time_txt] ->
       (exists text, TextFile name text ∈ files) <-> is_open name = true) /\
    (forall text, TextFile poses_txt text ∈ files ->
       text = put_lines show_pose (pose <$> results) /\
       ((forall p, has_LF (show_pose p) = false) ->
        lines text = (fun r => show_pose (pose r)) <$> results)) /\
    (forall text, TextFile iterations_txt text ∈ files ->
       text = put_lines show_int (iterations st) /\
       length (lines text) = n /\
       forall (i : nat) (r : Result Pose double),
         results !! i = Some r ->
         exists (s : OptimizerStatistics double) (line : string),
           optimizerStatistics r !! Z.to_nat (maxTestLevel params) = Some s /\
           lines text !! i = Some line /\
           read_int line = Some (numIterations s)) /\
    (forall text, TextFile time_txt text ∈ files ->
       text = put_lines show_float
                ((fun i => float_of_double (timer_count i)) <$> seqZ 0 (Z.of_nat n)) /\
       ((forall x, has_LF (show_float x) = false) ->
        lines text
        = (fun i => show_float (float_of_double (timer_count i)))
            <$> seqZ 0 (Z.of_nat n))) /\
    ((forall p, has_LF (show_pose p) = false) ->
     (forall x, has_LF (show_float x) = false) ->
     is_open poses_txt = true -> is_open iterations_txt = true ->
     is_open time_txt = true ->
     parallel_listings output_fn n files).
Proof.
  intros Hmain Hout dataset output_fn poses_txt iterations_txt time_txt.
  destruct (main_Returned _ _ _ _ _ Hmain)
    as (params & n & results & st_n & Hload & _ & -> & _ & Hpr & Hrec & _ & _ & _ & Hfiles).
  apply String.eqb_neq in Hout. rewrite Hout in Hfiles. subst files.
  fold dataset output_fn in Hpr |- *.
  pose proof Hrec as [Hn Htr Hit Htm _ _ _].
  destruct (write_results_listed output_fn st) as (Hp & Hi & Ht).
  fold poses_txt in Hp. fold iterations_txt in Hi. fold time_txt in Ht.
  assert (Hposes : forall text,
             TextFile poses_txt text ∈ write_results output_fn st ->
             text = put_lines show_pose (pose <$> results)).
  { intros text Hin.
    apply elem_of_write_results in Hin as (_ & [(_ & ->)|[(Hname & _)|(Hname & _)]]);
      [|exfalso; revert Hname; apply suffix_differs; discriminate..].
    rewrite Htr. reflexivity. }
  assert (Hiters : forall text,
             TextFile iterations_txt text ∈ write_results output_fn st ->
             text = put_lines show_int (iterations st)).
  { intros text Hin.
    apply elem_of_write_results in Hin as (_ & [(Hname & _)|[(_ & ->)|(Hname & _)]]);
      [exfalso; revert Hname; apply suffix_differs; discriminate| |
       exfalso; revert Hname; apply suffix_differs; discriminate].
    reflexivity. }
  assert (Htimes : forall text,
             TextFile time_txt text ∈ write_results output_fn st ->
             text = put_lines show_float
                      ((fun i => float_of_double (timer_count i))
                         <$> seqZ 0 (Z.of_nat n))).
  { intros text Hin.
    apply elem_of_write_results in Hin as (_ & [(Hname & _)|[(Hname & _)|(_ & ->)]]);
      [exfalso; revert Hname; apply suffix_differs; discriminate..|].
    rewrite Htm. reflexivity. }
  exists params, n, results. split_and!; auto.
  - intros name Hname. split.
    + intros (text & Hin). apply elem_of_write_results in Hin as [Hopen _].
      exact Hopen.
    + intros Hopen. rewrite !elem_of_cons in Hname.
      destruct Hname as [->|[->|[->|Hname]]]; [eauto..|inversion Hname].
  - intros text Hin. rewrite (Hposes _ Hin). split; [reflexivity|].
    intros Hone. rewrite lines_put_lines, <- list_fmap_compose by exact Hone.
    reflexivity.
  - intros text Hin. rewrite (Hiters _ Hin).
    rewrite lines_put_lines by exact show_int_no_LF.
    split_and!; [reflexivity| |].
    + rewrite length_fmap, Hit, length_fmap. exact Hn.
    + intros i r Hr.
      destruct (inspected_entry _ _ _ _ _ _ _ _ _ Hpr Hrec Hr)
        as (s & _ & Hlook & Hcount & _).
      exists s, (show_int (numIterations s)). split_and!; auto.
      * rewrite list_lookup_fmap, Hcount. reflexivity.
      * apply read_show_int.
  - intros text Hin. rewrite (Htimes _ Hin). split; [reflexivity|].
    intros Hone. rewrite lines_put_lines, <- list_fmap_compose by exact Hone.
    reflexivity.
  - intros Hpose Hfloat Hop Hoi Hot.
    exists (put_lines show_pose (trajectory st)),
           (put_lines show_int (iterations st)),
           (put_lines show_float (time_ms st)).
    split_and!; [apply Hp, Hop | apply Hi, Hoi | apply Ht, Hot | ..];
      rewrite lines_put_lines by auto using show_int_no_LF;
      rewrite length_fmap, ?Htr, ?Hit, ?Htm, !length_fmap, ?length_seqZ; lia.
Qed.

End RunClaims.

Section CoreRunClaims.
Context `{NU : Core.Numerics}.
Local Existing Instance Core.odometry.

(** C1: in a run of the driver on the core that returns, for every
    processed frame, with [s] the entry at index [maxTestLevel] of the
    statistics of its result (the count the driver records for the
    frame): when the count of [s] is [maxIterations], [s] has
    [converged = false] and the console holds the max-iterations warning
    for the frame; and the warning for the frame is on the console only
    when the count of [s] is [maxIterations]. *)
Theorem cap_reached_warns (options : Options) (code f_i : Z)
    (st : Locals) (files : list file_effect) :
  main options = Returned code f_i st files ->
  let dataset := Dataset_Create (opt_config options) in
  exists (params : AlgorithmParameters Tuning) (n : nat)
         (results : list (Result Pose double)),
    Core.load (opt_config options) = Some params /\
    f_i = Z.of_nat n /\
    processed dataset params (Vo_new dataset params) n results (vo st) /\
    forall (i : nat) (r : Result Pose double),
      results !! i = Some r ->
      exists s : OptimizerStatistics double,
        0 <= maxTestLevel params /\
        optimizerStatistics r !! Z.to_nat (maxTestLevel params) = Some s /\
        iterations st !! i = Some (numIterations s) /\
        (numIterations s = maxIterations params ->
         converged s = false /\
         Warn_max_iterations (Z.of_nat i) ∈ console st) /\
        (Warn_max_iterations (Z.of_nat i) ∈ console st ->
         numIterations s = maxIterations params).
Proof.
  intros Hmain dataset.
  destruct (main_Returned _ _ _ _ _ Hmain)
    as (params & n & results & st_n & Hload & _ & -> & _ & Hpr & Hrec & _).
  fold dataset in Hpr. exists params, n, results. split_and!; auto.
  intros i r Hi.
  destruct (inspected_entry _ _ _ _ _ _ _ _ _ Hpr Hrec Hi)
    as (s & Hlevel & Hlook & Hcount & Hiff).
  exists s. split_and!; auto; [|apply Hiff].
  intros Hcap. split; [|apply Hiff, Hcap].
  destruct Hpr as (frames & _ & Hfeed & _).
  destruct (feed_results _ _ _ _ Hfeed) as (_ & _ & Hcaps). simpl in Hcaps.
  specialize (Hcaps (proj2 (load_valid _ _ Hload))).
  rewrite Forall_lookup in Hcaps. specialize (Hcaps _ _ Hi).
  rewrite Forall_lookup in Hcaps. exact (Hcaps _ _ Hlook Hcap).
Qed.

End CoreRunClaims.

(** * More properties of the driver *)

Section DriverExtras.
Context `{OD : Odometry}.

(** X1: the console of a run that returns is, event for event, what the
    bodies of the processed frames showed in order (image when the display
    is on, newline and warning when the count is the cap, progress line),
    then what the body that left the loop showed, then a newline, the
    message "done" and, with a prefix, the announcement of the writing. *)
Theorem console_of_run (options : Options) (code f_i : Z) (st : Locals)
    (files : list file_effect) :
  main options = Returned code f_i st files ->
  let dataset := Dataset_Create (opt_config options) in
  let do_show := negb (opt_dontshow options) in
  exists (params : AlgorithmParameters Tuning) (n : nat) (frames : list Frame)
         (results : list (Result Pose double)) (stop : list event),
    AlgorithmParameters_load (opt_config options) = Some params /\
    f_i = Z.of_nat n /\
    frames_from dataset 0 n = Some <$> frames /\
    feed (Vo_new dataset params) frames = Some (results, vo st) /\
    stopped dataset do_show (opt_numframes options) n stop /\
    console st
    = run_events params do_show 0 frames results ++
      closing stop (opt_output options).
Proof.
  intros Hmain dataset do_show.
  destruct (main_Returned_trace _ _ _ _ _ Hmain)
    as (params & n & frames & results & stop & Hload & Hn & Hfr & _ & Hfeed & _ & Hstop & Hc).
  exists params, n, frames, results, stop. split_and!; auto.
Qed.

(** X2: a run that returns has processed exactly the frames before the
    first reason to stop: every index below [f_i] had a frame and no [q],
    and at [f_i] the bound is reached, the dataset has no frame or [q] is
    pressed. *)
Theorem frames_before_stop (options : Options) (code f_i : Z) (st : Locals)
    (files : list file_effect) :
  main options = Returned code f_i st files ->
  let dataset := Dataset_Create (opt_config options) in
  let do_show := negb (opt_dontshow options) in
  0 <= f_i <= opt_numframes options /\
  (forall k : Z, 0 <= k < f_i ->
     is_Some (getFrame dataset k) /\ quit_pressed do_show k = false) /\
  (f_i = opt_numframes options \/ getFrame dataset f_i = None \/
   quit_pressed do_show f_i = true).
Proof.
  intros Hmain dataset do_show.
  destruct (main_Returned_trace _ _ _ _ _ Hmain)
    as (params & n & frames & results & stop & _ & -> & Hfr & Hq & _ & _ & Hstop & _).
  fold dataset do_show in Hfr, Hq, Hstop. split_and!.
  - lia.
  - destruct Hstop as [[? _]|[(? & _)|(? & _)]]; lia.
  - intros k Hk. replace k with (Z.of_nat (Z.to_nat k)) by lia. split.
    + assert (Hlook : frames_from dataset 0 n !! Z.to_nat k
                      = Some (getFrame dataset (Z.of_nat (Z.to_nat k)))).
      { unfold frames_from. rewrite list_lookup_fmap, lookup_seqZ_lt by lia.
        reflexivity. }
      rewrite Hfr, list_lookup_fmap in Hlook.
      destruct (frames !! Z.to_nat k) as [frame|]; [|discriminate].
      injection Hlook as <-. eexists; reflexivity.
    + apply Hq. lia.
  - destruct Hstop as [[? _]|[(_ & ? & _)|(_ & _ & ? & _)]]; auto.
Qed.

(** X5: without the display (option [dontshow]) no image is shown, the
    keyboard plays no part, and the loop is left only at the bound or for
    want of a frame. *)
Theorem quiet_run_shows_nothing (options : Options) (code f_i : Z)
    (st : Locals) (files : list file_effect) :
  main options = Returned code f_i st files ->
  opt_dontshow options = true ->
  shown_images (console st) = [] /\
  (forall k, quit_pressed (negb (opt_dontshow options)) k = false) /\
  (f_i = opt_numframes options \/
   getFrame (Dataset_Create (opt_config options)) f_i = None).
Proof.
  intros Hmain Hquiet.
  destruct (main_Returned_trace _ _ _ _ _ Hmain)
    as (params & n & frames & results & stop & _ & -> & Hfr & _ & Hfeed & _ & Hstop & Hc).
  rewrite Hquiet in *. simpl in *.
  assert (Hlen : length frames = length results).
  { symmetry. eapply feed_length, Hfeed. }
  destruct Hstop as [[Hn ->]|[(_ & Hnone & ->)|(_ & Hshow & _)]]; [| |discriminate].
  - split_and!; auto.
    rewrite Hc, shown_images_app, shown_images_run_events by exact Hlen.
    unfold closing. destruct (String.eqb _ _); reflexivity.
  - split_and!; auto.
    rewrite Hc, shown_images_app, shown_images_run_events by exact Hlen.
    unfold closing. destruct (String.eqb _ _); reflexivity.
Qed.

(** X6: with the display on, the images shown are those of the processed
    frames, once each and in order, followed by the image of the frame at
    which [q] was pressed when the loop was left that way. *)
Theorem display_shows_each_frame (options : Options) (code f_i : Z)
    (st : Locals) (files : list file_effect) :
  main options = Returned code f_i st files ->
  opt_dontshow options = false ->
  let dataset := Dataset_Create (opt_config options) in
  exists (n : nat) (frames : list Frame),
    f_i = Z.of_nat n /\
    frames_from dataset 0 n = Some <$> frames /\
    ((shown_images (console st) = image <$> frames /\
      (f_i = opt_numframes options \/ getFrame dataset f_i = None)) \/
     (exists frame,
        getFrame dataset f_i = Some frame /\
        quit_pressed true f_i = true /\
        shown_images (console st) = image <$> (frames ++ [frame]))).
Proof.
  intros Hmain Hshow dataset.
  destruct (main_Returned_trace _ _ _ _ _ Hmain)
    as (params & n & frames & results & stop & _ & -> & Hfr & _ & Hfeed & _ & Hstop & Hc).
  rewrite Hshow in *. simpl in *. fold dataset in Hfr, Hstop.
  assert (Hlen : length frames = length results).
  { symmetry. eapply feed_length, Hfeed. }
  assert (Hshown : forall stop',
             shown_images (closing stop' (opt_output options)) = shown_images stop').
  { intros stop'. unfold closing. rewrite shown_images_app.
    destruct (String.eqb _ _); simpl; apply app_nil_r. }
  exists n, frames. split_and!; auto.
  rewrite Hc, shown_images_app, shown_images_run_events, Hshown by exact Hlen.
  destruct Hstop as [[Hn ->]|[(_ & Hnone & ->)|(_ & _ & Hquit & frame & Hsome & ->)]].
  - left. simpl. rewrite app_nil_r. auto.
  - left. simpl. rewrite app_nil_r. auto.
  - right. exists frame. rewrite fmap_app. auto.
Qed.

(** X7: the message "no more data" is on the console of a run that
    returns exactly when the loop was left below the bound at an index for
    which the dataset had no frame. *)
Theorem no_more_data_logged (options : Options) (code f_i : Z)
    (st : Locals) (files : list file_effect) :
  main options = Returned code f_i st files ->
  no_more_data ∈ console st <->
  f_i < opt_numframes options /\
  getFrame (Dataset_Create (opt_config options)) f_i = None.
Proof.
  intros Hmain.
  destruct (main_Returned_trace _ _ _ _ _ Hmain)
    as (params & n & frames & results & stop & _ & -> & _ & _ & _ & _ & Hstop & Hc).
  rewrite Hc, elem_of_app. unfold closing, no_more_data. split.
  - intros [Hin|Hin].
    + apply elem_of_run_events in Hin. contradiction.
    + destruct Hstop as [[Hn ->]|[(? & ? & ->)|(_ & _ & _ & frame & _ & ->)]]; auto;
        destruct (String.eqb _ _);
        repeat (apply elem_of_cons in Hin as [Hin|Hin]; try discriminate Hin);
        inversion Hin.
  - intros [Hlt Hnone]. right.
    destruct Hstop as [[Hn _]|[(_ & _ & ->)|(_ & _ & _ & frame & Hsome & _)]];
      [lia| |congruence].
    apply elem_of_app. left. constructor.
Qed.

(** X8: on the console of a run that returns, the warning for a frame
    stands once only, directly after a newline and directly before the
    progress line of that frame, which shows the cap as iteration count. *)
Theorem warning_before_its_progress_line (options : Options) (code f_i : Z)
    (st : Locals) (files : list file_effect) (w : Z) :
  main options = Returned code f_i st files ->
  Warn_max_iterations w ∈ console st ->
  exists (params : AlgorithmParameters Tuning) (pre post : list event)
         (line : ProgressLine),
    AlgorithmParameters_load (opt_config options) = Some params /\
    console st
    = pre ++ [Stdout_newline; Warn_max_iterations w; Progress line] ++ post /\
    shown_frame line = w - 1 /\
    shown_iters line = maxIterations params /\
    (Warn_max_iterations w ∉ pre) /\ (Warn_max_iterations w ∉ post) /\
    0 <= w < f_i.
Proof.
  intros Hmain Hw.
  destruct (main_Returned_trace _ _ _ _ _ Hmain)
    as (params & n & frames & results & stop & Hload & -> & _ & _ & _ & Hrec & Hstop & Hc).
  assert (Hclosing : Warn_max_iterations w ∉ closing stop (opt_output options)).
  { intros Hin. apply elem_of_warned in Hin.
    rewrite (proj1 (closing_quiet _ _ _ _ _ (opt_output options) Hstop)) in Hin.
    inversion Hin. }
  assert (Hrange : 0 <= w < Z.of_nat n).
  { apply elem_of_warned in Hw. rewrite (rec_warned _ _ _ _ Hrec) in Hw.
    apply elem_of_capped_frames in Hw as (k & r & -> & Hk & _).
    apply lookup_lt_Some in Hk. rewrite (rec_count _ _ _ _ Hrec) in Hk. lia. }
  rewrite Hc, elem_of_app in Hw. destruct Hw as [Hw|Hw]; [|contradiction].
  destruct (warning_in_run_events _ _ _ _ _ _ Hw)
    as (pre & post & line & Heq & Hf & Hi & Hpre & Hpost).
  exists params, pre, (post ++ closing stop (opt_output options)), line.
  split_and!; auto; try lia.
  - rewrite Hc, Heq, <- !app_assoc. reflexivity.
  - rewrite elem_of_app. intros [Hin|Hin]; contradiction.
Qed.

End DriverExtras.

Section DriverExtrasMore.
Context `{OD : Odometry}.

(** A body whose frame is missing or whose key is [q] leaves the loop
    with the engine and the sequences as they were. *)
Lemma body_stops (dataset : Dataset) (params : AlgorithmParameters Tuning)
    (do_show : bool) (f_i : Z) (st : Locals) :
  getFrame dataset f_i = None \/ quit_pressed do_show f_i = true ->
  exists st', body dataset params do_show f_i st = Break st' /\
              vo st' = vo st /\ trajectory st' = trajectory st.
Proof.
  intros Hwhy. unfold body.
  destruct (getFrame dataset f_i) as [frame|] eqn:Hget.
  - destruct Hwhy as [Hnone|Hquit]; [discriminate|]. rewrite Hquit.
    eexists. split; [reflexivity|]. destruct do_show; auto.
  - eexists. split; [reflexivity|]. auto.
Qed.

(** X3: when the configuration loads, the frames [0 .. n-1] are there,
    [q] is not pressed at them, the calls of [addFrame] on them return
    with statistics at the inspected level, and at [n] the bound is
    reached, the dataset has no frame or [q] is pressed, then [main]
    returns 0 after exactly [n] frames, with the engine of the last call
    and the poses of the calls as trajectory. *)
Theorem run_returns_after (options : Options)
    (params : AlgorithmParameters Tuning) (n : nat) (frames : list Frame)
    (results : list (Result Pose double)) (final : Engine) :
  let dataset := Dataset_Create (opt_config options) in
  let do_show := negb (opt_dontshow options) in
  AlgorithmParameters_load (opt_config options) = Some params ->
  Z.of_nat n <= opt_numframes options ->
  frames_from dataset 0 n = Some <$> frames ->
  (forall k : nat, (k < n)%nat -> quit_pressed do_show (Z.of_nat k) = false) ->
  feed (Vo_new dataset params) frames = Some (results, final) ->
  Forall (fun r => is_Some (stats_at r (maxTestLevel params))) results ->
  (Z.of_nat n = opt_numframes options \/
   getFrame dataset (Z.of_nat n) = None \/
   quit_pressed do_show (Z.of_nat n) = true) ->
  exists (st : Locals) (files : list file_effect),
    main options = Returned 0 (Z.of_nat n) st files /\
    vo st = final /\ trajectory st = pose <$> results.
Proof.
  intros dataset do_show Hload Hmax Hfr Hq Hfeed Hst Hstop.
  destruct (after_built dataset params do_show _ n frames results final
              Hfr Hq Hfeed Hst) as (st_n & Haft & Hvo).
  assert (Htraj : trajectory st_n = pose <$> results).
  { destruct (after_run _ _ _ _ _ _ Haft)
      as (frames' & results' & Hfr' & _ & Hfeed' & _ & Hrec & _).
    rewrite Hfr in Hfr'. apply (inj (fmap Some)) in Hfr' as <-.
    rewrite Hfeed in Hfeed'. injection Hfeed' as <- _.
    apply (rec_trajectory _ _ _ _ Hrec). }
  assert (Hloop : exists st',
             loop dataset params do_show (Z.to_nat (opt_numframes options))
               (opt_numframes options) 0 (start (Vo_new dataset params))
             = Exited (Z.of_nat n) st' /\
             vo st' = vo st_n /\ trajectory st' = trajectory st_n).
  { replace (Z.to_nat (opt_numframes options))
      with (n + (Z.to_nat (opt_numframes options) - n))%nat by lia.
    rewrite (loop_after dataset params do_show _ _ n 0%nat _ st_n _ eq_refl Haft)
      by (simpl; lia).
    simpl Nat.add. rewrite loop_unfold.
    destruct (Z.ltb_spec (Z.of_nat n) (opt_numframes options)) as [Hlt|Hge].
    - destruct (Z.to_nat (opt_numframes options) - n)%nat eqn:Hfuel; [lia|].
      destruct Hstop as [Heq|Hstop]; [lia|].
      destruct (body_stops dataset params do_show (Z.of_nat n) st_n Hstop)
        as (st' & -> & Hvo' & Htr').
      eauto.
    - eauto. }
  destruct Hloop as (st' & Hloop & Hvo' & Htr').
  unfold main. fold dataset do_show. rewrite Hload.
  destruct (Z.ltb_spec (opt_numframes options) 0); [lia|].
  rewrite Hloop. unfold finish.
  destruct (String.eqb _ _); eexists _, _; (split; [reflexivity|]); simpl;
    split; congruence.
Qed.

(** X9: what the console shows agrees with what is recorded: in a run
    that returns, the iteration counts of the progress lines are the
    entries of [iterations], their times narrowed to [float] are the
    entries of [time_ms], their reasons are those of the results in order,
    every number of points is 0, and [total_time] is the time accumulated
    over the processed frames. *)
Theorem console_agrees_with_records (options : Options) (code f_i : Z)
    (st : Locals) (files : list file_effect) :
  main options = Returned code f_i st files ->
  let dataset := Dataset_Create (opt_config options) in
  exists (params : AlgorithmParameters Tuning) (n : nat)
         (results : list (Result Pose double)),
    AlgorithmParameters_load (opt_config options) = Some params /\
    f_i = Z.of_nat n /\
    processed dataset params (Vo_new dataset params) n results (vo st) /\
    shown_iters <$> progress_lines (console st) = iterations st /\
    (fun line => float_of_double (shown_ms line)) <$> progress_lines (console st)
    = time_ms st /\
    shown_reason <$> progress_lines (console st)
    = (fun r => ToString (keyFramingReason r)) <$> results /\
    Forall (fun line => shown_points line = 0) (progress_lines (console st)) /\
    total_time st = accumulated n.
Proof.
  intros Hmain dataset.
  destruct (main_Returned _ _ _ _ _ Hmain)
    as (params & n & results & st_n & Hload & _ & -> & _ & Hpr & Hrec & _).
  fold dataset in Hpr.
  destruct Hrec as [Hn Htr Hit Htm Htot _ Hp].
  exists params, n, results. split_and!; auto.
  - rewrite Hp, Hit. apply list_eq. intros i.
    rewrite !list_lookup_fmap, list_lookup_imap.
    destruct (results !! i); reflexivity.
  - rewrite Hp, Htm. apply list_eq. intros i.
    rewrite !list_lookup_fmap, list_lookup_imap.
    destruct (results !! i) as [r|] eqn:Hi; simpl.
    + apply lookup_lt_Some in Hi. rewrite lookup_seqZ_lt by lia. reflexivity.
    + apply lookup_ge_None in Hi. rewrite lookup_seqZ_ge by lia. reflexivity.
  - rewrite Hp. apply list_eq. intros i.
    rewrite !list_lookup_fmap, list_lookup_imap.
    destruct (results !! i); reflexivity.
  - rewrite Hp. apply list.Forall_forall. intros line Hin.
    apply elem_of_lookup_imap in Hin as (i & r & -> & _). reflexivity.
Qed.

(** X10: the iteration listing can be read back: in a run that returns,
    reading each line of the file [<prefix>_iterations.txt] as a decimal
    numeral gives the recorded iteration counts, in order and without
    loss. *)
Theorem iterations_listing_reads_back (options : Options) (code f_i : Z)
    (st : Locals) (files : list file_effect) (text : string) :
  main options = Returned code f_i st files ->
  TextFile (opt_output options +:+ "_iterations.txt") text ∈ files ->
  read_int <$> lines text = Some <$> iterations st /\
  Z.of_nat (length (lines text)) = f_i.
Proof.
  intros Hmain Hin.
  destruct (main_Returned _ _ _ _ _ Hmain)
    as (params & n & results & st_n & _ & _ & -> & _ & _ & Hrec & _ & _ & _ & Hfiles).
  destruct (String.eqb (opt_output options) EmptyString); subst files;
    [inversion Hin|].
  apply elem_of_write_results in Hin as (_ & [(Hname & _)|[(_ & ->)|(Hname & _)]]);
    [exfalso; revert Hname; apply suffix_differs; discriminate| |
     exfalso; revert Hname; apply suffix_differs; discriminate].
  rewrite lines_put_lines by exact show_int_no_LF. split.
  - rewrite <- list_fmap_compose. apply list_fmap_ext. intros i x _. simpl.
    apply read_show_int.
  - rewrite length_fmap, (rec_iterations _ _ _ _ Hrec), length_fmap,
      (rec_count _ _ _ _ Hrec). reflexivity.
Qed.

(** X11: the files of a run that returns have pairwise different names,
    each the prefix followed by one of the four endings: no listing
    overwrites another or the camera path. *)
Theorem result_files_named_apart (options : Options) (code f_i : Z)
    (st : Locals) (files : list file_effect) :
  main options = Returned code f_i st files ->
  NoDup (file_name <$> files) /\
  forall f, f ∈ files ->
    exists ending,
      ending ∈ ["_path.txt"; "_poses.txt"; "_iterations.txt"; "_time.txt"] /\
      file_name f = opt_output options +:+ ending.
Proof.
  intros Hmain.
  destruct (main_Returned _ _ _ _ _ Hmain)
    as (params & n & results & st_n & _ & _ & _ & _ & _ & _ & _ & _ & _ & ->).
  destruct (String.eqb (opt_output options) EmptyString).
  { split; [constructor | intros f Hf; inversion Hf]. }
  unfold write_results, write_listing. split.
  - destruct (is_open (_ +:+ "_poses.txt")), (is_open (_ +:+ "_iterations.txt")),
      (is_open (_ +:+ "_time.txt")); simpl;
      repeat (apply NoDup_cons_2;
              [ intros Hin;
                repeat (apply elem_of_cons in Hin as [Hin|Hin];
                        [revert Hin; apply suffix_differs; discriminate|]);
                inversion Hin | ]);
      apply NoDup_nil_2.
  - intros f Hf. rewrite elem_of_cons, !elem_of_app in Hf.
    destruct Hf as [->|[Hf|[Hf|Hf]]].
    + exists "_path.txt". split; [|reflexivity]. rewrite !elem_of_cons. auto.
    + apply elem_of_write_listing in Hf as [_ ->].
      exists "_poses.txt". split; [|reflexivity]. rewrite !elem_of_cons. auto.
    + apply elem_of_write_listing in Hf as [_ ->].
      exists "_iterations.txt". split; [|reflexivity]. rewrite !elem_of_cons. auto.
    + apply elem_of_write_listing in Hf as [_ ->].
      exists "_time.txt". split; [|reflexivity]. rewrite !elem_of_cons. auto.
Qed.

(** X12: a run that returns without a processed frame (no frame 0, [q]
    at once, or a bound of 0) has made no call of [addFrame]: the engine
    is as constructed, the three sequences are empty, and every listing
    it writes is an empty file. *)
Theorem empty_run_writes_empty_listings (options : Options) (code : Z)
    (st : Locals) (files : list file_effect) :
  main options = Returned code 0 st files ->
  let dataset := Dataset_Create (opt_config options) in
  (exists params, AlgorithmParameters_load (opt_config options) = Some params /\
                  vo st = Vo_new dataset params) /\
  trajectory st = [] /\ iterations st = [] /\ time_ms st = [] /\
  progress_lines (console st) = [] /\
  forall name text, TextFile name text ∈ files -> text = EmptyString.
Proof.
  intros Hmain dataset.
  destruct (main_Returned _ _ _ _ _ Hmain)
    as (params & n & results & st_n & Hload & _ & Hn & _ & Hpr & Hrec & _ & _ & _ & Hfiles).
  assert (n = 0%nat) as -> by lia.
  destruct Hrec as [Hlen Htr Hit Htm _ _ Hp].
  destruct results; [|discriminate]. simpl in *.
  destruct Hpr as (frames & Hfr & Hfeed & _).
  destruct frames; [|discriminate]. injection Hfeed as Hvo.
  split_and!; eauto.
  intros name text Hin.
  destruct (String.eqb (opt_output options) EmptyString); subst files;
    [inversion Hin|].
  apply elem_of_write_results in Hin as (_ & [(_ & ->)|[(_ & ->)|(_ & ->)]]);
    rewrite ?Htr, ?Hit, ?Htm; reflexivity.
Qed.

(** A body with its frame, no [q] and a call that fails throws. *)
Lemma body_throws (dataset : Dataset) (params : AlgorithmParameters Tuning)
    (do_show : bool) (f_i : Z) (st : Locals) (frame : Frame) :
  getFrame dataset f_i = Some frame ->
  quit_pressed do_show f_i = false ->
  Vo_addFrame (vo st) frame = None ->
  body dataset params do_show f_i st = Throw (AddFrameError f_i).
Proof.
  intros Hget Hquit Hadd. unfold body. rewrite Hget, Hquit.
  assert (Hvo : vo (if do_show then say st [ImShow (image frame)] else st) = vo st)
    by (destruct do_show; reflexivity).
  rewrite Hvo, Hadd. reflexivity.
Qed.

(** The mask of line 87 keeps the value modulo 256. *)
Lemma land_255_mod (x : Z) : Z.land 255 x = x mod 256.
Proof.
  rewrite Z.land_comm. change 255 with (Z.ones 8). apply Z.land_ones. lia.
Qed.

(** X4: the exceptions [main] lets escape, each exactly when its cause
    is there.  The run ends in a configuration error exactly when the
    load of the parameters fails; in the length error of [reserve]
    exactly when the load succeeds and [numframes] is negative; in the
    failure of [addFrame] at frame [i] exactly when the load succeeds,
    [i] is below [numframes], the frames up to [i] are there and shown
    without [q], the calls for the frames before [i] returned, each with
    an entry at [maxTestLevel], and the call for frame [i] fails. *)
Theorem abort_causes (options : Options) :
  let dataset := Dataset_Create (opt_config options) in
  let do_show := negb (opt_dontshow options) in
  (main options = Aborted ConfigurationError <->
   AlgorithmParameters_load (opt_config options) = None) /\
  (main options = Aborted LengthError <->
   is_Some (AlgorithmParameters_load (opt_config options)) /\
   opt_numframes options < 0) /\
  (forall i : Z,
     main options = Aborted (AddFrameError i) <->
     exists (params : AlgorithmParameters Tuning) (n : nat) (frames : list Frame)
            (results : list (Result Pose double)) (engine : Engine) (frame : Frame),
       AlgorithmParameters_load (opt_config options) = Some params /\
       i = Z.of_nat n /\ i < opt_numframes options /\
       frames_from dataset 0 n = Some <$> frames /\
       (forall k : nat, (k <= n)%nat -> quit_pressed do_show (Z.of_nat k) = false) /\
       feed (Vo_new dataset params) frames = Some (results, engine) /\
       Forall (fun r => is_Some (stats_at r (maxTestLevel params))) results /\
       getFrame dataset i = Some frame /\
       Vo_addFrame engine frame = None).
Proof.
  intros dataset do_show.
  assert (Hthrown : forall params e,
             AlgorithmParameters_load (opt_config options) = Some params ->
             0 <= opt_numframes options ->
             main options = Aborted e ->
             exists (n : nat) (st_n : Locals),
               Z.of_nat n < opt_numframes options /\
               after dataset params do_show (start (Vo_new dataset params)) n
               = Some st_n /\
               body dataset params do_show (Z.of_nat n) st_n = Throw e).
  { intros params e Hload Hpos Hmain. unfold main in Hmain.
    fold dataset do_show in Hmain. rewrite Hload in Hmain.
    destruct (Z.ltb_spec (opt_numframes options) 0); [lia|].
    destruct (loop dataset params do_show _ _ 0 _) as [n1 st1|e1|] eqn:Hloop.
    - unfold finish in Hmain. destruct (String.eqb _ _); discriminate.
    - injection Hmain as ->.
      exact (loop_Thrown_how dataset params do_show _ _ _ 0%nat _ _ eq_refl Hloop).
    - discriminate. }
  split_and!.
  - split.
    + intros Hmain.
      destruct (AlgorithmParameters_load (opt_config options)) as [params|] eqn:Hload;
        [exfalso|reflexivity].
      destruct (Z.ltb_spec (opt_numframes options) 0) as [Hneg|Hpos].
      * unfold main in Hmain. rewrite Hload in Hmain.
        apply Z.ltb_lt in Hneg. rewrite Hneg in Hmain. discriminate.
      * destruct (Hthrown _ _ eq_refl Hpos Hmain) as (n & st_n & _ & _ & Hb).
        destruct (body_Throw_how _ _ _ _ _ _ Hb)
          as (frame & _ & _ & [[_ ?]|(r & vo' & _ & _ & ?)]); discriminate.
    + intros Hload. unfold main. rewrite Hload. reflexivity.
  - split.
    + intros Hmain.
      destruct (AlgorithmParameters_load (opt_config options)) as [params|] eqn:Hload.
      * split; [eexists; reflexivity|].
        destruct (Z.ltb_spec (opt_numframes options) 0) as [Hneg|Hpos]; [exact Hneg|].
        exfalso.
        destruct (Hthrown _ _ eq_refl Hpos Hmain) as (n & st_n & _ & _ & Hb).
        destruct (body_Throw_how _ _ _ _ _ _ Hb)
          as (frame & _ & _ & [[_ ?]|(r & vo' & _ & _ & ?)]); discriminate.
      * unfold main in Hmain. rewrite Hload in Hmain. discriminate.
    + intros [[params Hload] Hneg]. unfold main. rewrite Hload.
      apply Z.ltb_lt in Hneg. rewrite Hneg. reflexivity.
  - intros i. split.
    + intros Hmain.
      destruct (AlgorithmParameters_load (opt_config options)) as [params|] eqn:Hload;
        [|unfold main in Hmain; rewrite Hload in Hmain; discriminate].
      destruct (Z.ltb_spec (opt_numframes options) 0) as [Hneg|Hpos].
      { unfold main in Hmain. rewrite Hload in Hmain.
        apply Z.ltb_lt in Hneg. rewrite Hneg in Hmain. discriminate. }
      destruct (Hthrown _ _ eq_refl Hpos Hmain) as (n & st_n & Hlt & Haft & Hb).
      destruct (after_run _ _ _ _ _ _ Haft)
        as (frames & results & Hfr & Hq & Hfeed & Hst & _).
      destruct (body_Throw_how _ _ _ _ _ _ Hb)
        as (frame & Hget & Hquit & [[Hnone Hi]|(r & vo' & _ & _ & ?)]);
        [|discriminate].
      injection Hi as ->.
      exists params, n, frames, results, (vo st_n), frame. split_and!; auto.
      intros k Hk. destruct (decide (k = n)) as [->|]; [exact Hquit|].
      apply Hq. lia.
    + intros (params & n & frames & results & engine & frame & Hload & -> & Hlt &
              Hfr & Hq & Hfeed & Hst & Hget & Hnone).
      destruct (after_built dataset params do_show (Vo_new dataset params) n
                  frames results engine Hfr
                  (fun k Hk => Hq k (Nat.lt_le_incl _ _ Hk)) Hfeed Hst)
        as (st_n & Haft & Hvo).
      rewrite <- Hvo in Hnone.
      pose proof (body_throws dataset params do_show _ _ _ Hget (Hq n (le_n n)) Hnone)
        as Hb.
      unfold main. fold dataset do_show. rewrite Hload.
      destruct (Z.ltb_spec (opt_numframes options) 0); [lia|].
      replace (Z.to_nat (opt_numframes options))
        with (n + (Z.to_nat (opt_numframes options) - n))%nat by lia.
      rewrite (loop_after dataset params do_show _ _ n 0%nat _ st_n _ eq_refl Haft)
        by (simpl; lia).
      simpl Nat.add. rewrite loop_unfold.
      destruct (Z.ltb_spec (Z.of_nat n) (opt_numframes options)); [|lia].
      destruct (Z.to_nat (opt_numframes options) - n)%nat eqn:Hfuel; [lia|].
      rewrite Hb. reflexivity.
Qed.

(** X13: the key that ends a run counts by its low eight bits.  In a run
    with the display on that returns after [f_i] frames, no key read
    before frame [f_i] was 113, the code of [q], modulo 256; when the run
    stopped below [numframes] at a frame that was there, the key read at
    it was 113 modulo 256, whatever higher bits came with it; and when
    every key read is -1 (no key pressed) the run ends only at
    [numframes] or for want of a frame. *)
Theorem quit_key_is_masked (options : Options) (code f_i : Z) (st : Locals)
    (files : list file_effect) :
  main options = Returned code f_i st files ->
  opt_dontshow options = false ->
  let dataset := Dataset_Create (opt_config options) in
  (forall k, 0 <= k < f_i -> waitKey k mod 256 <> 113) /\
  (f_i < opt_numframes options -> is_Some (getFrame dataset f_i) ->
   waitKey f_i mod 256 = 113) /\
  ((forall k, 0 <= k < opt_numframes options -> waitKey k = -1) ->
   f_i = opt_numframes options \/ getFrame dataset f_i = None).
Proof.
  intros Hmain Hshow dataset.
  destruct (main_Returned_trace _ _ _ _ _ Hmain)
    as (params & n & frames & results & stop & _ & -> & Hfr & Hq & _ & _ & Hstop & _).
  fold dataset in Hfr, Hstop.
  destruct (stopped_stops_at _ _ _ _ _ Hstop) as [Hmax Hwhy].
  split_and!.
  - intros k Hk Hkey.
    pose proof (no_stop_before _ _ _ _ Hfr Hq k (proj1 Hk)) as Hle.
    enough (Z.of_nat n <= k) by lia. apply Hle. right.
    rewrite land_255_mod. auto.
  - intros Hlt [frame Hsome].
    destruct Hwhy as [|[Hnone|[_ Hkey]]]; [lia|congruence|].
    rewrite <- land_255_mod. exact Hkey.
  - intros Hidle. destruct Hwhy as [|[Hnone|[_ Hkey]]]; auto.
    destruct (decide (Z.of_nat n = opt_numframes options)); [auto|exfalso].
    rewrite land_255_mod, Hidle in Hkey by lia. discriminate Hkey.
Qed.

End DriverExtrasMore.

(** * The further statements at work on the sample world *)

Section MoreWitnesses.
Local Existing Instance Sample.platform.
Local Existing Instance Sample.odometry.
Local Existing Instance Sample.numerics.

(** Four frames without display, stopped by the bound. *)
Lemma console_of_run_witness :
  Sample.run (Sample.quiet 4 "out")
  = Returned 0 4 (Sample.locals_of (Sample.quiet 4 "out"))
      (Sample.files_of (Sample.quiet 4 "out")) /\
  exists (params : AlgorithmParameters Tuning) (n : nat) (frames : list Frame)
         (results : list (Result Pose double)) (stop : list event),
    AlgorithmParameters_load "tsukuba_stereo.cfg" = Some params /\
    4 = Z.of_nat n /\
    frames_from Sample.dataset 0 n = Some <$> frames /\
    feed (Vo_new Sample.dataset params) frames
    = Some (results, vo (Sample.locals_of (Sample.quiet 4 "out"))) /\
    stopped Sample.dataset false 4 n stop /\
    console (Sample.locals_of (Sample.quiet 4 "out"))
    = run_events params false 0 frames results ++ closing stop "out".
Proof.
  split; [reflexivity|].
  apply (console_of_run (Sample.quiet 4 "out") 0 4
           (Sample.locals_of (Sample.quiet 4 "out"))
           (Sample.files_of (Sample.quiet 4 "out"))).
  reflexivity.
Defined.

(** The dataset of [short.cfg] gives out after three of five frames. *)
Lemma frames_before_stop_witness :
  Sample.run SampleMore.short
  = Returned 0 3 (Sample.locals_of SampleMore.short)
      (Sample.files_of SampleMore.short) /\
  0 <= 3 <= 5 /\
  (forall k : Z, 0 <= k < 3 ->
     is_Some (getFrame (Dataset_Create "short.cfg") k) /\
     quit_pressed false k = false) /\
  (3 = 5 \/ getFrame (Dataset_Create "short.cfg") 3 = None \/
   quit_pressed false 3 = true).
Proof.
  split; [reflexivity|].
  apply (frames_before_stop SampleMore.short 0 3
           (Sample.locals_of SampleMore.short) (Sample.files_of SampleMore.short)).
  reflexivity.
Defined.

(** Four frames that are there, four calls that return, the bound of
    four: the run returns after four frames. *)
Lemma run_returns_after_witness :
  AlgorithmParameters_load "tsukuba_stereo.cfg" = Some Sample.config /\
  Z.of_nat 4 <= 4 /\
  frames_from Sample.dataset 0 4 = Some <$> SampleMore.frames4 /\
  (forall k : nat, (k < 4)%nat -> quit_pressed false (Z.of_nat k) = false) /\
  feed (Vo_new Sample.dataset Sample.config) SampleMore.frames4
  = Some (SampleMore.results4, SampleMore.engine4) /\
  Forall (fun r => is_Some (stats_at r (maxTestLevel Sample.config)))
    SampleMore.results4 /\
  (Z.of_nat 4 = 4 \/ getFrame Sample.dataset (Z.of_nat 4) = None \/
   quit_pressed false (Z.of_nat 4) = true) /\
  exists (st : Locals) (files : list file_effect),
    Sample.run (Sample.quiet 4 "out") = Returned 0 (Z.of_nat 4) st files /\
    vo st = SampleMore.engine4 /\
    trajectory st = pose <$> SampleMore.results4.
Proof.
  assert (Hstats : Forall (fun r => is_Some (stats_at r (maxTestLevel Sample.config)))
                     SampleMore.results4).
  { repeat constructor; eexists; reflexivity. }
  split; [reflexivity|]. split; [reflexivity|]. split; [reflexivity|].
  split; [intros k _; reflexivity|]. split; [reflexivity|].
  split; [exact Hstats|]. split; [left; reflexivity|].
  apply (run_returns_after (Sample.quiet 4 "out") Sample.config 4
           SampleMore.frames4 SampleMore.results4 SampleMore.engine4).
  - reflexivity.
  - reflexivity.
  - reflexivity.
  - intros k _. reflexivity.
  - reflexivity.
  - exact Hstats.
  - left. reflexivity.
Defined.

(** Four frames without display: no image. *)
Lemma quiet_run_shows_nothing_witness :
  Sample.run (Sample.quiet 4 "out")
  = Returned 0 4 (Sample.locals_of (Sample.quiet 4 "out"))
      (Sample.files_of (Sample.quiet 4 "out")) /\
  opt_dontshow (Sample.quiet 4 "out") = true /\
  shown_images (console (Sample.locals_of (Sample.quiet 4 "out"))) = [] /\
  (forall k, quit_pressed (negb (opt_dontshow (Sample.quiet 4 "out"))) k = false) /\
  (4 = opt_numframes (Sample.quiet 4 "out") \/
   getFrame (Dataset_Create "tsukuba_stereo.cfg") 4 = None).
Proof.
  split; [reflexivity|]. split; [reflexivity|].
  apply (quiet_run_shows_nothing (Sample.quiet 4 "out") 0 4
           (Sample.locals_of (Sample.quiet 4 "out"))
           (Sample.files_of (Sample.quiet 4 "out"))); reflexivity.
Defined.

(** The default options on the sample: the display is on and [q] is
    pressed while frame 2 is shown. *)
Lemma display_shows_each_frame_witness :
  Sample.run default_options
  = Returned 0 2 (Sample.locals_of default_options)
      (Sample.files_of default_options) /\
  opt_dontshow default_options = false /\
  exists (n : nat) (frames : list Frame),
    2 = Z.of_nat n /\
    frames_from Sample.dataset 0 n = Some <$> frames /\
    ((shown_images (console (Sample.locals_of default_options)) = image <$> frames /\
      (2 = opt_numframes default_options \/ getFrame Sample.dataset 2 = None)) \/
     (exists frame,
        getFrame Sample.dataset 2 = Some frame /\
        quit_pressed true 2 = true /\
        shown_images (console (Sample.locals_of default_options))
        = image <$> (frames ++ [frame]))).
Proof.
  split; [reflexivity|]. split; [reflexivity|].
  apply (display_shows_each_frame default_options 0 2
           (Sample.locals_of default_options)
           (Sample.files_of default_options)); reflexivity.
Defined.

(** The short dataset: the message is there. *)
Lemma no_more_data_logged_witness :
  Sample.run SampleMore.short
  = Returned 0 3 (Sample.locals_of SampleMore.short)
      (Sample.files_of SampleMore.short) /\
  (no_more_data ∈ console (Sample.locals_of SampleMore.short) <->
   3 < opt_numframes SampleMore.short /\
   getFrame (Dataset_Create (opt_config SampleMore.short)) 3 = None).
Proof.
  split; [reflexivity|].
  apply (no_more_data_logged SampleMore.short 0 3
           (Sample.locals_of SampleMore.short) (Sample.files_of SampleMore.short)).
  reflexivity.
Defined.

(** Four frames: the warning for frame 3. *)
Lemma warning_before_its_progress_line_witness :
  Sample.run (Sample.quiet 4 "out")
  = Returned 0 4 (Sample.locals_of (Sample.quiet 4 "out"))
      (Sample.files_of (Sample.quiet 4 "out")) /\
  (Warn_max_iterations 3 ∈ console (Sample.locals_of (Sample.quiet 4 "out"))) /\
  exists (params : AlgorithmParameters Tuning) (pre post : list event)
         (line : ProgressLine),
    AlgorithmParameters_load "tsukuba_stereo.cfg" = Some params /\
    console (Sample.locals_of (Sample.quiet 4 "out"))
    = pre ++ [Stdout_newline; Warn_max_iterations 3; Progress line] ++ post /\
    shown_frame line = 3 - 1 /\
    shown_iters line = maxIterations params /\
    (Warn_max_iterations 3 ∉ pre) /\ (Warn_max_iterations 3 ∉ post) /\
    0 <= 3 < 4.
Proof.
  assert (Hw : Warn_max_iterations 3
               ∈ console (Sample.locals_of (Sample.quiet 4 "out"))).
  { apply elem_of_warned. vm_compute. constructor. }
  split; [reflexivity|]. split; [exact Hw|].
  apply (warning_before_its_progress_line (Sample.quiet 4 "out") 0 4
           (Sample.locals_of (Sample.quiet 4 "out"))
           (Sample.files_of (Sample.quiet 4 "out")) 3); [reflexivity | exact Hw].
Defined.

(** Four frames: console and records agree. *)
Lemma console_agrees_with_records_witness :
  Sample.run (Sample.quiet 4 "out")
  = Returned 0 4 (Sample.locals_of (Sample.quiet 4 "out"))
      (Sample.files_of (Sample.quiet 4 "out")) /\
  exists (params : AlgorithmParameters Tuning) (n : nat)
         (results : list (Result Pose double)),
    AlgorithmParameters_load "tsukuba_stereo.cfg" = Some params /\
    4 = Z.of_nat n /\
    processed Sample.dataset params (Vo_new Sample.dataset params) n results
      (vo (Sample.locals_of (Sample.quiet 4 "out"))) /\
    shown_iters <$> progress_lines (console (Sample.locals_of (Sample.quiet 4 "out")))
    = iterations (Sample.locals_of (Sample.quiet 4 "out")) /\
    (fun line => float_of_double (shown_ms line))
      <$> progress_lines (console (Sample.locals_of (Sample.quiet 4 "out")))
    = time_ms (Sample.locals_of (Sample.quiet 4 "out")) /\
    shown_reason <$> progress_lines (console (Sample.locals_of (Sample.quiet 4 "out")))
    = (fun r => ToString (keyFramingReason r)) <$> results /\
    Forall (fun line => shown_points line = 0)
      (progress_lines (console (Sample.locals_of (Sample.quiet 4 "out")))) /\
    total_time (Sample.locals_of (Sample.quiet 4 "out")) = accumulated n.
Proof.
  split; [reflexivity|].
  apply (console_agrees_with_records (Sample.quiet 4 "out") 0 4
           (Sample.locals_of (Sample.quiet 4 "out"))
           (Sample.files_of (Sample.quiet 4 "out"))).
  reflexivity.
Defined.

(** Four frames: the iteration listing read back. *)
Lemma iterations_listing_reads_back_witness :
  Sample.run (Sample.quiet 4 "out")
  = Returned 0 4 (Sample.locals_of (Sample.quiet 4 "out"))
      (Sample.files_of (Sample.quiet 4 "out")) /\
  (TextFile (opt_output (Sample.quiet 4 "out") +:+ "_iterations.txt")
     (put_lines show_int [0; 1; 3; 4])
   ∈ Sample.files_of (Sample.quiet 4 "out")) /\
  read_int <$> lines (put_lines show_int [0; 1; 3; 4])
  = Some <$> iterations (Sample.locals_of (Sample.quiet 4 "out")) /\
  Z.of_nat (length (lines (put_lines show_int [0; 1; 3; 4]))) = 4.
Proof.
  assert (Hin : TextFile (opt_output (Sample.quiet 4 "out") +:+ "_iterations.txt")
                  (put_lines show_int [0; 1; 3; 4])
                ∈ Sample.files_of (Sample.quiet 4 "out")).
  { rewrite sample_files, !elem_of_cons. right. right. left. reflexivity. }
  split; [reflexivity|]. split; [exact Hin|].
  apply (iterations_listing_reads_back (Sample.quiet 4 "out") 0 4
           (Sample.locals_of (Sample.quiet 4 "out"))
           (Sample.files_of (Sample.quiet 4 "out"))
           (put_lines show_int [0; 1; 3; 4])); [reflexivity | exact Hin].
Defined.

(** Four frames: four files under four names. *)
Lemma result_files_named_apart_witness :
  Sample.run (Sample.quiet 4 "out")
  = Returned 0 4 (Sample.locals_of (Sample.quiet 4 "out"))
      (Sample.files_of (Sample.quiet 4 "out")) /\
  NoDup (file_name <$> Sample.files_of (Sample.quiet 4 "out")) /\
  forall f, f ∈ Sample.files_of (Sample.quiet 4 "out") ->
    exists ending,
      ending ∈ ["_path.txt"; "_poses.txt"; "_iterations.txt"; "_time.txt"] /\
      file_name f = opt_output (Sample.quiet 4 "out") +:+ ending.
Proof.
  split; [reflexivity|].
  apply (result_files_named_apart (Sample.quiet 4 "out") 0 4
           (Sample.locals_of (Sample.quiet 4 "out"))
           (Sample.files_of (Sample.quiet 4 "out"))).
  reflexivity.
Defined.

(** A bound of 0 with a prefix: three empty listings. *)
Lemma empty_run_writes_empty_listings_witness :
  Sample.run (Sample.quiet 0 "out")
  = Returned 0 0 (Sample.locals_of (Sample.quiet 0 "out"))
      (Sample.files_of (Sample.quiet 0 "out")) /\
  (exists params, AlgorithmParameters_load "tsukuba_stereo.cfg" = Some params /\
                  vo (Sample.locals_of (Sample.quiet 0 "out"))
                  = Vo_new Sample.dataset params) /\
  trajectory (Sample.locals_of (Sample.quiet 0 "out")) = [] /\
  iterations (Sample.locals_of (Sample.quiet 0 "out")) = [] /\
  time_ms (Sample.locals_of (Sample.quiet 0 "out")) = [] /\
  progress_lines (console (Sample.locals_of (Sample.quiet 0 "out"))) = [] /\
  forall name text,
    TextFile name text ∈ Sample.files_of (Sample.quiet 0 "out") ->
    text = EmptyString.
Proof.
  split; [reflexivity|].
  apply (empty_run_writes_empty_listings (Sample.quiet 0 "out") 0
           (Sample.locals_of (Sample.quiet 0 "out"))
           (Sample.files_of (Sample.quiet 0 "out"))).
  reflexivity.
Defined.

(** The sample world with two-line poses: two frames under the prefix
    [out]. *)
Example sample_rows_files :
  SampleMore.rows_files_of (Sample.quiet 2 "out")
  = [@CameraPath SampleMore.rows_platform "out_path.txt" [0; 1];
     @TextFile SampleMore.rows_platform "out_poses.txt"
       (put_lines (@show_pose SampleMore.rows_platform) [0; 1]);
     @TextFile SampleMore.rows_platform "out_iterations.txt"
       (put_lines show_int [0; 1]);
     @TextFile SampleMore.rows_platform "out_time.txt"
       (put_lines show_int [1000; 2000])].
Proof. reflexivity. Qed.

Example sample_rows_lines :
  lines (put_lines (@show_pose SampleMore.rows_platform) [0; 1])
  = ["0"; "0"; "1"; "1"].
Proof. reflexivity. Qed.

(** The default options on the sample (display on, [q] while frame 2 is
    shown): the run stops after two frames. *)
Lemma main_loop_bounded_witness :
  0 <= 2 <= 1000 /\
  Z.of_nat (Trajectory.size (trajectory (Sample.locals_of default_options))) = 2 /\
  Z.of_nat (length (iterations (Sample.locals_of default_options))) = 2 /\
  Z.of_nat (length (time_ms (Sample.locals_of default_options))) = 2 /\
  (forall k, 0 <= k -> stops_at Sample.dataset false k -> 2 <= k) /\
  (2 = 1000 \/ stops_at Sample.dataset false 2).
Proof. exact (proj2 (main_loop_bounded default_options)). Defined.

(** Four frames, results under the prefix [out]: frame 3 reaches the cap
    of four iterations at the inspected level 1. *)
Lemma cap_reached_warns_witness :
  Sample.run (Sample.quiet 4 "out")
  = Returned 0 4 (Sample.locals_of (Sample.quiet 4 "out"))
      (Sample.files_of (Sample.quiet 4 "out")) /\
  exists (params : AlgorithmParameters Tuning) (n : nat)
         (results : list (Result Pose double)),
    Core.load "tsukuba_stereo.cfg" = Some params /\
    4 = Z.of_nat n /\
    processed Sample.dataset params (Vo_new Sample.dataset params) n results
      (vo (Sample.locals_of (Sample.quiet 4 "out"))) /\
    forall (i : nat) (r : Result Pose double),
      results !! i = Some r ->
      exists s : OptimizerStatistics double,
        0 <= maxTestLevel params /\
        optimizerStatistics r !! Z.to_nat (maxTestLevel params) = Some s /\
        iterations (Sample.locals_of (Sample.quiet 4 "out")) !! i
        = Some (numIterations s) /\
        (numIterations s = maxIterations params ->
         converged s = false /\
         Warn_max_iterations (Z.of_nat i)
         ∈ console (Sample.locals_of (Sample.quiet 4 "out"))) /\
        (Warn_max_iterations (Z.of_nat i)
         ∈ console (Sample.locals_of (Sample.quiet 4 "out")) ->
         numIterations s = maxIterations params).
Proof.
  split; [reflexivity|].
  apply (cap_reached_warns (Sample.quiet 4 "out") 0 4
           (Sample.locals_of (Sample.quiet 4 "out"))
           (Sample.files_of (Sample.quiet 4 "out"))).
  reflexivity.
Defined.

(** The same run: frame 2 reaches the cap at level 2 and not at the
    inspected level 1. *)
Lemma warning_inspects_one_level_witness :
  Sample.run (Sample.quiet 4 "out")
  = Returned 0 4 (Sample.locals_of (Sample.quiet 4 "out"))
      (Sample.files_of (Sample.quiet 4 "out")) /\
  exists (params : AlgorithmParameters Tuning) (n : nat)
         (results : list (Result Pose double)),
    AlgorithmParameters_load "tsukuba_stereo.cfg" = Some params /\
    4 = Z.of_nat n /\
    processed Sample.dataset params (Vo_new Sample.dataset params) n results
      (vo (Sample.locals_of (Sample.quiet 4 "out"))) /\
    (forall (i : nat) (r : Result Pose double),
       results !! i = Some r ->
       exists s : OptimizerStatistics double,
         0 <= maxTestLevel params /\
         optimizerStatistics r !! Z.to_nat (maxTestLevel params) = Some s /\
         (Warn_max_iterations (Z.of_nat i)
          ∈ console (Sample.locals_of (Sample.quiet 4 "out")) <->
          numIterations s = maxIterations params) /\
         forall (l : nat) (s' : OptimizerStatistics double),
           l <> Z.to_nat (maxTestLevel params) ->
           optimizerStatistics r !! l = Some s' ->
           numIterations s' = maxIterations params ->
           numIterations s <> maxIterations params ->
           Warn_max_iterations (Z.of_nat i)
           ∉ console (Sample.locals_of (Sample.quiet 4 "out"))) /\
    (forall (i j : nat) (r_i r_j : Result Pose double),
       results !! i = Some r_i -> results !! j = Some r_j ->
       optimizerStatistics r_i !! Z.to_nat (maxTestLevel params)
       = optimizerStatistics r_j !! Z.to_nat (maxTestLevel params) ->
       Warn_max_iterations (Z.of_nat i)
       ∈ console (Sample.locals_of (Sample.quiet 4 "out")) <->
       Warn_max_iterations (Z.of_nat j)
       ∈ console (Sample.locals_of (Sample.quiet 4 "out"))).
Proof.
  split; [reflexivity|].
  apply (warning_inspects_one_level (Sample.quiet 4 "out") 0 4
           (Sample.locals_of (Sample.quiet 4 "out"))
           (Sample.files_of (Sample.quiet 4 "out"))).
  reflexivity.
Defined.

(** The claim of three parallel listings fails in two ways.  Under the
    prefix [locked] the file of the time listing does not open: the run
    writes the camera path and two listings, and there is no third.  Where
    the text of a pose takes two lines, the pose listing of two frames has
    four lines and the iteration listing two. *)
Lemma listings_not_always_parallel :
  (Sample.run (Sample.quiet 2 "locked")
   = Returned 0 2 (Sample.locals_of (Sample.quiet 2 "locked"))
       (Sample.files_of (Sample.quiet 2 "locked")) /\
   Sample.files_of (Sample.quiet 2 "locked") <> [] /\
   ~ parallel_listings "locked" 2 (Sample.files_of (Sample.quiet 2 "locked"))) /\
  ((exists st, SampleMore.rows_run (Sample.quiet 2 "out")
               = Returned 0 2 st (SampleMore.rows_files_of (Sample.quiet 2 "out"))) /\
   ~ parallel_listings "out" 2 (SampleMore.rows_files_of (Sample.quiet 2 "out"))).
Proof.
  split; split_and!.
  - reflexivity.
  - rewrite sample_locked. discriminate.
  - rewrite sample_locked. intros (poses & iters & times & _ & _ & Ht & _).
    rewrite !elem_of_cons in Ht.
    destruct Ht as [Ht|[Ht|[Ht|Ht]]]; [discriminate Ht..|inversion Ht].
  - eexists. reflexivity.
  - rewrite sample_rows_files. intros (poses & iters & times & Hp & _ & _ & Hlen & _).
    rewrite !elem_of_cons in Hp.
    destruct Hp as [Hp|[Hp|[Hp|[Hp|Hp]]]];
      [discriminate Hp | | discriminate Hp.. | inversion Hp].
    injection Hp as ->.
    change (length ["0"; "0"; "1"; "1"] = 2%nat) in Hlen. discriminate Hlen.
Qed.

(** Four frames under the prefix [out], every file opening and every text
    on one line. *)
Lemma listings_parallel_witness :
  Sample.run (Sample.quiet 4 "out")
  = Returned 0 4 (Sample.locals_of (Sample.quiet 4 "out"))
      (Sample.files_of (Sample.quiet 4 "out")) /\
  opt_output (Sample.quiet 4 "out") <> EmptyString /\
  exists (params : AlgorithmParameters Tuning) (n : nat)
         (results : list (Result Pose double)),
    AlgorithmParameters_load "tsukuba_stereo.cfg" = Some params /\
    4 = Z.of_nat n /\
    processed Sample.dataset params (Vo_new Sample.dataset params) n results
      (vo (Sample.locals_of (Sample.quiet 4 "out"))) /\
    length results = n /\
    (forall name, name ∈ ["out_poses.txt"; "out_iterations.txt"; "out_time.txt"] ->
       (exists text, TextFile name text ∈ Sample.files_of (Sample.quiet 4 "out")) <->
       is_open name = true) /\
    (forall text,
       TextFile "out_poses.txt" text ∈ Sample.files_of (Sample.quiet 4 "out") ->
       text = put_lines show_pose (pose <$> results) /\
       ((forall p, has_LF (show_pose p) = false) ->
        lines text = (fun r => show_pose (pose r)) <$> results)) /\
    (forall text,
       TextFile "out_iterations.txt" text ∈ Sample.files_of (Sample.quiet 4 "out") ->
       text = put_lines show_int (iterations (Sample.locals_of (Sample.quiet 4 "out"))) /\
       length (lines text) = n /\
       forall (i : nat) (r : Result Pose double),
         results !! i = Some r ->
         exists (s : OptimizerStatistics double) (line : string),
           optimizerStatistics r !! Z.to_nat (maxTestLevel params) = Some s /\
           lines text !! i = Some line /\
           read_int line = Some (numIterations s)) /\
    (forall text,
       TextFile "out_time.txt" text ∈ Sample.files_of (Sample.quiet 4 "out") ->
       text = put_lines show_float
                ((fun i => float_of_double (timer_count i)) <$> seqZ 0 (Z.of_nat n)) /\
       ((forall x, has_LF (show_float x) = false) ->
        lines text
        = (fun i => show_float (float_of_double (timer_count i)))
            <$> seqZ 0 (Z.of_nat n))) /\
    ((forall p, has_LF (show_pose p) = false) ->
     (forall x, has_LF (show_float x) = false) ->
     is_open "out_poses.txt" = true -> is_open "out_iterations.txt" = true ->
     is_open "out_time.txt" = true ->
     parallel_listings "out" n (Sample.files_of (Sample.quiet 4 "out"))).
Proof.
  split; [reflexivity|]. split; [discriminate|].
  apply (listings_parallel (Sample.quiet 4 "out") 0 4
           (Sample.locals_of (Sample.quiet 4 "out"))
           (Sample.files_of (Sample.quiet 4 "out"))); [reflexivity | discriminate].
Defined.

(** A negative number of frames on a configuration that loads. *)
Lemma abort_causes_witness :
  (is_Some (AlgorithmParameters_load "tsukuba_stereo.cfg") /\ -1 < 0) /\
  Sample.run (Sample.quiet (-1) "out") = Aborted LengthError.
Proof.
  assert (Hcause : is_Some (AlgorithmParameters_load "tsukuba_stereo.cfg") /\ -1 < 0).
  { split; [eexists; reflexivity | lia]. }
  split; [exact Hcause|].
  apply (proj1 (proj2 (abort_causes (Sample.quiet (-1) "out")))). exact Hcause.
Defined.

(** The default options on the sample: the key read while frame 2 is
    shown is 369, which is 113 modulo 256. *)
Lemma quit_key_is_masked_witness :
  Sample.run default_options
  = Returned 0 2 (Sample.locals_of default_options)
      (Sample.files_of default_options) /\
  opt_dontshow default_options = false /\
  (forall k, 0 <= k < 2 -> waitKey k mod 256 <> 113) /\
  (2 < opt_numframes default_options -> is_Some (getFrame Sample.dataset 2) ->
   waitKey 2 mod 256 = 113) /\
  ((forall k, 0 <= k < opt_numframes default_options -> waitKey k = -1) ->
   2 = opt_numframes default_options \/ getFrame Sample.dataset 2 = None).
Proof.
  split; [reflexivity|]. split; [reflexivity|].
  apply (quit_key_is_masked default_options 0 2
           (Sample.locals_of default_options)
           (Sample.files_of default_options)); reflexivity.
Defined.

End MoreWitnesses.
